(** * Field extraction from an OCR transcript (backend/app.py)

    A shallow embedding of the three field extractors of [backend/app.py]
    ([extract_aadhar], [extract_dob], [extract_name]) and of the name
    cleaner [clean_extracted_name], together with the part of Python's
    [str] and [re] behaviour they rely on.

    Python strings are sequences of Unicode code points: a character is a
    code point in [N] and a string is a list of characters.  The Unicode
    character database consulted by [str] and [re] is a parameter of the
    development (record [ucd]); the facts about it that a proof needs are
    stated as hypotheses of the section the proof lives in. *)

From Stdlib Require Import Strings.String Strings.Ascii.
From Stdlib Require Import List NArith ZArith Arith Bool Lia.
Import ListNotations.

(** ** Characters and strings *)

Definition char := N.
Definition str := list char.

Definition of_string (s : string) : str :=
  map N_of_ascii (list_ascii_of_string s).

Notation "'py' s" := (of_string s%string) (at level 9, s at level 0, only parsing).

Definition in_range (lo hi c : char) : bool := ((lo <=? c) && (c <=? hi))%N.

Definition is_empty (s : str) : bool :=
  match s with [] => true | _ => false end.

(** ** Python values reaching the extractors, and outcomes of a call

    A transcript argument is either a [str] or [None].  A call either
    returns a value or raises. *)

Inductive pyval :=
| PyNone
| PyStr (s : str).

Inductive pyexn := TypeError | AttributeError | IndexError.

Inductive outcome (A : Type) :=
| Returns (a : A)
| Raises (e : pyexn).

Arguments Returns {A} a.
Arguments Raises {A} e.

Definition bind {A B} (m : outcome A) (f : A -> outcome B) : outcome B :=
  match m with
  | Returns a => f a
  | Raises e => Raises e
  end.

Notation "x <- m ;; k" := (bind m (fun x => k))
  (at level 61, m at next level, right associativity).

(** [l[k]] on a list: an index below zero counts from the end, and an
    index outside the list raises [IndexError]. *)
Definition py_getitem {A : Type} (l : list A) (k : Z) : outcome A :=
  let n := Z.of_nat (length l) in
  let k := if (k <? 0)%Z then (k + n)%Z else k in
  if ((k <? 0) || (n <=? k))%Z then Raises IndexError
  else
    match nth_error l (Z.to_nat k) with
    | Some a => Returns a
    | None => Raises IndexError
    end.

(** Truthiness of [None], of a string and of an optional string. *)
Definition truthy (v : pyval) : bool :=
  match v with
  | PyNone => false
  | PyStr s => negb (is_empty s)
  end.

Definition truthy_opt (v : option str) : bool :=
  match v with
  | None => false
  | Some s => negb (is_empty s)
  end.

(** ** The Unicode character database

    What [str.strip], [str.split], [str.title], [str.upper] and the [re]
    classes [\s], [\d], [\w] and the flag [re.IGNORECASE] look up. *)

Record ucd := {
  isspace : char -> bool;          (* Py_UNICODE_ISSPACE: \s, strip, split *)
  isdecimal : char -> bool;        (* Py_UNICODE_ISDECIMAL: \d *)
  isalnum : char -> bool;          (* Py_UNICODE_ISALNUM: \w, without '_' *)
  tolower : char -> char;          (* simple lower-case mapping *)
  toupper : char -> char;          (* simple upper-case mapping *)
  iscased : char -> bool;          (* property Cased *)
  iscaseignorable : char -> bool;  (* property Case_Ignorable *)
  tolower_full : char -> str;      (* full lower-case mapping *)
  totitle_full : char -> str;      (* full title-case mapping *)
  toupper_full : char -> str       (* full upper-case mapping *)
}.

(** [re._casefix._EXTRA_CASES]: for a lower-case character, the other
    lower-case characters with the same case-insensitive class. *)
Definition extra_cases : list (char * list char) :=
  [ (105, [305]); (115, [383]); (181, [956]); (305, [105]); (383, [115]);
    (837, [953; 8126]); (912, [8147]); (944, [8163]); (946, [976]);
    (949, [1013]); (952, [977]); (953, [837; 8126]); (954, [1008]);
    (956, [181]); (960, [982]); (961, [1009]); (962, [963]); (963, [962]);
    (966, [981]); (976, [946]); (977, [952]); (981, [966]); (982, [960]);
    (1008, [954]); (1009, [961]); (1013, [949]); (1074, [7296]);
    (1076, [7297]); (1086, [7298]); (1089, [7299]); (1090, [7300; 7301]);
    (1098, [7302]); (1123, [7303]); (7296, [1074]); (7297, [1076]);
    (7298, [1086]); (7299, [1089]); (7300, [1090; 7301]);
    (7301, [1090; 7300]); (7302, [1098]); (7303, [1123]); (7304, [42571]);
    (7777, [7835]); (7835, [7777]); (8126, [837; 953]); (8147, [912]);
    (8163, [944]); (42571, [7304]); (64261, [64262]); (64262, [64261]) ]%N.

Fixpoint assoc (k : char) (l : list (char * list char)) : option (list char) :=
  match l with
  | [] => None
  | (k', v) :: l' => if (k =? k')%N then Some v else assoc k l'
  end.

Definition mem (c : char) (l : list char) : bool := existsb (N.eqb c) l.

(** ** Regular expressions

    The fragment of [re] syntax used by the extractors.  A repetition
    always repeats a single-character set, as everywhere in the source
    except the optional group [(?:...)?], which is [Alt _ Eps]. *)

Inductive regex :=
| Eps
| Chr (p : char -> bool)                         (* one character of a set *)
| Seq (a b : regex)
| Alt (a b : regex)                              (* a|b, a tried first *)
| Rep (p : char -> bool) (lo : nat) (hi : option nat)  (* greedy p{lo,hi} *)
| Bos                                            (* ^ without MULTILINE *)
| Eos                                            (* $ without MULTILINE *)
| Wordb.                                         (* \b *)

Definition Opt (a : regex) : regex := Alt a Eps.
Definition Star p := Rep p 0 None.
Definition Plus p := Rep p 1 None.

Fixpoint seqs (l : list regex) : regex :=
  match l with
  | [] => Eps
  | [a] => a
  | a :: l' => Seq a (seqs l')
  end.

Fixpoint alts (a : regex) (l : list regex) : regex :=
  match l with
  | [] => a
  | b :: l' => Alt a (alts b l')
  end.

Definition last_char (prev : option char) (w : str) : option char :=
  match rev w with
  | c :: _ => Some c
  | [] => prev
  end.

(** Character sets. *)
Definition lit (c : char) : char -> bool := N.eqb c.
Definition cneg (p : char -> bool) : char -> bool := fun c => negb (p c).
Definition cor (p q : char -> bool) : char -> bool := fun c => p c || q c.
Fixpoint cunion (l : list (char -> bool)) : char -> bool :=
  match l with
  | [] => fun _ => false
  | p :: l' => cor p (cunion l')
  end.

Definition upper_AZ : char -> bool := in_range 65%N 90%N.      (* A-Z *)
Definition lower_az : char -> bool := in_range 97%N 122%N.     (* a-z *)
Definition latin : char -> bool := cor upper_AZ lower_az.  (* A-Za-z *)
Definition devanagari : char -> bool := in_range 2304%N 2431%N. (* ऀ-ॿ *)
Definition any_but_newline : char -> bool := cneg (lit 10%N). (* . *)

(** The case mappings of the ASCII letters. *)
Definition ascii_upper (c : char) : char :=
  if lower_az c then (c - 32)%N else c.

Definition ascii_lower (c : char) : char :=
  if upper_AZ c then (c + 32)%N else c.

Section WithUnicode.

Variable U : ucd.

(** [\d], [\s], [\w] for a [str] pattern. *)
Definition cls_d : char -> bool := isdecimal U.
Definition cls_s : char -> bool := isspace U.
Definition cls_w : char -> bool := cor (isalnum U) (lit 95%N).

(** A literal character under [re.IGNORECASE], as [re._compiler._compile]
    emits it: an uncased literal is compared as it is; a cased one through
    the simple lower-case mapping, widened by [extra_cases]. *)
Definition sre_iscased (c : char) : bool :=
  negb (c =? tolower U c)%N || negb (c =? toupper U c)%N.

Definition lit_i (c : char) : char -> bool :=
  if sre_iscased c then
    let lo := tolower U c in
    match assoc lo extra_cases with
    | None => fun ch => (tolower U ch =? lo)%N
    | Some fx =>
        fun ch =>
          let l := tolower U ch in
          mem l (lo :: fx) || mem (toupper U l) (lo :: fx)
    end
  else lit c.

Definition word_i (s : str) : regex := seqs (map (fun c => Chr (lit_i c)) s).

(** *** Matching

    [rmatch r prev s] lists every way [r] matches a prefix of [s], as
    pairs (matched text, rest), in the order in which the backtracking
    matcher of [re] tries them; [prev] is the character before [s] in the
    subject string ([None] at its start). *)

Definition is_word (c : option char) : bool :=
  match c with
  | Some c => cls_w c
  | None => false
  end.

Definition hi_allows (hi : option nat) : bool :=
  match hi with
  | Some 0 => false
  | _ => true
  end.

Definition hi_pred (hi : option nat) : option nat :=
  match hi with
  | Some n => Some (pred n)
  | None => None
  end.

Fixpoint rep_list (p : char -> bool) (lo : nat) (hi : option nat) (s : str)
  : list (str * str) :=
  let stop := if (lo =? 0)%nat then [([], s)] else [] in
  match s with
  | c :: s' =>
      if p c && hi_allows hi then
        map (fun m => (c :: fst m, snd m)) (rep_list p (pred lo) (hi_pred hi) s')
          ++ stop
      else stop
  | [] => stop
  end.

Fixpoint rmatch (r : regex) (prev : option char) (s : str) : list (str * str) :=
  match r with
  | Eps => [([], s)]
  | Chr p =>
      match s with
      | c :: s' => if p c then [([c], s')] else []
      | [] => []
      end
  | Seq a b =>
      flat_map
        (fun m1 =>
           map (fun m2 => (fst m1 ++ fst m2, snd m2))
               (rmatch b (last_char prev (fst m1)) (snd m1)))
        (rmatch a prev s)
  | Alt a b => rmatch a prev s ++ rmatch b prev s
  | Rep p lo hi => rep_list p lo hi s
  | Bos => match prev with None => [([], s)] | Some _ => [] end
  | Eos =>
      match s with
      | [] => [([], s)]
      | [c] => if (c =? 10)%N then [([], s)] else []
      | _ => []
      end
  | Wordb =>
      if xorb (is_word prev) (is_word (hd_error s)) then [([], s)] else []
  end.

(** The first match at the current position; with [must_advance] an
    empty match is not accepted there. *)
Definition first_match (r : regex) (prev : option char) (s : str)
    (must_advance : bool) : option (str * str) :=
  hd_error
    (filter (fun m => negb must_advance || negb (is_empty (fst m)))
            (rmatch r prev s)).

(** [re.match(r, s)]: the match at the start of [s] ([group(0)]). *)
Definition re_match (r : regex) (s : str) : option str :=
  option_map fst (first_match r None s false).

(** [re.fullmatch(r, s)] as a truth value. *)
Definition re_fullmatch (r : regex) (s : str) : bool :=
  existsb (fun m => is_empty (snd m)) (rmatch r None s).

(** [re.search(r, s)]: text before the leftmost match, the match, the
    rest. *)
Fixpoint search_from (r : regex) (prev : option char) (s : str)
  : option (str * str * str) :=
  match first_match r prev s false with
  | Some (w, rest) => Some ([], w, rest)
  | None =>
      match s with
      | [] => None
      | c :: s' =>
          match search_from r (Some c) s' with
          | Some (b, w, rest) => Some (c :: b, w, rest)
          | None => None
          end
      end
  end.

Definition re_search (r : regex) (s : str) : option str :=
  match search_from r None s with
  | Some (_, w, _) => Some w
  | None => None
  end.

Definition re_test (r : regex) (s : str) : bool :=
  match re_search r s with Some _ => true | None => false end.

(** [re.sub(r, repl, s)] for a replacement without group references.
    [skip] counts the characters of the current match still to be passed
    over.  After an empty match the next match at the same position must
    advance. *)
Fixpoint sub_go (r : regex) (repl : str) (prev : option char) (s : str)
    (skip : nat) {struct s} : str :=
  match s with
  | [] =>
      match skip with
      | 0 =>
          match first_match r prev [] false with
          | Some _ => repl
          | None => []
          end
      | S _ => []
      end
  | c :: s' =>
      match skip with
      | S n => sub_go r repl (Some c) s' n
      | 0 =>
          match first_match r prev s false with
          | Some (w, _) =>
              match length w with
              | S n => repl ++ sub_go r repl (Some c) s' n
              | 0 =>
                  repl ++
                  match first_match r prev s true with
                  | Some (w', _) =>
                      repl ++ sub_go r repl (Some c) s' (pred (length w'))
                  | None => c :: sub_go r repl (Some c) s' 0
                  end
              end
          | None => c :: sub_go r repl (Some c) s' 0
          end
      end
  end.

Definition re_sub (r : regex) (repl : str) (s : str) : str :=
  sub_go r repl None s 0.

(** [re.search] on a Python value: a [TypeError] when it is not a string. *)
Definition py_re_search (r : regex) (v : pyval) : outcome (option str) :=
  match v with
  | PyStr s => Returns (re_search r s)
  | PyNone => Raises TypeError
  end.

(** ** [str] methods *)

(** [s.strip()] *)
Fixpoint lstrip (s : str) : str :=
  match s with
  | c :: s' => if isspace U c then lstrip s' else s
  | [] => []
  end.

Definition rstrip (s : str) : str := rev (lstrip (rev s)).
Definition strip (s : str) : str := rstrip (lstrip s).

(** [s.split()]: maximal runs of non-whitespace characters.  [cur] is the
    token being read, reversed. *)
Fixpoint split_go (cur : str) (s : str) : list str :=
  match s with
  | [] => match cur with [] => [] | _ => [rev cur] end
  | c :: s' =>
      if isspace U c then
        match cur with
        | [] => split_go [] s'
        | _ => rev cur :: split_go [] s'
        end
      else split_go (c :: cur) s'
  end.

Definition split (s : str) : list str := split_go [] s.

(** [sep.join(l)] *)
Fixpoint join (sep : str) (l : list str) : str :=
  match l with
  | [] => []
  | [a] => a
  | a :: l' => a ++ sep ++ join sep l'
  end.

(** [s.splitlines()]: the line boundaries are LF, CR, CR LF, VT, FF, FS,
    GS, RS, NEL, U+2028 and U+2029; no empty last line. *)
Definition is_linebreak (c : char) : bool :=
  mem c [10; 11; 12; 13; 28; 29; 30; 133; 8232; 8233]%N.

Fixpoint splitlines_go (cur : str) (s : str) : list str :=
  match s with
  | [] => match cur with [] => [] | _ => [rev cur] end
  | c :: s' =>
      if is_linebreak c then
        rev cur ::
          match c, s' with
          | 13%N, 10%N :: s'' => splitlines_go [] s''
          | _, _ => splitlines_go [] s'
          end
      else splitlines_go (c :: cur) s'
  end.

Definition splitlines (s : str) : list str := splitlines_go [] s.

End WithUnicode.

Section Extractors.

Variable U : ucd.

(** [s.title()] and [s.upper()] ([do_title], [do_upper] of
    unicodeobject.c).  A capital sigma is lower-cased by context. *)
Fixpoint skip_ignorable (s : str) : str :=
  match s with
  | c :: s' => if iscaseignorable U c then skip_ignorable s' else s
  | [] => []
  end.

Definition final_sigma (before_rev after : str) : bool :=
  match skip_ignorable before_rev with
  | c :: _ =>
      iscased U c &&
      match skip_ignorable after with
      | [] => true
      | c' :: _ => negb (iscased U c')
      end
  | [] => false
  end.

Definition lower_ucs4 (before_rev : str) (c : char) (after : str) : str :=
  if (c =? 931)%N then [if final_sigma before_rev after then 962%N else 963%N]
  else tolower_full U c.

Fixpoint title_go (before_rev : str) (previous_is_cased : bool) (s : str) : str :=
  match s with
  | [] => []
  | c :: s' =>
      (if previous_is_cased then lower_ucs4 before_rev c s'
       else totitle_full U c)
        ++ title_go (c :: before_rev) (iscased U c) s'
  end.

Definition title (s : str) : str := title_go [] false s.

Definition upper (s : str) : str := flat_map (toupper_full U) s.

(** [s[lo:hi]] for 0 <= lo <= hi *)
Definition slice (lo hi : nat) (s : str) : str := firstn (hi - lo) (skipn lo s).

(** The non-empty stripped lines of a transcript:
    [[l.strip() for l in t.splitlines() if l.strip()]]. *)
Definition stripped_lines (t : str) : list str :=
  map (strip U) (filter (fun l => negb (is_empty (strip U l))) (splitlines t)).

Definition py_stripped_lines (t : pyval) : outcome (list str) :=
  match t with
  | PyStr s => Returns (stripped_lines s)
  | PyNone => Raises AttributeError
  end.

(** *** The patterns of the source *)

Definition SP : str := py " ".

(** (\d{4}\s?\d{4}\s?\d{4}) : group 1 is the whole match *)
Definition aadhar_re : regex :=
  seqs [Rep (cls_d U) 4 (Some 4); Rep (cls_s U) 0 (Some 1);
        Rep (cls_d U) 4 (Some 4); Rep (cls_s U) 0 (Some 1);
        Rep (cls_d U) 4 (Some 4)].

(** [\/\-] *)
Definition date_sep : char -> bool := cor (lit 47%N) (lit 45%N).

(** (\d{2}[\/\-]\d{2}[\/\-]\d{4}) : group 1 is the whole match *)
Definition date_re : regex :=
  seqs [Rep (cls_d U) 2 (Some 2); Chr date_sep;
        Rep (cls_d U) 2 (Some 2); Chr date_sep;
        Rep (cls_d U) 4 (Some 4)].

(** ^[^A-Za-zऀ-ॿ]+ *)
Definition lead_nonletter_re : regex :=
  Seq Bos (Plus (cneg (cor latin devanagari))).

(** \b(Name|NAME|नाम|नाव|DOB|Date of Birth|DOB:)\b[:\s\-]*  with
    re.IGNORECASE *)
Definition label_re : regex :=
  seqs [Wordb;
        alts (word_i U (py "Name"))
             [word_i U (py "NAME");
              word_i U [2344; 2366; 2350]%N;
              word_i U [2344; 2366; 2357]%N;
              word_i U (py "DOB");
              word_i U (py "Date of Birth");
              word_i U (py "DOB:")];
        Wordb;
        Star (cunion [lit 58%N; cls_s U; lit 45%N])].

(** [A-Za-z]{1,2} *)
Definition short_token_re : regex := Rep latin 1 (Some 2).

(** \b(MALE|FEMALE|VID|Aadhaar|AADHAAR|UID)\b.*$  with re.IGNORECASE *)
Definition trailing_re : regex :=
  seqs [Wordb;
        alts (word_i U (py "MALE"))
             [word_i U (py "FEMALE");
              word_i U (py "VID");
              word_i U (py "Aadhaar");
              word_i U (py "AADHAAR");
              word_i U (py "UID")];
        Wordb;
        Star any_but_newline;
        Eos].

(** [^A-Za-zऀ-ॿ\s\.\'\-] *)
Definition name_char : char -> bool :=
  cunion [latin; devanagari; cls_s U; lit 46%N; lit 39%N; lit 45%N].

Definition not_name_char_re : regex := Chr (cneg name_char).

(** \s{2,} *)
Definition spaces2_re : regex := Rep (cls_s U) 2 None.

(** \s+ *)
Definition spaces_re : regex := Plus (cls_s U).

(** [A-Za-z] *)
Definition has_latin_re : regex := Chr latin.

(** [A-Za-z]\. *)
Definition initial_re : regex := Seq (Chr latin) (Chr (lit 46%N)).

(** ^[^\wऀ-ॿ]+ *)
Definition lead_nonword_re : regex :=
  Seq Bos (Plus (cneg (cor (cls_w U) devanagari))).

(** ^\d+\s+ *)
Definition num_prefix_re : regex :=
  seqs [Bos; Plus (cls_d U); Plus (cls_s U)].

(** (?: \d+ \s* )? ([A-Za-zऀ-ॿ][A-Za-zऀ-ॿ'\-\.]{1,}) \s+ ([A-Za-zऀ-ॿ][A-Za-zऀ-ॿ'\-\.]{1,}),
    written here with spaces between its parts *)
Definition name_start : char -> bool := cor latin devanagari.
Definition name_rest : char -> bool :=
  cunion [latin; devanagari; lit 39%N; lit 45%N; lit 46%N].

Definition two_word_re : regex :=
  seqs [Opt (Seq (Plus (cls_d U)) (Star (cls_s U)));
        Chr name_start; Rep name_rest 1 None;
        Plus (cls_s U);
        Chr name_start; Rep name_rest 1 None].

(** *** [extract_aadhar] *)

Definition extract_aadhar (text : pyval) : outcome (option str) :=
  m <- py_re_search U aadhar_re text ;;
  match m with
  | None => Returns None
  | Some g1 =>
      let digits := re_sub U spaces_re [] g1 in
      if negb (length digits =? 12) then Returns None
      else Returns (Some (slice 0 4 digits ++ SP ++ slice 4 8 digits
                            ++ SP ++ slice 8 12 digits))
  end.

(** *** [extract_dob] *)

Definition extract_dob (text : pyval) : outcome (option str) :=
  m <- py_re_search U date_re text ;;
  Returns m.

(** *** [clean_extracted_name] *)

(** The body of the loop over [s.split()]. *)
Definition case_token (tok : str) : str :=
  if re_test U has_latin_re tok then
    if re_fullmatch U initial_re tok then upper tok else title tok
  else tok.

Definition drop_short_first (parts : list str) : list str :=
  if (1 <? length parts) && re_fullmatch U short_token_re (hd [] parts)
  then tl parts else parts.

Definition clean_extracted_name (raw_name : pyval) : option str :=
  match raw_name with
  | PyNone => None
  | PyStr raw =>
      if is_empty raw then None else
      let s := strip U raw in
      let s := re_sub U lead_nonletter_re [] s in
      let s := re_sub U label_re [] s in
      let parts := drop_short_first (split U s) in
      let s := join SP parts in
      let s := strip U (re_sub U trailing_re [] s) in
      let s := re_sub U not_name_char_re SP s in
      let s := strip U (re_sub U spaces2_re SP s) in
      if is_empty s then None else
      let out_tokens := map case_token (split U s) in
      let res := join SP out_tokens in
      if length (split U res) <? 2 then None else Some res
  end.

(** *** [extract_name] *)

(** The candidate of [find_by_dob_block] before cleaning. *)
Definition dob_candidate (line : str) : str :=
  re_sub U num_prefix_re [] (re_sub U lead_nonword_re [] line).

(** The loop of [find_by_dob_block] over [enumerate(lines)]. *)
Fixpoint dob_loop (lines : list str) (todo : list (nat * str)) : option str :=
  match todo with
  | [] => None
  | (i, line) :: todo' =>
      if re_test U date_re line then
        if 0 <? i then
          let cand := dob_candidate (nth (i - 1) lines []) in
          let cleaned := clean_extracted_name (PyStr cand) in
          if truthy_opt cleaned then cleaned else dob_loop lines todo'
        else dob_loop lines todo'
      else dob_loop lines todo'
  end.

Definition enumerate (l : list str) : list (nat * str) :=
  combine (seq 0 (length l)) l.

Definition find_by_dob_block (t : pyval) : outcome (option str) :=
  lines <- py_stripped_lines t ;;
  Returns (dob_loop lines (enumerate lines)).

(** The loop over the lines looking for a two-word line; the source has
    it twice, once for the crop and once for the full text. *)
Fixpoint two_word_loop (lines : list str) : option str :=
  match lines with
  | [] => None
  | line :: lines' =>
      match re_match U two_word_re line with
      | Some g0 =>
          let cand := re_sub U num_prefix_re [] g0 in
          let cleaned := clean_extracted_name (PyStr cand) in
          if truthy_opt cleaned then cleaned else two_word_loop lines'
      | None => two_word_loop lines'
      end
  end.

Definition extract_name_full (text : pyval) : outcome (option str) :=
  name_from_full <- find_by_dob_block text ;;
  if truthy_opt name_from_full then Returns name_from_full
  else
    lines <- py_stripped_lines text ;;
    Returns (two_word_loop lines).

Definition extract_name (text text_crop : pyval) : outcome (option str) :=
  if truthy text_crop then
    name_from_crop <- find_by_dob_block text_crop ;;
    if truthy_opt name_from_crop then Returns name_from_crop
    else
      lines <- py_stripped_lines text_crop ;;
      match two_word_loop lines with
      | Some cleaned => Returns (Some cleaned)
      | None => extract_name_full text
      end
  else extract_name_full text.

(** *** The subscripts of the source, checked

    The definitions above read [parts[0]] and [lines[i - 1]] with [hd]
    and [nth], which do not fail.  In Python a subscript outside the
    list raises [IndexError].  The functions that contain or reach a
    subscript are given here once more with [py_getitem] in its place,
    so that the exception is a possible outcome; everything else is as
    above.  The slices [parts[1:]] and [digits[0:4]] do not raise. *)

Definition drop_short_first_checked (parts : list str) : outcome (list str) :=
  if 1 <? length parts then
    p0 <- py_getitem parts 0 ;;
    if re_fullmatch U short_token_re p0 then Returns (tl parts)
    else Returns parts
  else Returns parts.

Definition clean_extracted_name_checked (raw_name : pyval)
  : outcome (option str) :=
  match raw_name with
  | PyNone => Returns None
  | PyStr raw =>
      if is_empty raw then Returns None else
      let s := strip U raw in
      let s := re_sub U lead_nonletter_re [] s in
      let s := re_sub U label_re [] s in
      parts <- drop_short_first_checked (split U s) ;;
      let s := join SP parts in
      let s := strip U (re_sub U trailing_re [] s) in
      let s := re_sub U not_name_char_re SP s in
      let s := strip U (re_sub U spaces2_re SP s) in
      if is_empty s then Returns None else
      let out_tokens := map case_token (split U s) in
      let res := join SP out_tokens in
      if length (split U res) <? 2 then Returns None else Returns (Some res)
  end.

Fixpoint dob_loop_checked (lines : list str) (todo : list (nat * str))
  : outcome (option str) :=
  match todo with
  | [] => Returns None
  | (i, line) :: todo' =>
      if re_test U date_re line then
        if 0 <? i then
          cand <- py_getitem lines (Z.of_nat i - 1) ;;
          let cand := dob_candidate cand in
          cleaned <- clean_extracted_name_checked (PyStr cand) ;;
          if truthy_opt cleaned then Returns cleaned
          else dob_loop_checked lines todo'
        else dob_loop_checked lines todo'
      else dob_loop_checked lines todo'
  end.

Definition find_by_dob_block_checked (t : pyval) : outcome (option str) :=
  lines <- py_stripped_lines t ;;
  dob_loop_checked lines (enumerate lines).

Fixpoint two_word_loop_checked (lines : list str) : outcome (option str) :=
  match lines with
  | [] => Returns None
  | line :: lines' =>
      match re_match U two_word_re line with
      | Some g0 =>
          let cand := re_sub U num_prefix_re [] g0 in
          cleaned <- clean_extracted_name_checked (PyStr cand) ;;
          if truthy_opt cleaned then Returns cleaned
          else two_word_loop_checked lines'
      | None => two_word_loop_checked lines'
      end
  end.

Definition extract_name_full_checked (text : pyval) : outcome (option str) :=
  name_from_full <- find_by_dob_block_checked text ;;
  if truthy_opt name_from_full then Returns name_from_full
  else
    lines <- py_stripped_lines text ;;
    two_word_loop_checked lines.

Definition extract_name_checked (text text_crop : pyval)
  : outcome (option str) :=
  if truthy text_crop then
    name_from_crop <- find_by_dob_block_checked text_crop ;;
    if truthy_opt name_from_crop then Returns name_from_crop
    else
      lines <- py_stripped_lines text_crop ;;
      cleaned <- two_word_loop_checked lines ;;
      match cleaned with
      | Some cleaned => Returns (Some cleaned)
      | None => extract_name_full_checked text
      end
  else extract_name_full_checked text.

End Extractors.

(** ** A character database for the Basic Latin and Devanagari blocks

    The entries of the Unicode character database for U+0000..U+007F and
    U+0900..U+097F, and the complete white-space list; any other
    character has no property and maps to itself.  The closed examples
    below run on it. *)

Definition ws_chars : list char :=
  [9; 10; 11; 12; 13; 28; 29; 30; 31; 32; 133; 160; 5760; 8192; 8193; 8194;
   8195; 8196; 8197; 8198; 8199; 8200; 8201; 8202; 8232; 8233; 8239; 8287;
   12288]%N.

Definition ascii_digit : char -> bool := in_range 48%N 57%N.
Definition deva_digit : char -> bool := in_range 2406%N 2415%N.

(** Devanagari characters that are not alphanumeric (marks, signs and
    punctuation). *)
Definition deva_nonalnum (c : char) : bool :=
  in_range 2304%N 2307%N c || in_range 2362%N 2364%N c
  || in_range 2366%N 2383%N c || in_range 2385%N 2391%N c
  || in_range 2402%N 2405%N c || (c =? 2416)%N.

Definition deva_ignorable (c : char) : bool :=
  in_range 2304%N 2306%N c || (c =? 2362)%N || (c =? 2364)%N
  || in_range 2369%N 2376%N c || (c =? 2381)%N || in_range 2385%N 2391%N c
  || in_range 2402%N 2403%N c || (c =? 2417)%N.

Definition ucd_basic : ucd := {|
  isspace := fun c => mem c ws_chars;
  isdecimal := cor ascii_digit deva_digit;
  isalnum := fun c =>
    ascii_digit c || latin c || (devanagari c && negb (deva_nonalnum c));
  tolower := ascii_lower;
  toupper := ascii_upper;
  iscased := latin;
  iscaseignorable := fun c => mem c [39; 46; 58; 94; 96]%N || deva_ignorable c;
  tolower_full := fun c => [ascii_lower c];
  totitle_full := fun c => [ascii_upper c];
  toupper_full := fun c => [ascii_upper c]
|}.

Definition NL : str := [10%N].

(** ** The callers of the extractors: [ocr] and the body of [extract] *)

Section Caller.

Variable U : ucd.

(** [s.replace(old, new)] for a one-character [old]. *)
Definition replace_char (old : char) (new : str) (s : str) : str :=
  flat_map (fun c => if (c =? old)%N then new else [c]) s.

(** \n{2,} *)
Definition newlines2_re : regex := Rep (lit 10%N) 2 None.

(** [ocr]: what is made of the text of the engine.  [image_to_string] is
    the text that pytesseract returns for the image and [nfkc] is
    [unicodedata.normalize] with the form NFKC; both are outside the
    repository. *)
Definition ocr (nfkc : str -> str) (image_to_string : str) : str :=
  let text := nfkc image_to_string in
  let text := replace_char 13%N [] text in
  strip U (re_sub U newlines2_re NL text).

(** The fields of the response of [extract]. *)
Record fields := {
  name : option str;
  dob : option str;
  aadhar_number : option str
}.

(** [a or b] *)
Definition py_or (a b : pyval) : pyval := if truthy a then a else b.

(** The body of the [try] block of [extract] once the two transcripts
    are there: [text_crop] is [None] when there is no crop. *)
Definition extract_fields (text_full text_crop : pyval) : outcome fields :=
  aadhar <- extract_aadhar U text_full ;;
  dob <- extract_dob U (py_or text_crop text_full) ;;
  name <- extract_name U text_full text_crop ;;
  Returns {| name := name; dob := dob; aadhar_number := aadhar |}.

End Caller.

(** * Vocabulary of the statements *)

Section Vocabulary.

Variable U : ucd.

(** [den r prev w rest]: [r] can match [w] when [prev] precedes it and
    [rest] follows it. *)
Fixpoint den (r : regex) (prev : option char) (w rest : str) : Prop :=
  match r with
  | Eps => w = []
  | Chr p => exists c, w = [c] /\ p c = true
  | Seq a b =>
      exists w1 w2, w = w1 ++ w2 /\ den a prev w1 (w2 ++ rest)
                    /\ den b (last_char prev w1) w2 rest
  | Alt a b => den a prev w rest \/ den b prev w rest
  | Rep p lo hi =>
      forallb p w = true /\ lo <= length w
      /\ match hi with Some h => length w <= h | None => True end
  | Bos => w = [] /\ prev = None
  | Eos => w = [] /\ (rest = [] \/ rest = [10%N])
  | Wordb => w = [] /\ xorb (is_word U prev) (is_word U (hd_error rest)) = true
  end.

(** The length of the longest prefix of [s] made of characters of [p]. *)
Fixpoint span (p : char -> bool) (s : str) : nat :=
  match s with
  | c :: s' => if p c then S (span p s') else 0
  | [] => 0
  end.

(** A string of the form dddd dddd dddd: twelve [\d] characters in three
    groups of four, separated by one space U+0020. *)
Definition aadhar_format (r : str) : bool :=
  match r with
  | [a1; a2; a3; a4; s1; b1; b2; b3; b4; s2; c1; c2; c3; c4] =>
      forallb (cls_d U) [a1; a2; a3; a4; b1; b2; b3; b4; c1; c2; c3; c4]
      && (s1 =? 32)%N && (s2 =? 32)%N
  | _ => false
  end.

(** A string of the form dd?dd?dddd with [\d] characters and each ?
    a slash or a hyphen. *)
Definition date_format (r : str) : bool :=
  match r with
  | [d1; d2; s1; m1; m2; s2; y1; y2; y3; y4] =>
      forallb (cls_d U) [d1; d2; m1; m2; y1; y2; y3; y4]
      && date_sep s1 && date_sep s2
  | _ => false
  end.

(** [r] occurs in [t] as a contiguous substring. *)
Definition substring_of (r t : str) : Prop :=
  exists before after, t = before ++ r ++ after.

(** Strings without [\d] characters, of [\d] characters only, of [\s]
    characters only. *)
Definition no_digit (s : str) : Prop := forallb (cneg (cls_d U)) s = true.

Definition all_digits (s : str) : Prop := forallb (cls_d U) s = true.

Definition all_spaces (s : str) : Prop := forallb (cls_s U) s = true.

(** What the DOB-anchored loop obtains at line [i]: when line [i] matches
    the date pattern and is not the first line, the cleaned line before
    it, if that is non-null. *)
Definition dob_hit (lines : list str) (i : nat) : option str :=
  if re_test U (date_re U) (nth i lines []) && (0 <? i) then
    let cleaned :=
      clean_extracted_name U (PyStr (dob_candidate U (nth (i - 1) lines []))) in
    if truthy_opt cleaned then cleaned else None
  else None.

(** The first thing obtained at the lines [k], [k+1], ..., [k+m-1]. *)
Fixpoint first_hit (lines : list str) (k m : nat) : option str :=
  match m with
  | 0 => None
  | S m' =>
      match dob_hit lines k with
      | Some n => Some n
      | None => first_hit lines (S k) m'
      end
  end.

(** The two strategies on a transcript. *)
Definition dob_strategy (t : str) : option str :=
  dob_loop U (stripped_lines U t) (enumerate (stripped_lines U t)).

Definition two_word_strategy (t : str) : option str :=
  two_word_loop U (stripped_lines U t).

(** The first non-null result of a list of results. *)
Fixpoint first_success (l : list (option str)) : option str :=
  match l with
  | [] => None
  | Some n :: _ => Some n
  | None :: l' => first_success l'
  end.

(** The crop transcript as a text, empty when it is absent. *)
Definition crop_text (v : pyval) : str :=
  match v with
  | PyStr s => s
  | PyNone => []
  end.

(** The characters of a returned name: Latin letters, the Devanagari
    block, period, apostrophe, hyphen and the space U+0020. *)
Definition name_out_char (c : char) : bool :=
  latin c || devanagari c || mem c [46; 39; 45; 32]%N.

(** A character of a returned name or a white-space character. *)
Definition name_or_space (c : char) : bool := name_out_char c || cls_s U c.

(** The characters of a token of a cleaned name. *)
Definition name_tok_char (c : char) : bool :=
  latin c || devanagari c || mem c [46; 39; 45]%N.

(** A token: non-empty and made of name characters. *)
Definition token_ok (t : str) : Prop :=
  t <> [] /\ forallb name_tok_char t = true.

(** [r] begins with a Latin or Devanagari character. *)
Definition letter_first (r : str) : bool :=
  match r with
  | c :: _ => latin c || devanagari c
  | [] => false
  end.

(** [upper] and [title] on a token of name characters: only the Latin
    letters change, and only they are cased. *)
Definition up_char (c : char) : char := if latin c then ascii_upper c else c.

Fixpoint title_map (cased : bool) (s : str) : str :=
  match s with
  | [] => []
  | c :: s' =>
      (if latin c then if cased then ascii_lower c else ascii_upper c else c)
        :: title_map (latin c) s'
  end.

(** A Latin letter followed by a period. *)
Definition is_initial (s : str) : bool :=
  match s with
  | [c; d] => latin c && (46 =? d)%N
  | _ => false
  end.

(** A candidate of the numeric-ID pattern in [T]: after [b], three
    groups of four [\d] characters with gaps [s1], [s2] of at most one
    [\s] character, followed by [rest]. *)
Definition aadhar_candidate (T b g1 s1 g2 s2 g3 rest : str) : Prop :=
  T = b ++ g1 ++ s1 ++ g2 ++ s2 ++ g3 ++ rest
  /\ length g1 = 4 /\ length g2 = 4 /\ length g3 = 4
  /\ all_digits g1 /\ all_digits g2 /\ all_digits g3
  /\ all_spaces s1 /\ all_spaces s2
  /\ length s1 <= 1 /\ length s2 <= 1.

(** Neither a Latin nor a Devanagari character. *)
Definition non_letter : char -> bool := cneg (cor latin devanagari).

(** Title case: a Latin letter is upper-case when no Latin letter
    precedes it and lower-case when one does. *)
Fixpoint well_cased (after_latin : bool) (s : str) : bool :=
  match s with
  | [] => true
  | c :: s' =>
      (if latin c then if after_latin then lower_az c else upper_AZ c
       else true)
      && well_cased (latin c) s'
  end.

(** No two newlines in a row. *)
Fixpoint no_double_newline (s : str) : bool :=
  match s with
  | c :: s' =>
      match s' with
      | d :: _ => negb ((c =? 10)%N && (d =? 10)%N) && no_double_newline s'
      | [] => true
      end
  | [] => true
  end.

(** The string begins with a newline. *)
Definition hd_newline (s : str) : bool :=
  match s with
  | c :: _ => (c =? 10)%N
  | [] => false
  end.

(** No white space at either end. *)
Definition stripped (s : str) : bool :=
  match s with
  | [] => true
  | c :: _ => negb (isspace U c) && negb (isspace U (last s c))
  end.


End Vocabulary.

(** * Properties *)

(** ** The matcher against a declarative reading of the patterns *)

Section RegexFacts.

Variable U : ucd.

Lemma rep_list_sound (p : char -> bool) (s : str) :
  forall lo hi w rest,
    In (w, rest) (rep_list p lo hi s) ->
    s = w ++ rest /\ forallb p w = true /\ lo <= length w
    /\ match hi with Some h => length w <= h | None => True end.
Proof.
  induction s as [|c s' IH]; intros lo hi w rest Hin; simpl in Hin.
  - destruct (lo =? 0) eqn:E; simpl in Hin; [|contradiction].
    destruct Hin as [Heq|[]]. inversion Heq; subst.
    apply Nat.eqb_eq in E. subst. simpl.
    repeat split; auto. destruct hi; lia.
  - assert (Hstop : In (w, rest) (if lo =? 0 then [([], c :: s')] else []) ->
                    (c :: s') = w ++ rest /\ forallb p w = true /\ lo <= length w
                    /\ match hi with Some h => length w <= h | None => True end).
    { intros H. destruct (lo =? 0) eqn:E; simpl in H; [|contradiction].
      destruct H as [Heq|[]]. inversion Heq; subst.
      apply Nat.eqb_eq in E. subst. simpl.
      repeat split; auto. destruct hi; lia. }
    destruct (p c && hi_allows hi) eqn:E; [|auto].
    apply in_app_or in Hin. destruct Hin as [Hin|Hin]; [|auto].
    apply in_map_iff in Hin. destruct Hin as [[w' r'] [Heq Hin]].
    simpl in Heq. inversion Heq; subst. clear Heq.
    apply IH in Hin. destruct Hin as (Hs & Hall & Hlo & Hhi).
    apply andb_true_iff in E. destruct E as [Hp Hal].
    subst s'. simpl. rewrite Hp, Hall. repeat split; auto; try lia.
    destruct hi as [[|h]|]; simpl in *; try discriminate; lia.
Qed.

Lemma rep_list_complete (p : char -> bool) (w : str) :
  forall lo hi rest,
    forallb p w = true -> lo <= length w ->
    match hi with Some h => length w <= h | None => True end ->
    In (w, rest) (rep_list p lo hi (w ++ rest)).
Proof.
  induction w as [|c w' IH]; intros lo hi rest Hall Hlo Hhi; simpl in *.
  - assert (lo = 0) by lia. subst.
    destruct rest as [|d rest']; simpl; auto.
    destruct (p d && hi_allows hi); [apply in_or_app; right|]; simpl; auto.
  - apply andb_true_iff in Hall. destruct Hall as [Hp Hall].
    assert (Hal : hi_allows hi = true).
    { destruct hi as [[|h]|]; simpl; auto; lia. }
    rewrite Hp, Hal. simpl. apply in_or_app. left.
    apply in_map_iff. exists (w', rest). split; [reflexivity|].
    apply IH; auto; try lia.
    destruct hi as [[|h]|]; simpl in *; auto; lia.
Qed.

Lemma rmatch_iff (r : regex) :
  forall prev s w rest,
    In (w, rest) (rmatch U r prev s) <-> s = w ++ rest /\ den U r prev w rest.
Proof.
  induction r as [|p|a IHa b IHb|a IHa b IHb|p lo hi| | |];
    intros prev s w rest; simpl.
  - split.
    + intros [H|[]]. inversion H; subst. auto.
    + intros [-> ->]. simpl. auto.
  - split.
    + destruct s as [|c s']; [intros []|].
      destruct (p c) eqn:E; [|intros []].
      intros [H|[]]. inversion H; subst. split; auto. exists c; auto.
    + intros [-> (c & -> & Hp)]. simpl. rewrite Hp. simpl; auto.
  - rewrite in_flat_map. split.
    + intros ([w1 r1] & H1 & H2). apply in_map_iff in H2.
      destruct H2 as ([w2 r2] & Heq & H2). simpl in *.
      inversion Heq; subst. clear Heq.
      apply IHa in H1. apply IHb in H2.
      destruct H1 as [-> D1]. destruct H2 as [-> D2].
      rewrite app_assoc. split; auto. exists w1, w2. auto.
    + intros [-> (w1 & w2 & -> & D1 & D2)].
      exists (w1, w2 ++ rest). split.
      * apply IHa. rewrite app_assoc. auto.
      * apply in_map_iff. exists (w2, rest). simpl. split; auto.
        apply IHb. auto.
  - rewrite in_app_iff, IHa, IHb. tauto.
  - split.
    + intros H. apply rep_list_sound in H. tauto.
    + intros [-> (H1 & H2 & H3)]. apply rep_list_complete; auto.
  - split.
    + destruct prev; [intros []|]. intros [H|[]]. inversion H; subst. auto.
    + intros [-> [-> ->]]. simpl. auto.
  - split.
    + destruct s as [|c [|d s']].
      * intros [H|[]]. inversion H; subst. auto.
      * destruct (c =? 10)%N eqn:E; [|intros []].
        apply N.eqb_eq in E. subst.
        intros [H|[]]. inversion H; subst. auto.
      * intros [].
    + intros [-> [-> [-> | ->]]]; simpl; auto.
  - split.
    + destruct (xorb _ _) eqn:E; [|intros []].
      intros [H|[]]. inversion H; subst. auto.
    + intros [-> [-> H]]. simpl in *. rewrite H. simpl; auto.
Qed.

Lemma first_match_sound r prev s w rest :
  first_match U r prev s false = Some (w, rest) ->
  s = w ++ rest /\ den U r prev w rest.
Proof.
  unfold first_match. simpl. intros H.
  apply rmatch_iff.
  destruct (filter _ _) as [|m l] eqn:E; [discriminate|].
  simpl in H. inversion H; subst.
  assert (Hin : In (w, rest) (filter (fun _ : str * str => true) (rmatch U r prev s))).
  { rewrite E. left; reflexivity. }
  apply filter_In in Hin. tauto.
Qed.

Lemma first_match_none r prev s :
  first_match U r prev s false = None -> rmatch U r prev s = [].
Proof.
  unfold first_match. simpl.
  destruct (rmatch U r prev s) as [|m l]; [reflexivity|discriminate].
Qed.

Lemma search_from_sound r :
  forall s prev b w rest,
    search_from U r prev s = Some (b, w, rest) ->
    s = b ++ w ++ rest /\ den U r (last_char prev b) w rest.
Proof.
  induction s as [|c s' IH]; intros prev b w rest H; simpl in H.
  - destruct (first_match U r prev [] false) as [[w0 r0]|] eqn:E; [|discriminate].
    inversion H; subst. apply first_match_sound in E. simpl. auto.
  - destruct (first_match U r prev (c :: s') false) as [[w0 r0]|] eqn:E.
    + inversion H; subst. apply first_match_sound in E. simpl. auto.
    + destruct (search_from U r (Some c) s') as [[[b0 w0] r0]|] eqn:E'; [|discriminate].
      inversion H; subst. apply IH in E'. destruct E' as [-> D].
      split; [reflexivity|].
      replace (last_char prev (c :: b0)) with (last_char (Some c) b0); auto.
      unfold last_char. simpl. destruct (rev b0); reflexivity.
Qed.

(** [re.search] finds a match as soon as the pattern matches somewhere. *)
Lemma search_from_complete r :
  forall b prev w rest,
    den U r (last_char prev b) w rest ->
    search_from U r prev (b ++ w ++ rest) <> None.
Proof.
  induction b as [|c b' IH]; intros prev w rest D.
  - simpl app. destruct (w ++ rest) as [|c s'] eqn:Es; simpl;
      destruct (first_match U r prev _ false) as [[w0 r0]|] eqn:E;
      try discriminate; exfalso;
      apply first_match_none in E;
      assert (Hin : In (w, rest) (rmatch U r prev (w ++ rest)))
        by (apply rmatch_iff; auto);
      rewrite Es, E in Hin; destruct Hin.
  - simpl.
    destruct (first_match U r prev _ false) as [[w0 r0]|]; [discriminate|].
    assert (H : search_from U r (Some c) (b' ++ w ++ rest) <> None).
    { apply IH.
      replace (last_char (Some c) b') with (last_char prev (c :: b')); auto.
      unfold last_char. simpl. destruct (rev b'); reflexivity. }
    destruct (search_from U r (Some c) (b' ++ w ++ rest)) as [[[b0 w0] r0]|];
      [discriminate|congruence].
Qed.

End RegexFacts.

(** ** Substitution of a run of characters of one set *)

Section SubFacts.

Variable U : ucd.

Lemma span_firstn p s : forallb p (firstn (span p s) s) = true.
Proof.
  induction s as [|c s' IH]; simpl; auto.
  destruct (p c) eqn:E; simpl; auto. rewrite E. auto.
Qed.

Lemma span_le p s : span p s <= length s.
Proof.
  induction s as [|c s' IH]; simpl; auto. destruct (p c); simpl; lia.
Qed.

(** The greedy unbounded repetition first offers the longest run. *)
Lemma hd_rep_list_unbounded p :
  forall s lo,
    hd_error (rep_list p lo None s) =
    if lo <=? span p s
    then Some (firstn (span p s) s, skipn (span p s) s) else None.
Proof.
  induction s as [|c s' IH]; intros lo; simpl.
  - destruct lo; reflexivity.
  - destruct (p c) eqn:E; simpl.
    + specialize (IH (pred lo)).
      destruct (rep_list p (pred lo) None s') as [|m l] eqn:El; simpl in *.
      * destruct (pred lo <=? span p s') eqn:E1; [discriminate|].
        apply Nat.leb_gt in E1.
        destruct lo as [|lo]; simpl in *; [lia|].
        destruct (lo <=? span p s') eqn:E2; auto.
        apply Nat.leb_le in E2. lia.
      * destruct (pred lo <=? span p s') eqn:E1; [|discriminate].
        inversion IH; subst. simpl.
        apply Nat.leb_le in E1.
        destruct lo as [|lo]; simpl in *; auto.
        destruct (lo <=? span p s') eqn:E2; auto.
        apply Nat.leb_gt in E2. lia.
    + destruct lo; reflexivity.
Qed.

Lemma first_match_plus p prev s :
  first_match U (Plus p) prev s false =
  if 1 <=? span p s
  then Some (firstn (span p s) s, skipn (span p s) s) else None.
Proof.
  unfold first_match, Plus. cbn [rmatch].
  rewrite <- hd_rep_list_unbounded. f_equal.
  induction (rep_list p 1 None s) as [|m l IHl]; simpl; auto.
  f_equal. auto.
Qed.

(** [re.sub] of the pattern p+ by the empty string deletes the characters
    of the set. *)
Lemma sub_go_plus_filter p :
  forall s prev skip,
    forallb p (firstn skip s) = true -> skip <= length s ->
    sub_go U (Plus p) [] prev s skip = filter (cneg p) (skipn skip s).
Proof.
  induction s as [|c s' IH]; intros prev skip Hall Hlen.
  - simpl in Hlen. assert (skip = 0) by lia. subst. reflexivity.
  - destruct skip as [|n].
    + cbn [sub_go]. rewrite first_match_plus. cbn [span skipn filter].
      unfold cneg at 1.
      destruct (p c) eqn:E; cbn [negb Nat.leb firstn skipn length app].
      * rewrite length_firstn.
        rewrite (Nat.min_l _ _ (span_le p s')).
        rewrite IH; [|apply span_firstn|apply span_le].
        assert (H : filter (cneg p) (firstn (span p s') s') = []).
        { generalize (span_firstn p s').
          induction (firstn (span p s') s') as [|d l IHl]; simpl; auto.
          intros H. apply andb_true_iff in H. destruct H as [H1 H2].
          unfold cneg at 1. rewrite H1. simpl. auto. }
        transitivity (filter (cneg p)
                        (firstn (span p s') s' ++ skipn (span p s') s')).
        { rewrite filter_app, H. reflexivity. }
        rewrite firstn_skipn. reflexivity.
      * rewrite IH; simpl; auto; lia.
    + simpl in *. apply andb_true_iff in Hall. destruct Hall as [_ Hall].
      apply IH; auto. lia.
Qed.

Lemma re_sub_plus_filter p s :
  re_sub U (Plus p) [] s = filter (cneg p) s.
Proof.
  unfold re_sub. rewrite sub_go_plus_filter; simpl; auto. lia.
Qed.

End SubFacts.

(** ** The numeric-ID and date extractors *)

Section AadharDob.

Variable U : ucd.

Lemma length4 (w : str) :
  4 <= length w -> length w <= 4 -> exists a b c d, w = [a; b; c; d].
Proof.
  destruct w as [|a [|b [|c [|d [|e w]]]]]; simpl; intros; try lia.
  eauto.
Qed.

Lemma length2 (w : str) :
  2 <= length w -> length w <= 2 -> exists a b, w = [a; b].
Proof.
  destruct w as [|a [|b [|c w]]]; simpl; intros; try lia.
  eauto.
Qed.

Lemma length_le1 (w : str) :
  length w <= 1 -> w = [] \/ exists a, w = [a].
Proof.
  destruct w as [|a [|b w]]; simpl; intros; try lia; eauto.
Qed.

(** What a match of [aadhar_re] looks like. *)
Lemma aadhar_re_den prev w rest :
  den U (aadhar_re U) prev w rest ->
  exists g1 s1 g2 s2 g3,
    w = g1 ++ s1 ++ g2 ++ s2 ++ g3
    /\ length g1 = 4 /\ length g2 = 4 /\ length g3 = 4
    /\ forallb (cls_d U) (g1 ++ g2 ++ g3) = true
    /\ length s1 <= 1 /\ length s2 <= 1
    /\ forallb (cls_s U) (s1 ++ s2) = true.
Proof.
  unfold aadhar_re. simpl.
  intros (g1 & x1 & -> & (H1 & L1 & L1') & s1 & x2 & -> & (H2 & _ & L2)
          & g2 & x3 & -> & (H3 & L3 & L3') & s2 & g3 & -> & (H4 & _ & L4)
          & (H5 & L5 & L5')).
  exists g1, s1, g2, s2, g3.
  rewrite !forallb_app, H1, H2, H3, H4, H5.
  repeat split; auto; lia.
Qed.

Lemma forallb_filter_cor (p q : char -> bool) (l : str) :
  forallb (cor p q) l = true -> forallb p (filter (cneg q) l) = true.
Proof.
  induction l as [|c l IH]; simpl; auto.
  intros H. apply andb_true_iff in H. destruct H as [H1 H2].
  unfold cneg at 1. unfold cor in H1.
  destruct (q c); simpl; auto.
  rewrite orb_false_r in H1. rewrite H1. auto.
Qed.

Lemma forallb_weaken (p q : char -> bool) (l : str) :
  (forall c, p c = true -> q c = true) ->
  forallb p l = true -> forallb q l = true.
Proof.
  intros Hpq. induction l as [|c l IH]; simpl; auto.
  intros H. apply andb_true_iff in H. destruct H as [H1 H2].
  rewrite (Hpq _ H1). auto.
Qed.

(** C1.  For every transcript string, [extract_aadhar] returns without
    raising, and what it returns is either absent or a string of twelve
    digits in three groups of four separated by single spaces. *)
Theorem extract_aadhar_format (T : str) :
  match extract_aadhar U (PyStr T) with
  | Returns None => True
  | Returns (Some r) => aadhar_format U r = true
  | Raises _ => False
  end.
Proof.
  unfold extract_aadhar, py_re_search, bind, re_search.
  destruct (search_from U (aadhar_re U) None T) as [[[b w] rest]|] eqn:E; auto.
  apply search_from_sound in E. destruct E as [_ D].
  apply aadhar_re_den in D.
  destruct D as (g1 & s1 & g2 & s2 & g3 & -> & L1 & L2 & L3 & Hd & _ & _ & Hs).
  unfold spaces_re. rewrite re_sub_plus_filter.
  set (digits := filter (cneg (cls_s U)) (g1 ++ s1 ++ g2 ++ s2 ++ g3)).
  assert (Hall : forallb (cls_d U) digits = true).
  { apply forallb_filter_cor.
    rewrite !forallb_app in *.
    apply andb_true_iff in Hd. destruct Hd as [Hd1 Hd].
    apply andb_true_iff in Hd. destruct Hd as [Hd2 Hd3].
    apply andb_true_iff in Hs. destruct Hs as [Hs1 Hs2].
    rewrite (forallb_weaken _ (cor (cls_d U) (cls_s U)) _ (fun c H => orb_true_intro _ _ (or_introl H)) Hd1).
    rewrite (forallb_weaken _ (cor (cls_d U) (cls_s U)) _ (fun c H => orb_true_intro _ _ (or_introl H)) Hd2).
    rewrite (forallb_weaken _ (cor (cls_d U) (cls_s U)) _ (fun c H => orb_true_intro _ _ (or_introl H)) Hd3).
    rewrite (forallb_weaken _ (cor (cls_d U) (cls_s U)) _ (fun c H => orb_true_intro _ _ (or_intror H)) Hs1).
    rewrite (forallb_weaken _ (cor (cls_d U) (cls_s U)) _ (fun c H => orb_true_intro _ _ (or_intror H)) Hs2).
    reflexivity. }
  clearbody digits.
  destruct (length digits =? 12) eqn:El; simpl; auto.
  apply Nat.eqb_eq in El.
  destruct digits as [|a1 [|a2 [|a3 [|a4 [|b1 [|b2 [|b3 [|b4 [|c1 [|c2 [|c3 [|c4 [|x l]]]]]]]]]]]]];
    simpl in El; try discriminate.
  unfold slice, SP. simpl. simpl in Hall. rewrite Hall. reflexivity.
Qed.

(** What a match of [date_re] looks like. *)
Lemma date_re_den prev w rest :
  den U (date_re U) prev w rest -> date_format U w = true.
Proof.
  unfold date_re. simpl.
  intros (g1 & x1 & -> & (H1 & L1 & L1') & s1 & x2 & -> & (c1 & -> & Hc1)
          & g2 & x3 & -> & (H3 & L3 & L3') & s2 & g3 & -> & (c2 & -> & Hc2)
          & (H5 & L5 & L5')).
  destruct (length2 g1 L1 L1') as (d1 & d2 & ->).
  destruct (length2 g2 L3 L3') as (m1 & m2 & ->).
  destruct (length4 g3 L5 L5') as (y1 & y2 & y3 & y4 & ->).
  simpl in *.
  repeat match goal with
         | H : _ && _ = true |- _ => apply andb_true_iff in H; destruct H
         end.
  repeat match goal with
         | H : cls_d U _ = true |- _ => rewrite H; clear H
         end.
  rewrite Hc1, Hc2. reflexivity.
Qed.

(** C2.  For every transcript string, [extract_dob] returns without
    raising, and what it returns is either absent or a string of the form
    dd?dd?dddd (each ? a slash or a hyphen) that occurs verbatim in the
    transcript. *)
Theorem extract_dob_format (T : str) :
  match extract_dob U (PyStr T) with
  | Returns None => True
  | Returns (Some r) => date_format U r = true /\ substring_of r T
  | Raises _ => False
  end.
Proof.
  unfold extract_dob, py_re_search, bind, re_search.
  destruct (search_from U (date_re U) None T) as [[[b w] rest]|] eqn:E; auto.
  apply search_from_sound in E. destruct E as [-> D].
  split.
  - eapply date_re_den; eauto.
  - exists b, rest. reflexivity.
Qed.

End AadharDob.

(** ** The digit-count gate and the gaps between the groups *)

Section AadharGate.

Variable U : ucd.

(** No decimal digit is a white-space character. *)
Hypothesis digit_not_space :
  forall c, isdecimal U c = true -> isspace U c = false.

(** [re.search] returns the leftmost match. *)
Lemma search_from_leftmost r :
  forall s prev b w rest,
    search_from U r prev s = Some (b, w, rest) ->
    forall b1 b2, b = b1 ++ b2 -> b2 <> [] ->
    rmatch U r (last_char prev b1) (b2 ++ w ++ rest) = [].
Proof.
  induction s as [|c s' IH]; intros prev b w rest H b1 b2 Hb Hne; simpl in H.
  - destruct (first_match U r prev [] false) as [[w0 r0]|]; [|discriminate].
    inversion H; subst. destruct b1, b2; simpl in *; congruence.
  - destruct (first_match U r prev (c :: s') false) as [[w0 r0]|] eqn:E.
    + inversion H; subst. destruct b1, b2; simpl in *; congruence.
    + destruct (search_from U r (Some c) s') as [[[b0 w0] r0]|] eqn:E';
        [|discriminate].
      inversion H; subst. clear H.
      pose proof (search_from_sound U _ _ _ _ _ _ E') as [Hs _].
      destruct b1 as [|c1 b1]; simpl in H1.
      * subst b2. simpl. apply first_match_none in E.
        rewrite Hs in E. exact E.
      * inversion H1; subst.
        replace (last_char prev (c1 :: b1)) with (last_char (Some c1) b1).
        { eapply IH; eauto. }
        unfold last_char. simpl. destruct (rev b1); reflexivity.
Qed.

Lemma filter_digits_id (g : str) :
  all_digits U g -> filter (cneg (cls_s U)) g = g.
Proof.
  unfold all_digits. induction g as [|c g IH]; simpl; auto.
  intros H. apply andb_true_iff in H. destruct H as [H1 H2].
  unfold cneg at 1. unfold cls_s. rewrite (digit_not_space _ H1). simpl.
  f_equal. auto.
Qed.

Lemma filter_spaces_nil (s : str) :
  all_spaces U s -> filter (cneg (cls_s U)) s = [].
Proof.
  unfold all_spaces. induction s as [|c s IH]; simpl; auto.
  intros H. apply andb_true_iff in H. destruct H as [H1 H2].
  unfold cneg at 1. rewrite H1. simpl. auto.
Qed.

Lemma digit_space_absurd c :
  cls_d U c = true -> cls_s U c = true -> False.
Proof.
  unfold cls_d, cls_s. intros H1 H2.
  rewrite (digit_not_space _ H1) in H2. discriminate.
Qed.

(** Aligning one gap and one group of a match with the transcript. *)
Lemma gap_align (s' d X s g Y : str) :
  length s' <= 1 -> all_spaces U s' -> length d = 4 -> all_digits U d ->
  all_spaces U s -> length g = 4 -> all_digits U g ->
  s' ++ d ++ X = s ++ g ++ Y ->
  s' = s /\ d = g /\ X = Y.
Proof.
  unfold all_spaces, all_digits. intros Ls' Hs' Ld Hd Hs Lg Hg Heq.
  destruct d as [|d1 [|d2 [|d3 [|d4 [|d5 d]]]]]; simpl in Ld; try lia.
  destruct g as [|g1 [|g2 [|g3 [|g4 [|g5 g]]]]]; simpl in Lg; try lia.
  simpl in Hd, Hg.
  repeat match goal with
         | H : _ && _ = true |- _ => apply andb_true_iff in H; destruct H
         end.
  destruct s' as [|y [|y' s']]; simpl in Ls'; try lia;
    destruct s as [|x1 [|x2 s]]; simpl in Heq, Hs, Hs';
    repeat match goal with
           | H : _ && _ = true |- _ => apply andb_true_iff in H; destruct H
           end;
    inversion Heq; subst; auto;
    exfalso; eauto using digit_space_absurd.
Qed.

(** A match of [aadhar_re] that starts where the groups start is exactly
    the three groups with their gaps, and the gaps have at most one
    character. *)
Lemma aadhar_align prev w rest g1 s1 g2 s2 g3 post :
  den U (aadhar_re U) prev w rest ->
  length g1 = 4 -> length g2 = 4 -> length g3 = 4 ->
  all_digits U g1 -> all_digits U g2 -> all_digits U g3 -> all_spaces U s1 -> all_spaces U s2 ->
  w ++ rest = g1 ++ s1 ++ g2 ++ s2 ++ g3 ++ post ->
  w = g1 ++ s1 ++ g2 ++ s2 ++ g3 /\ rest = post
  /\ length s1 <= 1 /\ length s2 <= 1.
Proof.
  intros D L1 L2 L3 D1 D2 D3 S1 S2 Heq.
  apply aadhar_re_den in D.
  destruct D as (d1 & t1 & d2 & t2 & d3 & -> & K1 & K2 & K3 & Hd & M1 & M2 & Hs).
  rewrite !forallb_app in Hd. rewrite !forallb_app in Hs.
  apply andb_true_iff in Hd. destruct Hd as [Hd1 Hd].
  apply andb_true_iff in Hd. destruct Hd as [Hd2 Hd3].
  apply andb_true_iff in Hs. destruct Hs as [Hs1 Hs2].
  rewrite <- !app_assoc in Heq.
  destruct (gap_align [] d1 _ [] g1 _ (Nat.le_0_l 1) eq_refl K1 Hd1 eq_refl L1 D1 Heq)
    as (_ & -> & Heq1).
  destruct (gap_align t1 d2 _ s1 g2 _ M1 Hs1 K2 Hd2 S1 L2 D2 Heq1)
    as (-> & -> & Heq2).
  destruct (gap_align t2 d3 _ s2 g3 _ M2 Hs2 K3 Hd3 S2 L3 D3 Heq2)
    as (-> & -> & Heq3).
  auto.
Qed.

Lemma aadhar_den_intro prev g1 s1 g2 s2 g3 post :
  length g1 = 4 -> length g2 = 4 -> length g3 = 4 ->
  all_digits U g1 -> all_digits U g2 -> all_digits U g3 -> all_spaces U s1 -> all_spaces U s2 ->
  length s1 <= 1 -> length s2 <= 1 ->
  den U (aadhar_re U) prev (g1 ++ s1 ++ g2 ++ s2 ++ g3) post.
Proof.
  intros L1 L2 L3 D1 D2 D3 S1 S2 M1 M2.
  unfold aadhar_re. simpl.
  exists g1, (s1 ++ g2 ++ s2 ++ g3). split; [reflexivity|].
  split; [repeat split; auto; lia|].
  exists s1, (g2 ++ s2 ++ g3). split; [reflexivity|].
  split; [repeat split; auto; lia|].
  exists g2, (s2 ++ g3). split; [reflexivity|].
  split; [repeat split; auto; lia|].
  exists s2, g3. split; [reflexivity|].
  split; repeat split; auto; lia.
Qed.

(** A match starts with a digit. *)
Lemma aadhar_den_head prev w rest :
  den U (aadhar_re U) prev w rest ->
  exists a w', w = a :: w' /\ cls_d U a = true.
Proof.
  intros D. apply aadhar_re_den in D.
  destruct D as (d1 & t1 & d2 & t2 & d3 & -> & K1 & _ & _ & Hd & _).
  destruct d1 as [|a d1]; simpl in K1; [lia|].
  simpl in Hd. apply andb_true_iff in Hd. destruct Hd as [Ha _].
  exists a, (d1 ++ t1 ++ d2 ++ t2 ++ d3). auto.
Qed.

(** The value computed from a matched candidate. *)
Lemma aadhar_value g1 s1 g2 s2 g3 :
  length g1 = 4 -> length g2 = 4 -> length g3 = 4 ->
  all_digits U g1 -> all_digits U g2 -> all_digits U g3 -> all_spaces U s1 -> all_spaces U s2 ->
  let ds := re_sub U (spaces_re U) [] (g1 ++ s1 ++ g2 ++ s2 ++ g3) in
  (length ds =? 12) = true
  /\ slice 0 4 ds ++ SP ++ slice 4 8 ds ++ SP ++ slice 8 12 ds
     = g1 ++ SP ++ g2 ++ SP ++ g3.
Proof.
  intros L1 L2 L3 D1 D2 D3 S1 S2. unfold spaces_re.
  rewrite re_sub_plus_filter, !filter_app.
  rewrite (filter_digits_id _ D1), (filter_digits_id _ D2),
    (filter_digits_id _ D3), (filter_spaces_nil _ S1),
    (filter_spaces_nil _ S2).
  simpl.
  destruct g1 as [|a1 [|a2 [|a3 [|a4 [|a5 g1]]]]]; simpl in L1; try lia.
  destruct g2 as [|b1 [|b2 [|b3 [|b4 [|b5 g2]]]]]; simpl in L2; try lia.
  destruct g3 as [|c1 [|c2 [|c3 [|c4 [|c5 g3]]]]]; simpl in L3; try lia.
  split; reflexivity.
Qed.

(** Three groups of four digits with gaps of at most one white-space
    character, with no digit before them, are found and regrouped,
    whatever follows. *)
Lemma aadhar_accepts pre g1 s1 g2 s2 g3 post :
  no_digit U pre ->
  length g1 = 4 -> length g2 = 4 -> length g3 = 4 ->
  all_digits U g1 -> all_digits U g2 -> all_digits U g3 -> all_spaces U s1 -> all_spaces U s2 ->
  length s1 <= 1 -> length s2 <= 1 ->
  extract_aadhar U (PyStr (pre ++ g1 ++ s1 ++ g2 ++ s2 ++ g3 ++ post))
  = Returns (Some (g1 ++ SP ++ g2 ++ SP ++ g3)).
Proof.
  intros Hpre L1 L2 L3 D1 D2 D3 S1 S2 M1 M2.
  pose proof (aadhar_den_intro (last_char None pre) _ _ _ _ _ post
                L1 L2 L3 D1 D2 D3 S1 S2 M1 M2) as Dm.
  pose proof (search_from_complete U (aadhar_re U) pre None _ _ Dm) as Hsome.
  unfold extract_aadhar, py_re_search, bind, re_search.
  replace (pre ++ g1 ++ s1 ++ g2 ++ s2 ++ g3 ++ post)
    with (pre ++ (g1 ++ s1 ++ g2 ++ s2 ++ g3) ++ post)
    by (rewrite <- !app_assoc; reflexivity).
  destruct (search_from U (aadhar_re U) None _) as [[[b w] rest]|] eqn:E;
    [clear Hsome|congruence].
  pose proof (search_from_sound U _ _ _ _ _ _ E) as [Hs D].
  assert (Hb : b = pre).
  { apply app_eq_app in Hs. destruct Hs as [l [[-> Hl]|[-> Hl]]].
    - destruct l as [|c l]; [rewrite app_nil_r; reflexivity|].
      exfalso.
      apply aadhar_den_head in D. destruct D as (a & w' & -> & Ha).
      simpl in Hl. inversion Hl; subst.
      unfold no_digit in Hpre. rewrite forallb_app in Hpre.
      apply andb_true_iff in Hpre. destruct Hpre as [_ Hpre].
      simpl in Hpre. unfold cneg at 1 in Hpre. rewrite Ha in Hpre.
      discriminate.
    - destruct l as [|c l]; [rewrite app_nil_r; reflexivity|].
      exfalso.
      pose proof (search_from_leftmost _ _ _ _ _ _ E pre (c :: l) eq_refl) as Hl'.
      rewrite <- Hl in Hl'.
      assert (Hin : In (g1 ++ s1 ++ g2 ++ s2 ++ g3, post)
                      (rmatch U (aadhar_re U) (last_char None pre)
                              ((g1 ++ s1 ++ g2 ++ s2 ++ g3) ++ post))).
      { apply rmatch_iff. auto. }
      rewrite Hl' in Hin; [destruct Hin|discriminate]. }
  subst b. apply app_inv_head in Hs.
  rewrite <- !app_assoc in Hs. symmetry in Hs.
  destruct (aadhar_align _ _ _ _ _ _ _ _ _ D L1 L2 L3 D1 D2 D3 S1 S2 Hs)
    as (-> & _ & _ & _).
  destruct (aadhar_value _ s1 _ s2 _ L1 L2 L3 D1 D2 D3 S1 S2) as [Hlen Hval].
  cbv zeta in Hlen, Hval. rewrite Hlen, Hval. reflexivity.
Qed.

Lemma count_digits_id (g : str) :
  all_digits U g -> length (filter (cls_d U) g) = length g.
Proof.
  unfold all_digits. induction g as [|c g IH]; simpl; auto.
  intros H. apply andb_true_iff in H. destruct H as [H1 H2].
  rewrite H1. simpl. auto.
Qed.




(** A matched candidate always passes the digit-count gate. *)
Lemma aadhar_found T b w rest :
  T = b ++ w ++ rest ->
  den U (aadhar_re U) (last_char None b) w rest ->
  exists r, extract_aadhar U (PyStr T) = Returns (Some r).
Proof.
  intros -> D.
  pose proof (search_from_complete U (aadhar_re U) b None w rest D) as Hsome.
  unfold extract_aadhar, py_re_search, bind, re_search.
  destruct (search_from U (aadhar_re U) None _) as [[[b' w'] rest']|] eqn:E;
    [clear Hsome|congruence].
  apply search_from_sound in E. destruct E as [_ D'].
  apply aadhar_re_den in D'.
  destruct D' as (d1 & t1 & d2 & t2 & d3 & -> & K1 & K2 & K3 & Hd & _ & _ & Hs).
  rewrite !forallb_app in Hd. rewrite !forallb_app in Hs.
  apply andb_true_iff in Hd. destruct Hd as [Hd1 Hd].
  apply andb_true_iff in Hd. destruct Hd as [Hd2 Hd3].
  apply andb_true_iff in Hs. destruct Hs as [Hs1 Hs2].
  destruct (aadhar_value d1 t1 d2 t2 d3 K1 K2 K3 Hd1 Hd2 Hd3 Hs1 Hs2)
    as [Hlen _].
  cbv zeta in Hlen. rewrite Hlen. simpl. eauto.
Qed.

(** C5, amended.  A transcript containing a run of thirteen consecutive
    digits is not rejected: [extract_aadhar] returns a value, and when no
    digit precedes the run that value is the first twelve digits of the
    run, regrouped. *)
Theorem extract_aadhar_long_run pre g1 g2 g3 d post :
  length g1 = 4 -> length g2 = 4 -> length g3 = 4 ->
  all_digits U g1 -> all_digits U g2 -> all_digits U g3 -> cls_d U d = true ->
  (exists r,
      extract_aadhar U (PyStr (pre ++ g1 ++ g2 ++ g3 ++ d :: post))
      = Returns (Some r))
  /\ (no_digit U pre ->
      extract_aadhar U (PyStr (pre ++ g1 ++ g2 ++ g3 ++ d :: post))
      = Returns (Some (g1 ++ SP ++ g2 ++ SP ++ g3))).
Proof.
  intros L1 L2 L3 D1 D2 D3 Hd. split.
  - apply (aadhar_found _ pre (g1 ++ [] ++ g2 ++ [] ++ g3) (d :: post)).
    + simpl. rewrite <- !app_assoc. reflexivity.
    + apply aadhar_den_intro; auto; try reflexivity; simpl; lia.
  - intros Hpre.
    apply (aadhar_accepts pre g1 [] g2 [] g3 (d :: post)); auto;
      try reflexivity; simpl; lia.
Qed.


End AadharGate.

(** ** Facts about [ucd_basic] *)

Lemma ucd_basic_digit_not_space :
  forall c, isdecimal ucd_basic c = true -> isspace ucd_basic c = false.
Proof.
  intros c H. simpl in *. unfold mem, ws_chars. simpl existsb.
  repeat match goal with
         | |- context [(c =? ?k)%N] =>
             destruct (N.eqb_spec c k); [subst; vm_compute in H; discriminate|]
         end.
  reflexivity.
Qed.

(** C5, counterexample: a run of thirteen digits is not rejected; its
    first twelve digits are returned. *)
Lemma extract_aadhar_13_digits :
  extract_aadhar ucd_basic (PyStr (py "1234567890123"))
  = Returns (Some (py "1234 5678 9012")).
Proof. vm_compute. reflexivity. Qed.

(** A run of thirteen digits after a word, on [ucd_basic]. *)
Lemma extract_aadhar_long_run_witness :
  (forall c, isdecimal ucd_basic c = true -> isspace ucd_basic c = false)
  /\ cls_d ucd_basic 51%N = true
  /\ extract_aadhar ucd_basic (PyStr (py "No 1234567890123 x"))
     = Returns (Some (py "1234 5678 9012")).
Proof.
  split; [exact ucd_basic_digit_not_space|].
  split; [reflexivity|].
  apply (extract_aadhar_long_run ucd_basic ucd_basic_digit_not_space
           (py "No ") (py "1234") (py "5678") (py "9012") 51%N (py " x"));
    reflexivity.
Defined.


(** ** The search strategies of [extract_name] *)

Section NameSearch.

Variable U : ucd.

Lemma dob_loop_first_hit (lines : list str) :
  forall l' k,
    (forall j, j < length l' -> nth j l' [] = nth (k + j) lines []) ->
    dob_loop U lines (combine (seq k (length l')) l')
    = first_hit U lines k (length l').
Proof.
  induction l' as [|line l' IH]; intros k Hnth;
    cbn [length seq combine dob_loop first_hit]; auto.
  assert (Hline : line = nth k lines []).
  { specialize (Hnth 0). simpl in Hnth. rewrite Nat.add_0_r in Hnth.
    apply Hnth. lia. }
  assert (IH' : dob_loop U lines (combine (seq (S k) (length l')) l')
                = first_hit U lines (S k) (length l')).
  { apply IH. intros j Hj. specialize (Hnth (S j)). simpl in Hnth.
    rewrite Nat.add_succ_r in Hnth. apply Hnth. lia. }
  unfold dob_hit. rewrite <- Hline, IH'.
  destruct (re_test U (date_re U) line); cbn [andb]; auto.
  destruct (0 <? k); auto.
  destruct (clean_extracted_name U _) as [n|]; cbn [truthy_opt]; auto.
  destruct (negb (is_empty n)); auto.
Qed.

Lemma dob_strategy_first_hit (t : str) :
  dob_strategy U t
  = first_hit U (stripped_lines U t) 0 (length (stripped_lines U t)).
Proof.
  unfold dob_strategy, enumerate. apply dob_loop_first_hit.
  intros j _. reflexivity.
Qed.

Lemma first_hit_some (lines : list str) :
  forall m k n,
    first_hit U lines k m = Some n ->
    exists i, k <= i /\ i < k + m /\ dob_hit U lines i = Some n
              /\ forall j, k <= j -> j < i -> dob_hit U lines j = None.
Proof.
  induction m as [|m IH]; intros k n H; simpl in H; [discriminate|].
  destruct (dob_hit U lines k) as [n'|] eqn:E.
  - inversion H; subst. exists k.
    split; [lia|]. split; [lia|]. split; [assumption|].
    intros j H1 H2. lia.
  - apply IH in H. destruct H as (i & H1 & H2 & H3 & H4).
    exists i.
    split; [lia|]. split; [lia|]. split; [assumption|].
    intros j Hj1 Hj2.
    destruct (Nat.eq_dec j k) as [->|Hne]; auto.
    apply H4; lia.
Qed.

Lemma first_hit_none (lines : list str) :
  forall m k,
    first_hit U lines k m = None ->
    forall i, k <= i -> i < k + m -> dob_hit U lines i = None.
Proof.
  induction m as [|m IH]; intros k H i H1 H2; simpl in H; [lia|].
  destruct (dob_hit U lines k) as [n'|] eqn:E; [discriminate|].
  destruct (Nat.eq_dec i k) as [->|Hne]; auto.
  apply (IH (S k)); auto; lia.
Qed.

Lemma first_hit_least (lines : list str) :
  forall m k i n,
    k <= i -> i < k + m -> dob_hit U lines i = Some n ->
    (forall j, k <= j -> j < i -> dob_hit U lines j = None) ->
    first_hit U lines k m = Some n.
Proof.
  induction m as [|m IH]; intros k i n H1 H2 Hi Hlt; simpl; [lia|].
  destruct (Nat.eq_dec i k) as [->|Hne].
  - rewrite Hi. reflexivity.
  - rewrite (Hlt k) by lia. apply (IH (S k) i); auto; try lia.
    intros j Hj1 Hj2. apply Hlt; lia.
Qed.

Lemma dob_hit_truthy lines i n :
  dob_hit U lines i = Some n -> truthy_opt (Some n) = true.
Proof.
  unfold dob_hit.
  destruct (_ && _); [|discriminate].
  destruct (clean_extracted_name U _) as [c|]; simpl; [|discriminate].
  destruct (negb (is_empty c)) eqn:E; [|discriminate].
  intros H. inversion H; subst. exact E.
Qed.

Lemma dob_strategy_truthy t n :
  dob_strategy U t = Some n -> truthy_opt (Some n) = true.
Proof.
  rewrite dob_strategy_first_hit. intros H.
  apply first_hit_some in H. destruct H as (i & _ & _ & H & _).
  eapply dob_hit_truthy; eauto.
Qed.

(** C8, amended.  The DOB-anchored search tries the date-matching lines
    in order; its result is what the first line [i] gives that matches
    the date pattern, has a line before it, and whose preceding line
    cleans to a non-null name; it is absent exactly when no line gives
    anything. *)
Theorem find_by_dob_block_first_hit (t : str) :
  match find_by_dob_block U (PyStr t) with
  | Returns (Some n) =>
      exists i, i < length (stripped_lines U t)
                /\ dob_hit U (stripped_lines U t) i = Some n
                /\ forall j, j < i -> dob_hit U (stripped_lines U t) j = None
  | Returns None =>
      forall i, i < length (stripped_lines U t) ->
                dob_hit U (stripped_lines U t) i = None
  | Raises _ => False
  end.
Proof.
  unfold find_by_dob_block, py_stripped_lines, bind.
  fold (dob_strategy U t). rewrite dob_strategy_first_hit.
  destruct (first_hit U _ 0 _) as [n|] eqn:E.
  - apply first_hit_some in E. destruct E as (i & _ & H1 & H2 & H3).
    exists i. split; [lia|]. split; [assumption|].
    intros j Hj. apply H3; lia.
  - intros i Hi. eapply first_hit_none; eauto. lia.
Qed.

Lemma extract_name_full_chain (full : str) :
  extract_name_full U (PyStr full)
  = Returns (first_success [dob_strategy U full; two_word_strategy U full]).
Proof.
  unfold extract_name_full, find_by_dob_block, py_stripped_lines, bind.
  fold (dob_strategy U full). fold (two_word_strategy U full).
  destruct (dob_strategy U full) as [n|] eqn:E; simpl.
  - apply dob_strategy_truthy in E. simpl in E. rewrite E. reflexivity.
  - destruct (two_word_strategy U full); reflexivity.
Qed.

Lemma extract_name_chain (full : str) (crop : pyval) :
  extract_name U (PyStr full) crop
  = Returns (first_success [dob_strategy U (crop_text crop);
                            two_word_strategy U (crop_text crop);
                            dob_strategy U full;
                            two_word_strategy U full]).
Proof.
  unfold extract_name. rewrite extract_name_full_chain.
  destruct crop as [|c]; simpl; [reflexivity|].
  destruct c as [|c0 c]; simpl negb; cbv iota; [reflexivity|].
  unfold find_by_dob_block, py_stripped_lines, bind.
  fold (dob_strategy U (c0 :: c)). fold (two_word_strategy U (c0 :: c)).
  destruct (dob_strategy U (c0 :: c)) as [n|] eqn:E.
  - apply dob_strategy_truthy in E. simpl in E. simpl. rewrite E. reflexivity.
  - simpl. destruct (two_word_strategy U (c0 :: c)); reflexivity.
Qed.

(** C4.  [extract_name] is the first success of the four strategies in
    the order DOB-anchored in crop, two-word in crop, DOB-anchored in
    full, two-word in full.  In particular, when both crop strategies
    fail and some line of the full text matches the date pattern with a
    preceding line that cleans to a name, the result is the name that
    the first such line gives. *)
Theorem extract_name_order (full : str) (crop : pyval) :
  extract_name U (PyStr full) crop
  = Returns (first_success [dob_strategy U (crop_text crop);
                            two_word_strategy U (crop_text crop);
                            dob_strategy U full;
                            two_word_strategy U full])
  /\ forall i n,
      dob_strategy U (crop_text crop) = None ->
      two_word_strategy U (crop_text crop) = None ->
      i < length (stripped_lines U full) ->
      dob_hit U (stripped_lines U full) i = Some n ->
      (forall j, j < i -> dob_hit U (stripped_lines U full) j = None) ->
      extract_name U (PyStr full) crop = Returns (Some n).
Proof.
  split; [apply extract_name_chain|].
  intros i n H1 H2 Hi Hhit Hleast.
  rewrite extract_name_chain, H1, H2. simpl.
  rewrite dob_strategy_first_hit.
  rewrite (first_hit_least (stripped_lines U full) _ 0 i n); auto; lia.
Qed.

End NameSearch.

(** C8, counterexample: the line before the first date line cleans to
    nothing, and the line before the second date line is used. *)
Lemma find_by_dob_block_later_date :
  clean_extracted_name ucd_basic
    (PyStr (dob_candidate ucd_basic (py "Noise"))) = None
  /\ find_by_dob_block ucd_basic
       (PyStr (py "Noise" ++ NL ++ py "01/01/1990" ++ NL ++
               py "Ravi Kumar" ++ NL ++ py "02/02/1990"))
     = Returns (Some (py "Ravi Kumar")).
Proof. split; vm_compute; reflexivity. Qed.

(** A crop of noise and a full text with a name above the date, on
    [ucd_basic]. *)
Lemma extract_name_order_witness :
  dob_strategy ucd_basic (py "@@ ##") = None
  /\ two_word_strategy ucd_basic (py "@@ ##") = None
  /\ extract_name ucd_basic
       (PyStr (py "GOVT" ++ NL ++ py "Ravi Kumar" ++ NL ++ py "01/02/1990"))
       (PyStr (py "@@ ##"))
     = Returns (Some (py "Ravi Kumar")).
Proof.
  split; [vm_compute; reflexivity|]. split; [vm_compute; reflexivity|].
  apply (extract_name_order ucd_basic
           (py "GOVT" ++ NL ++ py "Ravi Kumar" ++ NL ++ py "01/02/1990")
           (PyStr (py "@@ ##"))) with (i := 2).
  - vm_compute. reflexivity.
  - vm_compute. reflexivity.
  - vm_compute. lia.
  - vm_compute. reflexivity.
  - intros j Hj.
    destruct j as [|[|j]]; [vm_compute; reflexivity|vm_compute; reflexivity|lia].
Defined.

(** ** Returning and raising *)

Section Totality.

Variable U : ucd.

(** A subscript inside the list returns the element there. *)
Lemma py_getitem_nth (A : Type) (l : list A) (k : nat) (d : A) :
  k < length l -> py_getitem l (Z.of_nat k) = Returns (nth k l d).
Proof.
  intros Hk. unfold py_getitem.
  destruct (Z.of_nat k <? 0)%Z eqn:E0; [apply Z.ltb_lt in E0; lia|].
  rewrite E0.
  destruct (Z.of_nat (length l) <=? Z.of_nat k)%Z eqn:E1;
    [apply Z.leb_le in E1; lia|].
  cbn [orb]. rewrite Nat2Z.id.
  rewrite (nth_error_nth' l d Hk). reflexivity.
Qed.

(** A subscript past the end of the list raises. *)
Lemma py_getitem_outside (A : Type) (l : list A) (k : nat) :
  length l <= k -> py_getitem l (Z.of_nat k) = Raises IndexError.
Proof.
  intros Hk. unfold py_getitem.
  destruct (Z.of_nat k <? 0)%Z eqn:E0; [apply Z.ltb_lt in E0; lia|].
  rewrite E0.
  destruct (Z.of_nat (length l) <=? Z.of_nat k)%Z eqn:E1;
    [reflexivity|apply Z.leb_gt in E1; lia].
Qed.

(** The guard [len(parts) > 1] keeps [parts[0]] inside the list. *)
Lemma drop_short_first_checked_eq (parts : list str) :
  drop_short_first_checked U parts = Returns (drop_short_first U parts).
Proof.
  unfold drop_short_first_checked, drop_short_first.
  destruct (1 <? length parts) eqn:E; [|reflexivity].
  apply Nat.ltb_lt in E. cbn [andb].
  change 0%Z with (Z.of_nat 0).
  rewrite (py_getitem_nth str parts 0 []) by lia.
  cbn [bind]. destruct parts as [|p0 parts']; [cbn [length] in E; lia|].
  cbn [nth hd tl].
  destruct (re_fullmatch U short_token_re p0); reflexivity.
Qed.

Lemma clean_extracted_name_checked_eq (raw : pyval) :
  clean_extracted_name_checked U raw = Returns (clean_extracted_name U raw).
Proof.
  destruct raw as [|raw]; [reflexivity|].
  unfold clean_extracted_name_checked, clean_extracted_name. cbv zeta.
  destruct (is_empty raw); [reflexivity|].
  rewrite drop_short_first_checked_eq. cbn [bind].
  destruct (is_empty _); [reflexivity|].
  destruct (_ <? 2); reflexivity.
Qed.

(** Inside the loop over [enumerate(lines)], with the guard [i > 0],
    [lines[i - 1]] is inside the list. *)
Lemma dob_loop_checked_eq (lines : list str) (todo : list (nat * str)) :
  Forall (fun p => fst p <= length lines) todo ->
  dob_loop_checked U lines todo = Returns (dob_loop U lines todo).
Proof.
  induction todo as [|[i line] todo IH]; intros H; [reflexivity|].
  inversion H as [|p l Hi Htodo]; subst. cbn [fst] in Hi.
  cbn [dob_loop_checked dob_loop].
  destruct (re_test U (date_re U) line); [|exact (IH Htodo)].
  destruct (0 <? i) eqn:Ei; [|exact (IH Htodo)].
  apply Nat.ltb_lt in Ei.
  replace (Z.of_nat i - 1)%Z with (Z.of_nat (i - 1)) by lia.
  rewrite (py_getitem_nth str lines (i - 1) []) by lia.
  cbn [bind]. rewrite clean_extracted_name_checked_eq. cbn [bind].
  destruct (truthy_opt _); [reflexivity|exact (IH Htodo)].
Qed.

Lemma enumerate_bound (lines : list str) :
  Forall (fun p => fst p <= length lines) (enumerate lines).
Proof.
  apply Forall_forall. intros [i line] Hin. cbn [fst].
  unfold enumerate in Hin. apply in_combine_l in Hin.
  apply in_seq in Hin. lia.
Qed.

Lemma find_by_dob_block_checked_eq (t : pyval) :
  find_by_dob_block_checked U t = find_by_dob_block U t.
Proof.
  unfold find_by_dob_block_checked, find_by_dob_block.
  destruct (py_stripped_lines U t) as [lines|e]; [|reflexivity].
  cbn [bind]. apply dob_loop_checked_eq, enumerate_bound.
Qed.

Lemma two_word_loop_checked_eq (lines : list str) :
  two_word_loop_checked U lines = Returns (two_word_loop U lines).
Proof.
  induction lines as [|line lines IH]; [reflexivity|].
  cbn [two_word_loop_checked two_word_loop].
  destruct (re_match U (two_word_re U) line) as [g0|]; [|exact IH].
  cbv zeta. rewrite clean_extracted_name_checked_eq. cbn [bind].
  destruct (truthy_opt _); [reflexivity|exact IH].
Qed.

Lemma extract_name_full_checked_eq (text : pyval) :
  extract_name_full_checked U text = extract_name_full U text.
Proof.
  unfold extract_name_full_checked, extract_name_full.
  rewrite find_by_dob_block_checked_eq.
  destruct (find_by_dob_block U text) as [n|e]; [|reflexivity].
  cbn [bind]. destruct (truthy_opt n); [reflexivity|].
  destruct (py_stripped_lines U text) as [lines|e]; [|reflexivity].
  cbn [bind]. apply two_word_loop_checked_eq.
Qed.

(** No subscript of [extract_name] leaves its list: with the checked
    subscripts it returns and raises as without them. *)
Lemma extract_name_checked_eq (text crop : pyval) :
  extract_name_checked U text crop = extract_name U text crop.
Proof.
  unfold extract_name_checked, extract_name.
  destruct (truthy crop); [|apply extract_name_full_checked_eq].
  rewrite find_by_dob_block_checked_eq.
  destruct (find_by_dob_block U crop) as [n|e]; [|reflexivity].
  cbn [bind]. destruct (truthy_opt n); [reflexivity|].
  destruct (py_stripped_lines U crop) as [lines|e]; [|reflexivity].
  cbn [bind]. rewrite two_word_loop_checked_eq. cbn [bind].
  destruct (two_word_loop U lines); [reflexivity|].
  apply extract_name_full_checked_eq.
Qed.

(** With an absent main transcript [extract_name] returns only what a
    strategy finds in the crop. *)
Lemma extract_name_none (crop : pyval) :
  extract_name U PyNone crop
  = match first_success [dob_strategy U (crop_text crop);
                         two_word_strategy U (crop_text crop)] with
    | Some n => Returns (Some n)
    | None => Raises AttributeError
    end.
Proof.
  unfold extract_name.
  destruct crop as [|c]; [reflexivity|].
  destruct c as [|c0 c]; [reflexivity|].
  cbn [truthy is_empty negb crop_text first_success].
  unfold find_by_dob_block, py_stripped_lines, bind.
  fold (dob_strategy U (c0 :: c)). fold (two_word_strategy U (c0 :: c)).
  destruct (dob_strategy U (c0 :: c)) as [n|] eqn:E.
  - apply dob_strategy_truthy in E. rewrite E. reflexivity.
  - cbn [truthy_opt].
    destruct (two_word_strategy U (c0 :: c)); reflexivity.
Qed.

(** C9, amended.  On a main transcript that is a string the three
    extractors return, a value or absent, and do not raise, whether the
    crop transcript of [extract_name] is a string or absent; in
    [extract_name], where [parts[0]] and [lines[i - 1]] could raise
    [IndexError], no subscript leaves its list.  An absent main
    transcript is not turned into an absent result: in [extract_aadhar]
    and [extract_dob], [re.search] raises [TypeError]; [extract_name]
    returns the name that the DOB-anchored or the two-word strategy
    finds in the crop, and when neither finds one (in particular when
    the crop is absent or empty) [splitlines] raises
    [AttributeError]. *)
Theorem extractors_return_on_strings (T : str) (crop : pyval) :
  (exists r, extract_aadhar U (PyStr T) = Returns r)
  /\ (exists r, extract_dob U (PyStr T) = Returns r)
  /\ (exists r, extract_name_checked U (PyStr T) crop = Returns r)
  /\ extract_aadhar U PyNone = Raises TypeError
  /\ extract_dob U PyNone = Raises TypeError
  /\ extract_name_checked U PyNone crop
     = match first_success [dob_strategy U (crop_text crop);
                            two_word_strategy U (crop_text crop)] with
       | Some n => Returns (Some n)
       | None => Raises AttributeError
       end.
Proof.
  split; [|split; [|split; [|split; [|split]]]].
  - unfold extract_aadhar, py_re_search, bind.
    destruct (re_search U (aadhar_re U) T) as [g1|]; [|eauto].
    destruct (negb _); eauto.
  - unfold extract_dob, py_re_search, bind. eauto.
  - rewrite extract_name_checked_eq, extract_name_chain. eauto.
  - reflexivity.
  - reflexivity.
  - rewrite extract_name_checked_eq. apply extract_name_none.
Qed.

End Totality.

(** C9, counterexample: with an absent transcript the extractors raise. *)
Lemma extractors_raise_on_none :
  extract_aadhar ucd_basic PyNone = Raises TypeError
  /\ extract_dob ucd_basic PyNone = Raises TypeError
  /\ extract_name ucd_basic PyNone PyNone = Raises AttributeError.
Proof. repeat split. Qed.

(** ** The alphabet of a cleaned name *)

Section NameAlphabet.

Variable U : ucd.

(** Case mappings keep a name character inside the alphabet. *)
Hypothesis case_closed :
  forall c, name_out_char c = true ->
            forallb name_out_char (totitle_full U c) = true
            /\ forallb name_out_char (tolower_full U c) = true
            /\ forallb name_out_char (toupper_full U c) = true.

Lemma forallb_rev (P : char -> bool) (l : str) :
  forallb P (rev l) = forallb P l.
Proof.
  induction l as [|c l IH]; simpl; auto.
  rewrite forallb_app, IH. simpl. rewrite andb_true_r. apply andb_comm.
Qed.

Lemma lstrip_forallb (P : char -> bool) (s : str) :
  forallb P s = true -> forallb P (lstrip U s) = true.
Proof.
  induction s as [|c s IH]; simpl; auto.
  intros H. destruct (isspace U c); auto.
  apply andb_true_iff in H. tauto.
Qed.

Lemma strip_forallb (P : char -> bool) (s : str) :
  forallb P s = true -> forallb P (strip U s) = true.
Proof.
  intros H. unfold strip, rstrip.
  rewrite forallb_rev. apply lstrip_forallb.
  rewrite forallb_rev. apply lstrip_forallb. exact H.
Qed.

(** Every character of [re.sub(r, repl, s)] comes from [repl] or [s]. *)
Lemma sub_go_forallb (P : char -> bool) (r : regex) (repl : str) :
  forallb P repl = true ->
  forall s prev skip,
    forallb P s = true -> forallb P (sub_go U r repl prev s skip) = true.
Proof.
  intros Hrepl. induction s as [|c s' IH]; intros prev skip Hs.
  - cbn [sub_go]. destruct skip; auto.
    destruct (first_match U r prev [] false); auto.
  - cbn [forallb] in Hs. apply andb_true_iff in Hs. destruct Hs as [Hc Hs].
    cbn [sub_go]. destruct skip as [|n]; [|auto].
    destruct (first_match U r prev (c :: s') false) as [[w rest]|].
    + destruct (length w) as [|n].
      * rewrite forallb_app, Hrepl. cbn [andb].
        destruct (first_match U r prev (c :: s') true) as [[w' rest']|].
        -- rewrite forallb_app, Hrepl. cbn [andb]. auto.
        -- cbn [forallb]. rewrite Hc. cbn [andb]. auto.
      * rewrite forallb_app, Hrepl. cbn [andb]. auto.
    + cbn [forallb]. rewrite Hc. cbn [andb]. auto.
Qed.

Lemma re_sub_forallb (P : char -> bool) (r : regex) (repl s : str) :
  forallb P repl = true -> forallb P s = true ->
  forallb P (re_sub U r repl s) = true.
Proof.
  intros H1 H2. unfold re_sub. apply sub_go_forallb; auto.
Qed.

(** [re.sub] of a one-character set replaces each character of the set. *)
Lemma sub_go_chr (q : char -> bool) (repl : str) :
  forall s prev,
    sub_go U (Chr q) repl prev s 0
    = flat_map (fun c => if q c then repl else [c]) s.
Proof.
  induction s as [|c s' IH]; intros prev; [reflexivity|].
  cbn [sub_go flat_map]. unfold first_match. cbn [rmatch].
  destruct (q c); cbn [filter fst is_empty negb orb hd_error length app].
  - rewrite IH. reflexivity.
  - rewrite IH. reflexivity.
Qed.

Lemma re_sub_chr (q : char -> bool) (repl s : str) :
  re_sub U (Chr q) repl s = flat_map (fun c => if q c then repl else [c]) s.
Proof. apply sub_go_chr. Qed.

(** The tokens of [s.split()] are made of the non-white-space characters
    of [s]. *)
Lemma split_go_forallb (P : char -> bool) :
  forall s cur,
    forallb P s = true ->
    forallb (fun c => P c && negb (isspace U c)) cur = true ->
    Forall (fun tok => forallb (fun c => P c && negb (isspace U c)) tok = true)
           (split_go U cur s).
Proof.
  induction s as [|c s' IH]; intros cur Hs Hcur; cbn [split_go].
  - destruct cur; constructor; auto. rewrite forallb_rev. exact Hcur.
  - cbn [forallb] in Hs. apply andb_true_iff in Hs. destruct Hs as [Hc Hs].
    destruct (isspace U c) eqn:E.
    + destruct cur.
      * apply IH; auto.
      * constructor; [rewrite forallb_rev; exact Hcur|]. apply IH; auto.
    + apply IH; auto. cbn [forallb]. rewrite Hc, E, Hcur. reflexivity.
Qed.

Lemma split_forallb (P : char -> bool) (s : str) :
  forallb P s = true ->
  Forall (fun tok => forallb (fun c => P c && negb (isspace U c)) tok = true)
         (split U s).
Proof. intros H. apply split_go_forallb; auto. Qed.

Lemma join_forallb (P : char -> bool) (sep : str) (l : list str) :
  forallb P sep = true ->
  Forall (fun tok => forallb P tok = true) l ->
  forallb P (join sep l) = true.
Proof.
  intros Hsep. induction 1 as [|tok l Htok Hl IH]; [reflexivity|].
  cbn [join]. destruct l as [|tok' l]; auto.
  rewrite !forallb_app, Htok, Hsep. cbn [andb]. exact IH.
Qed.

Lemma name_out_not_sigma c :
  name_out_char c = true -> (c =? 931)%N = false.
Proof.
  intros H. destruct (N.eqb_spec c 931); auto.
  subst. vm_compute in H. discriminate.
Qed.

Lemma title_go_alphabet :
  forall s before cased,
    forallb name_out_char s = true ->
    forallb name_out_char (title_go U before cased s) = true.
Proof.
  induction s as [|c s' IH]; intros before cased Hs; [reflexivity|].
  cbn [forallb] in Hs. apply andb_true_iff in Hs. destruct Hs as [Hc Hs].
  cbn [title_go]. rewrite forallb_app, IH by assumption.
  rewrite andb_true_r.
  destruct (case_closed c Hc) as (Ht & Hl & _).
  destruct cased; auto.
  unfold lower_ucs4. rewrite (name_out_not_sigma c Hc). exact Hl.
Qed.

Lemma upper_alphabet (s : str) :
  forallb name_out_char s = true -> forallb name_out_char (upper U s) = true.
Proof.
  unfold upper. induction s as [|c s' IH]; [reflexivity|].
  cbn [forallb flat_map]. intros Hs.
  apply andb_true_iff in Hs. destruct Hs as [Hc Hs].
  rewrite forallb_app, IH by assumption.
  destruct (case_closed c Hc) as (_ & _ & Hu). rewrite Hu. reflexivity.
Qed.

Lemma case_token_alphabet (tok : str) :
  forallb name_out_char tok = true ->
  forallb name_out_char (case_token U tok) = true.
Proof.
  intros H. unfold case_token.
  destruct (re_test U has_latin_re tok); auto.
  destruct (re_fullmatch U initial_re tok).
  - apply upper_alphabet; auto.
  - apply title_go_alphabet; auto.
Qed.

Lemma name_or_space_token c :
  name_or_space U c && negb (isspace U c) = true -> name_out_char c = true.
Proof.
  unfold name_or_space, cls_s. destruct (isspace U c); simpl.
  - rewrite andb_false_r. discriminate.
  - rewrite orb_false_r, andb_true_r. auto.
Qed.

Lemma not_name_char_sub (s : str) :
  forallb (name_or_space U) (re_sub U (not_name_char_re U) SP s) = true.
Proof.
  unfold not_name_char_re. rewrite re_sub_chr.
  induction s as [|c s' IH]; [reflexivity|].
  cbn [flat_map]. rewrite forallb_app, IH, andb_true_r.
  unfold cneg. destruct (name_char U c) eqn:E; cbn [negb].
  - cbn [forallb]. rewrite andb_true_r.
    unfold name_char, cunion, cor, lit in E.
    unfold name_or_space, name_out_char, mem. cbn [existsb].
    rewrite (N.eqb_sym 46 c), (N.eqb_sym 39 c), (N.eqb_sym 45 c) in E.
    destruct (latin c), (devanagari c), (cls_s U c), (c =? 46)%N,
      (c =? 39)%N, (c =? 45)%N; cbn [orb] in E |- *;
      try discriminate; rewrite ?orb_true_r; reflexivity.
  - reflexivity.
Qed.

(** The result of the cleaner is made of name characters and has at
    least two tokens. *)
Lemma clean_alphabet (raw : pyval) (r : str) :
  clean_extracted_name U raw = Some r ->
  2 <= length (split U r) /\ forallb name_out_char r = true.
Proof.
  unfold clean_extracted_name.
  destruct raw as [|raw]; [discriminate|].
  destruct (is_empty raw); [discriminate|].
  match goal with
  | |- context [re_sub U (not_name_char_re U) SP ?x] =>
      generalize (not_name_char_sub x);
      generalize (re_sub U (not_name_char_re U) SP x)
  end.
  intros s5 H5.
  destruct (is_empty _); [discriminate|].
  destruct (length _ <? 2) eqn:E; [discriminate|].
  intros H. inversion H; subst. clear H.
  split; [apply Nat.ltb_ge in E; exact E|].
  apply join_forallb; [reflexivity|].
  apply Forall_map.
  assert (Hs : forallb (name_or_space U)
                 (strip U (re_sub U (spaces2_re U) SP s5)) = true).
  { apply strip_forallb. apply re_sub_forallb; auto. }
  apply split_forallb in Hs.
  eapply Forall_impl; [|exact Hs].
  intros tok Htok. apply case_token_alphabet.
  eapply forallb_weaken; [|exact Htok].
  intros c. apply name_or_space_token.
Qed.

Lemma dob_loop_clean lines :
  forall todo r,
    dob_loop U lines todo = Some r ->
    exists raw, clean_extracted_name U raw = Some r.
Proof.
  induction todo as [|[i line] todo IH]; intros r H; cbn [dob_loop] in H;
    [discriminate|].
  destruct (re_test U (date_re U) line); auto.
  destruct (0 <? i); auto.
  destruct (truthy_opt _); auto. eauto.
Qed.

Lemma two_word_loop_clean :
  forall lines r,
    two_word_loop U lines = Some r ->
    exists raw, clean_extracted_name U raw = Some r.
Proof.
  induction lines as [|line lines IH]; intros r H; cbn [two_word_loop] in H;
    [discriminate|].
  destruct (re_match U (two_word_re U) line); auto.
  destruct (truthy_opt _); auto. eauto.
Qed.

Lemma extract_name_clean (text crop : pyval) (r : str) :
  extract_name U text crop = Returns (Some r) ->
  exists raw, clean_extracted_name U raw = Some r.
Proof.
  assert (Hfull : extract_name_full U text = Returns (Some r) ->
                  exists raw, clean_extracted_name U raw = Some r).
  { unfold extract_name_full, find_by_dob_block, py_stripped_lines, bind.
    destruct text as [|t]; [discriminate|].
    destruct (dob_loop U _ _) as [n|] eqn:E; cbn [truthy_opt].
    - destruct (negb (is_empty n)).
      + intros [= <-]. eapply dob_loop_clean; eauto.
      + intros [= H']. eapply two_word_loop_clean; eauto.
    - intros [= H']. eapply two_word_loop_clean; eauto. }
  unfold extract_name.
  destruct (truthy crop); auto.
  unfold find_by_dob_block, py_stripped_lines, bind.
  destruct crop as [|c]; [discriminate|].
  destruct (dob_loop U _ _) as [n|] eqn:E; cbn [truthy_opt].
  - destruct (negb (is_empty n)).
    + intros [= <-]. eapply dob_loop_clean; eauto.
    + destruct (two_word_loop U _) as [m|] eqn:E2; auto.
      intros [= <-]. eapply two_word_loop_clean; eauto.
  - destruct (two_word_loop U _) as [m|] eqn:E2; auto.
    intros [= <-]. eapply two_word_loop_clean; eauto.
Qed.

Lemma name_out_no_ascii_digit (r : str) :
  forallb name_out_char r = true -> forallb (cneg ascii_digit) r = true.
Proof.
  apply forallb_weaken. intros c H.
  unfold cneg. destruct (ascii_digit c) eqn:E; auto.
  exfalso. unfold ascii_digit, in_range in E.
  unfold name_out_char, latin, cor, upper_AZ, lower_az, devanagari, in_range,
    mem in H. cbn [existsb] in H.
  rewrite ?orb_true_iff, ?andb_true_iff, ?N.leb_le, ?N.eqb_eq in *.
  lia.
Qed.

(** C3, amended.  A name returned by [extract_name] has at least two
    white-space-separated tokens and consists of Latin letters,
    characters of the Devanagari block, periods, apostrophes, hyphens
    and spaces; in particular it has no ASCII digit. *)
Theorem extract_name_alphabet (text crop : pyval) (r : str) :
  extract_name U text crop = Returns (Some r) ->
  2 <= length (split U r)
  /\ forallb name_out_char r = true
  /\ forallb (cneg ascii_digit) r = true.
Proof.
  intros H. apply extract_name_clean in H. destruct H as [raw H].
  apply clean_alphabet in H. destruct H as [H1 H2].
  repeat split; auto. apply name_out_no_ascii_digit; auto.
Qed.

End NameAlphabet.

(** Range tests as arithmetic. *)
Ltac bool_to_prop :=
  unfold name_out_char, latin, cor, upper_AZ, lower_az, devanagari,
    in_range, mem in *;
  cbn [existsb forallb] in *;
  rewrite ?orb_true_iff, ?andb_true_iff, ?N.leb_le, ?N.eqb_eq in *.

Lemma ucd_basic_case_closed :
  forall c, name_out_char c = true ->
            forallb name_out_char (totitle_full ucd_basic c) = true
            /\ forallb name_out_char (tolower_full ucd_basic c) = true
            /\ forallb name_out_char (toupper_full ucd_basic c) = true.
Proof.
  intros c H. cbn [ucd_basic totitle_full tolower_full toupper_full].
  assert (Hup : name_out_char (ascii_upper c) = true).
  { unfold ascii_upper. destruct (lower_az c) eqn:E; auto.
    unfold lower_az, in_range in E.
    apply andb_true_iff in E. destruct E as [E1 E2].
    apply N.leb_le in E1. apply N.leb_le in E2.
    clear H. bool_to_prop. lia. }
  assert (Hlo : name_out_char (ascii_lower c) = true).
  { unfold ascii_lower. destruct (upper_AZ c) eqn:E; auto.
    unfold upper_AZ, in_range in E.
    apply andb_true_iff in E. destruct E as [E1 E2].
    apply N.leb_le in E1. apply N.leb_le in E2.
    clear H Hup. bool_to_prop. lia. }
  cbn [forallb]. rewrite Hup, Hlo. auto.
Qed.

(** C3, counterexample: the returned name contains the label word Name
    as a token, and a digit character of the Devanagari block. *)
Lemma extract_name_keeps_label_and_digit :
  extract_name ucd_basic
    (PyStr (py "Ravi " ++ [2411%N] ++ py " 5Name" ++ NL ++ py "01/02/1990"))
    PyNone
  = Returns (Some (py "Ravi " ++ [2411%N] ++ py " Name"))
  /\ In (py "Name") (split ucd_basic (py "Ravi " ++ [2411%N] ++ py " Name"))
  /\ existsb (isdecimal ucd_basic) (py "Ravi " ++ [2411%N] ++ py " Name") = true.
Proof.
  split; [vm_compute; reflexivity|].
  split; [vm_compute; auto|vm_compute; reflexivity].
Qed.

(** The name of a transcript with a numeric prefix, on [ucd_basic]. *)
Lemma extract_name_alphabet_witness :
  (forall c, name_out_char c = true ->
             forallb name_out_char (totitle_full ucd_basic c) = true
             /\ forallb name_out_char (tolower_full ucd_basic c) = true
             /\ forallb name_out_char (toupper_full ucd_basic c) = true)
  /\ extract_name ucd_basic
       (PyStr (py "3 Pankaj Khanna" ++ NL ++ py "01/02/1990" ++ NL ++
               py "1234 5678 9123"))
       (PyStr (py "3 Pankaj Khanna" ++ NL ++ py "01/02/1990"))
     = Returns (Some (py "Pankaj Khanna"))
  /\ 2 <= length (split ucd_basic (py "Pankaj Khanna"))
  /\ forallb name_out_char (py "Pankaj Khanna") = true
  /\ forallb (cneg ascii_digit) (py "Pankaj Khanna") = true.
Proof.
  split; [exact ucd_basic_case_closed|].
  assert (H : extract_name ucd_basic
       (PyStr (py "3 Pankaj Khanna" ++ NL ++ py "01/02/1990" ++ NL ++
               py "1234 5678 9123"))
       (PyStr (py "3 Pankaj Khanna" ++ NL ++ py "01/02/1990"))
     = Returns (Some (py "Pankaj Khanna"))) by (vm_compute; reflexivity).
  split; [exact H|].
  exact (extract_name_alphabet ucd_basic ucd_basic_case_closed _ _ _ H).
Defined.

(** ** The two-word pattern on a labelled line *)

Section LabelledLine.

Variable U : ucd.

(** The characters of the line are what they are in Unicode: only the
    space is white space, and none is a decimal digit. *)
Hypothesis line_chars :
  forall c, In c (py "Name: RAVI KUMAR") ->
            isspace U c = (c =? 32)%N /\ isdecimal U c = false.

(** Membership in the list of characters of the line. *)
Ltac in_line := cbn; repeat (try (left; reflexivity); right).

Lemma two_word_not_on_label (rest : str) :
  re_match U (two_word_re U) (py "Name:" ++ rest) = None.
Proof.
  assert (Hd : isdecimal U 78%N = false) by (apply (line_chars 78%N); in_line).
  assert (Hm : isspace U 109%N = false) by (apply (line_chars 109%N); in_line).
  assert (He : isspace U 101%N = false) by (apply (line_chars 101%N); in_line).
  assert (Hc : isspace U 58%N = false) by (apply (line_chars 58%N); in_line).
  unfold re_match, first_match, two_word_re, Opt, Plus, Star, cls_d, cls_s.
  cbn. rewrite Hd. cbn. rewrite Hm, He, Hc. cbn. reflexivity.
Qed.

Lemma two_word_loop_skips (l1 l2 : list str) (rest : str) :
  two_word_loop U (l1 ++ (py "Name:" ++ rest) :: l2)
  = two_word_loop U (l1 ++ l2).
Proof.
  induction l1 as [|l l1 IH].
  - cbn [app two_word_loop]. rewrite two_word_not_on_label. reflexivity.
  - cbn [app two_word_loop]. rewrite IH. reflexivity.
Qed.

Lemma label_line_stripped :
  stripped_lines U (py "Name: RAVI KUMAR") = [py "Name: RAVI KUMAR"].
Proof.
  assert (HN : isspace U 78%N = false) by (apply (line_chars 78%N); in_line).
  assert (HR : isspace U 82%N = false) by (apply (line_chars 82%N); in_line).
  assert (Hstrip : strip U (py "Name: RAVI KUMAR") = py "Name: RAVI KUMAR").
  { unfold strip, rstrip. cbn. rewrite HN. cbn. rewrite HR. reflexivity. }
  unfold stripped_lines.
  replace (splitlines (py "Name: RAVI KUMAR")) with [py "Name: RAVI KUMAR"]
    by (vm_compute; reflexivity).
  cbn [filter]. rewrite Hstrip.
  change (negb (is_empty (py "Name: RAVI KUMAR"))) with true.
  cbn [map]. rewrite Hstrip. reflexivity.
Qed.

Lemma label_line_strategies :
  dob_strategy U (py "Name: RAVI KUMAR") = None
  /\ two_word_strategy U (py "Name: RAVI KUMAR") = None.
Proof.
  unfold dob_strategy, two_word_strategy. rewrite label_line_stripped. split.
  - cbn [enumerate length seq combine dob_loop].
    destruct (re_test U (date_re U) _); reflexivity.
  - apply (two_word_loop_skips [] [] (py " RAVI KUMAR")).
Qed.

(** C7, amended.  The two-word pattern does not match a line that
    starts with the label and a colon, so the two-word strategy passes
    over such a line; for the transcript made of the line
    Name: RAVI KUMAR alone, [extract_name] returns absent, with or
    without the same text as crop. *)
Theorem extract_name_label_line (l1 l2 : list str) (rest : str) :
  two_word_loop U (l1 ++ (py "Name:" ++ rest) :: l2)
  = two_word_loop U (l1 ++ l2)
  /\ extract_name U (PyStr (py "Name: RAVI KUMAR")) PyNone = Returns None
  /\ extract_name U (PyStr (py "Name: RAVI KUMAR"))
       (PyStr (py "Name: RAVI KUMAR")) = Returns None.
Proof.
  destruct label_line_strategies as [H1 H2].
  split; [apply two_word_loop_skips|].
  split; rewrite extract_name_chain; cbn [crop_text first_success].
  - replace (dob_strategy U []) with (@None str) by reflexivity.
    replace (two_word_strategy U []) with (@None str) by reflexivity.
    rewrite H1, H2. reflexivity.
  - rewrite H1, H2. reflexivity.
Qed.

End LabelledLine.

Lemma ucd_basic_line_chars :
  forall c, In c (py "Name: RAVI KUMAR") ->
            isspace ucd_basic c = (c =? 32)%N /\ isdecimal ucd_basic c = false.
Proof.
  intros c H. cbn in H.
  repeat (destruct H as [<-|H]; [split; reflexivity|]).
  destruct H.
Qed.

(** C7, counterexample: the line with the label and the colon gives no
    name. *)
Lemma extract_name_label_colon :
  extract_name ucd_basic (PyStr (py "Name: RAVI KUMAR")) PyNone
  = Returns None.
Proof. vm_compute. reflexivity. Qed.

(** With a date line after it, the same line gives the name through the
    DOB-anchored strategy, the label stripped. *)
Example extract_name_label_before_date :
  extract_name ucd_basic
    (PyStr (py "Name: RAVI KUMAR" ++ NL ++ py "01/02/1990")) PyNone
  = Returns (Some (py "Ravi Kumar")).
Proof. vm_compute. reflexivity. Qed.

(** The labelled line before a plain two-word line, and alone, on
    [ucd_basic]. *)
Lemma extract_name_label_line_witness :
  (forall c, In c (py "Name: RAVI KUMAR") ->
             isspace ucd_basic c = (c =? 32)%N
             /\ isdecimal ucd_basic c = false)
  /\ two_word_loop ucd_basic [py "Name: RAVI KUMAR"; py "Ravi Kumar"]
     = Some (py "Ravi Kumar")
  /\ extract_name ucd_basic (PyStr (py "Name: RAVI KUMAR")) PyNone
     = Returns None.
Proof.
  split; [exact ucd_basic_line_chars|].
  destruct (extract_name_label_line ucd_basic ucd_basic_line_chars
              [] [py "Ravi Kumar"] (py " RAVI KUMAR")) as (H1 & H2 & _).
  split; [|exact H2].
  cbn [app] in H1. etransitivity; [exact H1|]. vm_compute. reflexivity.
Defined.

(** ** Cleaning a cleaned name again *)

Section CleanAgain.

Variable U : ucd.

(** Unicode facts about the space and the characters of a name. *)
Hypothesis space_is_space : isspace U 32%N = true.

Hypothesis name_not_space :
  forall c, name_tok_char c = true -> isspace U c = false.

Hypothesis latin_case :
  forall c, latin c = true ->
            iscased U c = true
            /\ totitle_full U c = [ascii_upper c]
            /\ tolower_full U c = [ascii_lower c]
            /\ toupper_full U c = [ascii_upper c].

Hypothesis other_case :
  forall c, name_tok_char c = true -> latin c = false ->
            iscased U c = false
            /\ totitle_full U c = [c]
            /\ tolower_full U c = [c]
            /\ toupper_full U c = [c].

(** When the pattern matches nowhere, [re.sub] changes nothing. *)
Lemma sub_go_none (r : regex) (repl : str) :
  forall s prev,
    search_from U r prev s = None -> sub_go U r repl prev s 0 = s.
Proof.
  induction s as [|c s' IH]; intros prev H; cbn [search_from sub_go] in *.
  - destruct (first_match U r prev [] false) as [[w rest]|];
      [discriminate|reflexivity].
  - destruct (first_match U r prev (c :: s') false) as [[w rest]|];
      [discriminate|].
    destruct (search_from U r (Some c) s') as [[[b w] rest]|] eqn:E;
      [discriminate|].
    rewrite IH; auto.
Qed.

Lemma re_sub_none (r : regex) (repl s : str) :
  re_search U r s = None -> re_sub U r repl s = s.
Proof.
  unfold re_search, re_sub. intros H. apply sub_go_none.
  destruct (search_from U r None s) as [[[b w] rest]|];
    [discriminate|reflexivity].
Qed.

(** *** Splitting and joining *)

Lemma split_go_nonempty :
  forall s cur, Forall (fun tok => tok <> []) (split_go U cur s).
Proof.
  induction s as [|c s' IH]; intros cur; cbn [split_go].
  - destruct cur as [|d cur]; constructor; auto.
    intros H. apply (f_equal (@rev char)) in H.
    rewrite rev_involutive in H. discriminate.
  - destruct (isspace U c).
    + destruct cur as [|d cur]; auto.
      constructor; auto.
      intros H. apply (f_equal (@rev char)) in H.
      rewrite rev_involutive in H. discriminate.
    + apply IH.
Qed.

Lemma split_go_token (t : str) :
  forall cur s,
    forallb name_tok_char t = true ->
    split_go U cur (t ++ s) = split_go U (rev t ++ cur) s.
Proof.
  induction t as [|c t IH]; intros cur s H; [reflexivity|].
  cbn [forallb] in H. apply andb_true_iff in H. destruct H as [Hc Ht].
  cbn [app split_go]. rewrite (name_not_space c Hc).
  rewrite IH by assumption. cbn [rev]. rewrite <- app_assoc. reflexivity.
Qed.

Lemma split_join (ts : list str) :
  Forall token_ok ts -> split U (join SP ts) = ts.
Proof.
  unfold split. induction 1 as [|t ts [Hne Ht] Hts IH]; [reflexivity|].
  cbn [join]. destruct ts as [|t' ts'].
  - rewrite <- (app_nil_r t) at 1. rewrite split_go_token by assumption.
    rewrite app_nil_r. cbn [split_go].
    destruct (rev t) eqn:E.
    + apply (f_equal (@rev char)) in E. rewrite rev_involutive in E.
      contradiction.
    + rewrite <- E, rev_involutive. reflexivity.
  - rewrite split_go_token by assumption. rewrite app_nil_r.
    unfold SP at 1. cbn [of_string list_ascii_of_string map app split_go].
    change (N_of_ascii " ") with 32%N. rewrite space_is_space.
    destruct (rev t) eqn:E.
    + apply (f_equal (@rev char)) in E. rewrite rev_involutive in E.
      contradiction.
    + rewrite <- E, rev_involutive. f_equal. exact IH.
Qed.

Lemma lstrip_id (s : str) :
  match s with c :: _ => isspace U c = false | [] => True end ->
  lstrip U s = s.
Proof.
  destruct s as [|c s]; [reflexivity|]. cbn [lstrip]. intros ->. reflexivity.
Qed.

Lemma join_first (t : str) (ts : list str) :
  token_ok t ->
  exists c rest, join SP (t :: ts) = c :: rest /\ name_tok_char c = true.
Proof.
  intros [Hne Ht]. destruct t as [|c t]; [contradiction|].
  cbn [forallb] in Ht. apply andb_true_iff in Ht. destruct Ht as [Hc _].
  cbn [join]. destruct ts; eexists; eexists; split; try reflexivity; auto.
Qed.

Lemma join_last (ts : list str) :
  Forall token_ok ts -> ts <> [] ->
  exists pre c, join SP ts = pre ++ [c] /\ name_tok_char c = true.
Proof.
  induction 1 as [|t ts [Hne Ht] Hts IH]; intros Hnil; [contradiction|].
  cbn [join]. destruct ts as [|t' ts'].
  - destruct (exists_last Hne) as (pre & c & ->).
    rewrite forallb_app in Ht. apply andb_true_iff in Ht.
    destruct Ht as [_ Hc]. cbn [forallb] in Hc. rewrite andb_true_r in Hc.
    exists pre, c. auto.
  - destruct IH as (pre & c & Heq & Hc); [discriminate|].
    exists (t ++ SP ++ pre), c. rewrite Heq, <- !app_assoc. auto.
Qed.

Lemma strip_join (ts : list str) :
  Forall token_ok ts -> strip U (join SP ts) = join SP ts.
Proof.
  intros H. destruct ts as [|t ts]; [reflexivity|].
  destruct (join_last (t :: ts) H) as (pre & c & Heq & Hc); [discriminate|].
  inversion H as [|? ? Ht Hts]; subst.
  destruct (join_first t ts Ht) as (c0 & rest & Heq0 & Hc0).
  unfold strip, rstrip.
  rewrite (lstrip_id (join SP (t :: ts)))
    by (rewrite Heq0; apply name_not_space; exact Hc0).
  rewrite Heq, rev_app_distr. cbn [rev app].
  rewrite lstrip_id by (apply name_not_space; exact Hc).
  change (c :: rev pre) with (rev [c] ++ rev pre).
  rewrite <- rev_app_distr, rev_involutive. reflexivity.
Qed.

(** *** The patterns that cannot match a cleaned name *)

Lemma sub_go_copy (r : regex) (repl : str) prev c s :
  first_match U r prev (c :: s) false = None ->
  sub_go U r repl prev (c :: s) 0 = c :: sub_go U r repl (Some c) s 0.
Proof. intros H. cbn [sub_go]. rewrite H. reflexivity. Qed.

Lemma spaces2_not_at_nonspace prev c s :
  isspace U c = false ->
  first_match U (spaces2_re U) prev (c :: s) false = None.
Proof.
  intros H. unfold first_match, spaces2_re. cbn [rmatch rep_list].
  unfold cls_s. rewrite H. reflexivity.
Qed.

Lemma spaces2_not_at_single prev x d s :
  isspace U d = false ->
  first_match U (spaces2_re U) prev (x :: d :: s) false = None.
Proof.
  intros H. unfold first_match, spaces2_re. cbn [rmatch rep_list].
  unfold cls_s. rewrite H.
  destruct (isspace U x); reflexivity.
Qed.

Lemma sub_spaces2_token (t s : str) :
  forallb name_tok_char t = true ->
  (forall prev, sub_go U (spaces2_re U) SP prev s 0 = s) ->
  forall prev, sub_go U (spaces2_re U) SP prev (t ++ s) 0 = t ++ s.
Proof.
  intros Ht Hs. induction t as [|c t IH]; intros prev; [apply Hs|].
  cbn [forallb] in Ht. apply andb_true_iff in Ht. destruct Ht as [Hc Ht].
  cbn [app]. rewrite sub_go_copy
    by (apply spaces2_not_at_nonspace, name_not_space; exact Hc).
  f_equal. apply IH. exact Ht.
Qed.

Lemma sub_spaces2_join (ts : list str) :
  Forall token_ok ts ->
  forall prev, sub_go U (spaces2_re U) SP prev (join SP ts) 0 = join SP ts.
Proof.
  induction 1 as [|t ts [Hne Ht] Hts IH]; intros prev.
  - reflexivity.
  - cbn [join]. destruct ts as [|t' ts'].
    + rewrite <- (app_nil_r t). apply sub_spaces2_token; auto.
    + apply sub_spaces2_token; auto. clear prev. intros prev.
      inversion Hts as [|? ? Ht' Hts']; subst.
      destruct (join_first t' ts' Ht') as (c & rest & Heq & Hc).
      rewrite Heq in *.
      change (SP ++ c :: rest) with (32%N :: c :: rest).
      rewrite sub_go_copy
        by (apply spaces2_not_at_single, name_not_space; exact Hc).
      f_equal. apply IH.
Qed.

Lemma name_tok_is_name_char c :
  name_tok_char c = true -> name_char U c = true.
Proof.
  unfold name_tok_char, name_char, cunion, cor, lit, mem. cbn [existsb].
  rewrite (N.eqb_sym 46 c), (N.eqb_sym 39 c), (N.eqb_sym 45 c).
  destruct (latin c), (devanagari c), (cls_s U c), (c =? 46)%N,
    (c =? 39)%N, (c =? 45)%N; cbn [orb]; auto.
Qed.

Lemma join_name_chars (ts : list str) :
  Forall token_ok ts -> forallb (name_char U) (join SP ts) = true.
Proof.
  intros H. apply join_forallb.
  - unfold SP. cbn [of_string list_ascii_of_string map forallb].
    change (N_of_ascii " ") with 32%N.
    unfold name_char, cunion, cor, cls_s. rewrite space_is_space.
    rewrite !orb_true_r. reflexivity.
  - eapply Forall_impl; [|exact H].
    intros t [_ Ht]. eapply forallb_weaken; [|exact Ht].
    apply name_tok_is_name_char.
Qed.

Lemma sub_not_name_char_join (ts : list str) :
  Forall token_ok ts ->
  re_sub U (not_name_char_re U) SP (join SP ts) = join SP ts.
Proof.
  intros H. apply join_name_chars in H.
  unfold not_name_char_re. rewrite re_sub_chr.
  induction (join SP ts) as [|c s IH]; [reflexivity|].
  cbn [forallb] in H. apply andb_true_iff in H. destruct H as [Hc Hs].
  cbn [flat_map]. unfold cneg at 1. rewrite Hc. cbn [negb app].
  f_equal. auto.
Qed.

Lemma last_char_none (b : str) : last_char None b = None -> b = [].
Proof.
  unfold last_char. destruct (rev b) eqn:E; [|discriminate].
  intros _. apply (f_equal (@rev char)) in E.
  rewrite rev_involutive in E. exact E.
Qed.

Lemma lead_nonletter_none (r : str) :
  letter_first r = true -> re_search U lead_nonletter_re r = None.
Proof.
  intros Hr. unfold re_search.
  destruct (search_from U lead_nonletter_re None r) as [[[b w] rest]|] eqn:E;
    [exfalso|reflexivity].
  apply search_from_sound in E. destruct E as [-> D].
  unfold lead_nonletter_re, Plus in D. cbn [den] in D.
  destruct D as (w1 & w2 & -> & (-> & Hb) & (Hall & Hlen & _)).
  apply last_char_none in Hb. subst b.
  destruct w2 as [|c w2]; [cbn in Hlen; lia|].
  cbn [app letter_first forallb] in *.
  apply andb_true_iff in Hall. destruct Hall as [Hc _].
  unfold cneg, cor in Hc. rewrite Hr in Hc. discriminate.
Qed.

(** *** Casing a token twice *)

(** Case analysis on the range tests of a character. *)
Ltac n_cases :=
  unfold name_tok_char, up_char, ascii_upper, ascii_lower, latin, cor,
    upper_AZ, lower_az, devanagari, in_range, mem in *;
  cbn [existsb] in *;
  repeat match goal with
         | H : context [(?a <=? ?b)%N] |- _ => destruct (N.leb_spec a b)
         | |- context [(?a <=? ?b)%N] => destruct (N.leb_spec a b)
         | H : context [(?a =? ?b)%N] |- _ => destruct (N.eqb_spec a b)
         | |- context [(?a =? ?b)%N] => destruct (N.eqb_spec a b)
         end;
  cbn [andb orb negb] in *; try reflexivity; try discriminate; try lia;
  try (exfalso; lia).

Lemma latin_ascii_upper c : latin (ascii_upper c) = latin c.
Proof. n_cases. Qed.

Lemma latin_ascii_lower c : latin (ascii_lower c) = latin c.
Proof. n_cases. Qed.

Lemma ascii_upper_idem c : ascii_upper (ascii_upper c) = ascii_upper c.
Proof. n_cases. Qed.

Lemma ascii_lower_idem c : ascii_lower (ascii_lower c) = ascii_lower c.
Proof. n_cases. Qed.

Lemma latin_is_tok c : latin c = true -> name_tok_char c = true.
Proof. unfold name_tok_char. intros ->. reflexivity. Qed.

Lemma latin_not_dot c : latin c = true -> (46 =? c)%N = false.
Proof. n_cases. Qed.

Lemma tok_not_sigma c : name_tok_char c = true -> (c =? 931)%N = false.
Proof.
  intros H. destruct (N.eqb_spec c 931); auto.
  subst. vm_compute in H. discriminate.
Qed.

Lemma title_go_map :
  forall s before cased,
    forallb name_tok_char s = true ->
    title_go U before cased s = title_map cased s.
Proof.
  induction s as [|c s' IH]; intros before cased Hs; [reflexivity|].
  cbn [forallb] in Hs. apply andb_true_iff in Hs. destruct Hs as [Hc Hs].
  cbn [title_go title_map]. unfold lower_ucs4.
  rewrite (tok_not_sigma c Hc).
  destruct (latin c) eqn:El.
  - destruct (latin_case c El) as (H1 & H2 & H3 & _).
    rewrite H1, H2, H3, IH by assumption. destruct cased; reflexivity.
  - destruct (other_case c Hc El) as (H1 & H2 & H3 & _).
    rewrite H1, H2, H3, IH by assumption. destruct cased; reflexivity.
Qed.

Lemma upper_map (s : str) :
  forallb name_tok_char s = true -> upper U s = map up_char s.
Proof.
  unfold upper. induction s as [|c s' IH]; [reflexivity|].
  cbn [forallb flat_map map]. intros Hs.
  apply andb_true_iff in Hs. destruct Hs as [Hc Hs].
  rewrite IH by assumption.
  assert (Hu : toupper_full U c = [up_char c]).
  { unfold up_char. destruct (latin c) eqn:El.
    - destruct (latin_case c El) as (_ & _ & _ & H). exact H.
    - destruct (other_case c Hc El) as (_ & _ & _ & H). exact H. }
  rewrite Hu. reflexivity.
Qed.

Lemma has_latin_existsb :
  forall s prev,
    match search_from U has_latin_re prev s with
    | Some _ => true
    | None => false
    end = existsb latin s.
Proof.
  induction s as [|c s' IH]; intros prev; [reflexivity|].
  cbn [search_from existsb]. unfold first_match, has_latin_re at 1.
  cbn [rmatch]. destruct (latin c); cbn [filter hd_error orb]; [reflexivity|].
  specialize (IH (Some c)).
  destruct (search_from U has_latin_re (Some c) s') as [[[b w] rest]|]; auto.
Qed.

Lemma re_test_has_latin (s : str) :
  re_test U has_latin_re s = existsb latin s.
Proof.
  unfold re_test, re_search. rewrite <- (has_latin_existsb s None).
  destruct (search_from U has_latin_re None s) as [[[b w] rest]|]; reflexivity.
Qed.

Lemma re_fullmatch_initial (s : str) :
  re_fullmatch U initial_re s = is_initial s.
Proof.
  unfold re_fullmatch, initial_re, is_initial, lit.
  destruct s as [|c [|d [|e s']]]; cbn [rmatch]; try reflexivity;
    destruct (latin c); cbn -[N.eqb]; try reflexivity;
    destruct (46 =? d)%N; reflexivity.
Qed.

Lemma case_token_eq (tok : str) :
  forallb name_tok_char tok = true ->
  case_token U tok =
  if existsb latin tok
  then if is_initial tok then map up_char tok else title_map false tok
  else tok.
Proof.
  intros H. unfold case_token.
  rewrite re_test_has_latin, re_fullmatch_initial.
  unfold title. rewrite title_go_map, upper_map by assumption. reflexivity.
Qed.

Lemma title_map_tok :
  forall s cased,
    forallb name_tok_char s = true ->
    forallb name_tok_char (title_map cased s) = true.
Proof.
  induction s as [|c s' IH]; intros cased Hs; [reflexivity|].
  cbn [forallb title_map] in *.
  apply andb_true_iff in Hs. destruct Hs as [Hc Hs].
  rewrite IH by assumption. rewrite andb_true_r.
  destruct (latin c) eqn:El; auto.
  destruct cased; apply latin_is_tok;
    rewrite ?latin_ascii_lower, ?latin_ascii_upper; exact El.
Qed.

Lemma up_char_tok c :
  name_tok_char c = true -> name_tok_char (up_char c) = true.
Proof.
  intros H. unfold up_char. destruct (latin c) eqn:El; auto.
  apply latin_is_tok. rewrite latin_ascii_upper. exact El.
Qed.

Lemma map_up_tok (s : str) :
  forallb name_tok_char s = true ->
  forallb name_tok_char (map up_char s) = true.
Proof.
  induction s as [|c s' IH]; [reflexivity|].
  cbn [forallb map]. intros Hs.
  apply andb_true_iff in Hs. destruct Hs as [Hc Hs].
  rewrite up_char_tok, IH by assumption. reflexivity.
Qed.

Lemma title_map_latin :
  forall s cased, existsb latin (title_map cased s) = existsb latin s.
Proof.
  induction s as [|c s' IH]; intros cased; [reflexivity|].
  cbn [existsb title_map]. rewrite IH. f_equal.
  destruct (latin c) eqn:El; auto.
  destruct cased; rewrite ?latin_ascii_lower, ?latin_ascii_upper; exact El.
Qed.

Lemma title_map_idem :
  forall s cased, title_map cased (title_map cased s) = title_map cased s.
Proof.
  induction s as [|c s' IH]; intros cased; [reflexivity|].
  cbn [title_map].
  destruct (latin c) eqn:El.
  - destruct cased.
    + rewrite latin_ascii_lower, El, ascii_lower_idem, IH. reflexivity.
    + rewrite latin_ascii_upper, El, ascii_upper_idem, IH. reflexivity.
  - rewrite El, IH. reflexivity.
Qed.

Lemma title_map_initial (s : str) :
  is_initial (title_map false s) = is_initial s.
Proof.
  destruct s as [|c [|d [|e s']]]; try reflexivity.
  cbn [title_map is_initial].
  destruct (latin c) eqn:Ec.
  - rewrite latin_ascii_upper, Ec. cbn [andb].
    destruct (latin d) eqn:Ed; auto.
    rewrite (latin_not_dot d Ed).
    apply latin_not_dot. rewrite latin_ascii_lower. exact Ed.
  - rewrite Ec. reflexivity.
Qed.

(** [case_token] is idempotent on tokens of name characters. *)
Lemma case_token_idem (tok : str) :
  forallb name_tok_char tok = true ->
  case_token U (case_token U tok) = case_token U tok.
Proof.
  intros H. rewrite (case_token_eq tok H).
  destruct (existsb latin tok) eqn:El.
  - destruct (is_initial tok) eqn:Ei.
    + destruct tok as [|c [|d [|e s']]]; try discriminate.
      cbn [is_initial] in Ei. apply andb_true_iff in Ei.
      destruct Ei as [Ec Ed]. apply N.eqb_eq in Ed. subst d.
      rewrite case_token_eq by (apply map_up_tok; exact H).
      cbn [map existsb is_initial]. unfold up_char.
      rewrite Ec, latin_ascii_upper, Ec.
      change (latin 46%N) with false. cbn [orb andb N.eqb Pos.eqb].
      rewrite ascii_upper_idem. reflexivity.
    + rewrite case_token_eq by (apply title_map_tok; exact H).
      rewrite title_map_latin, El, title_map_initial, Ei.
      apply title_map_idem.
  - rewrite case_token_eq by exact H. rewrite El. reflexivity.
Qed.

Lemma case_token_ok (tok : str) :
  token_ok tok -> token_ok (case_token U tok).
Proof.
  intros [Hne H]. rewrite (case_token_eq tok H). split.
  - destruct tok as [|c tok]; [contradiction|].
    destruct (existsb latin (c :: tok)); [|discriminate].
    destruct (is_initial (c :: tok)); discriminate.
  - destruct (existsb latin tok); auto.
    destruct (is_initial tok);
      [apply map_up_tok|apply title_map_tok]; exact H.
Qed.

(** *** The shape of a cleaned name *)

Lemma name_or_space_tok c :
  name_or_space U c && negb (isspace U c) = true -> name_tok_char c = true.
Proof.
  intros H. apply andb_true_iff in H. destruct H as [H1 H2].
  unfold name_or_space, cls_s in H1.
  destruct (isspace U c) eqn:E; [discriminate|].
  rewrite orb_false_r in H1.
  unfold name_out_char, mem in H1. cbn [existsb] in H1.
  unfold name_tok_char, mem. cbn [existsb].
  destruct (N.eqb_spec c 32) as [->|_].
  - rewrite space_is_space in E. discriminate.
  - rewrite !orb_false_r in *. exact H1.
Qed.

Lemma clean_shape (raw : pyval) (r : str) :
  clean_extracted_name U raw = Some r ->
  exists ts,
    Forall token_ok ts
    /\ Forall (fun t => case_token U t = t) ts
    /\ r = join SP ts
    /\ 2 <= length (split U r).
Proof.
  unfold clean_extracted_name.
  destruct raw as [|raw]; [discriminate|].
  destruct (is_empty raw); [discriminate|].
  match goal with
  | |- context [re_sub U (not_name_char_re U) SP ?x] =>
      generalize (not_name_char_sub U x);
      generalize (re_sub U (not_name_char_re U) SP x)
  end.
  intros s5 H5.
  destruct (is_empty _); [discriminate|].
  destruct (length _ <? 2) eqn:E; [discriminate|].
  intros [= <-].
  set (s7 := strip U (re_sub U (spaces2_re U) SP s5)) in *.
  assert (Hs : forallb (name_or_space U) s7 = true).
  { apply strip_forallb. apply re_sub_forallb; auto. }
  assert (Htoks : Forall token_ok (split U s7)).
  { apply Forall_forall. intros t Hin. split.
    - pose proof (split_go_nonempty s7 []) as Hne.
      rewrite Forall_forall in Hne. apply Hne. exact Hin.
    - pose proof (split_forallb U (name_or_space U) s7 Hs) as Hall.
      rewrite Forall_forall in Hall.
      eapply forallb_weaken; [|apply Hall; exact Hin].
      intros c. apply name_or_space_tok. }
  exists (map (case_token U) (split U s7)).
  split; [|split; [|split]].
  - apply Forall_map. eapply Forall_impl; [|exact Htoks].
    intros t. apply case_token_ok.
  - apply Forall_map. eapply Forall_impl; [|exact Htoks].
    intros t [_ Ht]. apply case_token_idem. exact Ht.
  - reflexivity.
  - apply Nat.ltb_ge in E. exact E.
Qed.

(** C6, amended.  Cleaning a cleaned name [r] again gives [r] back when
    [r] begins with a letter, its first token is not a Latin token of one
    or two letters, and neither the label pattern nor the pattern of the
    trailing field words matches in it. *)
Theorem clean_again_stable (s r : str) :
  clean_extracted_name U (PyStr s) = Some r ->
  letter_first r = true ->
  re_fullmatch U short_token_re (hd [] (split U r)) = false ->
  re_search U (label_re U) r = None ->
  re_search U (trailing_re U) r = None ->
  clean_extracted_name U (PyStr r) = Some r.
Proof.
  intros Hclean Hletter Hshort Hlabel Htrail.
  apply clean_shape in Hclean.
  destruct Hclean as (ts & Hok & Hcase & Hr & Hlen).
  assert (E1 : strip U r = r) by (rewrite Hr; apply strip_join; exact Hok).
  assert (E2 : re_sub U lead_nonletter_re [] r = r)
    by (apply re_sub_none, lead_nonletter_none; exact Hletter).
  assert (E3 : re_sub U (label_re U) [] r = r)
    by (apply re_sub_none; exact Hlabel).
  assert (E4 : split U r = ts) by (rewrite Hr; apply split_join; exact Hok).
  assert (E5 : drop_short_first U ts = ts).
  { unfold drop_short_first. rewrite E4 in Hshort. rewrite Hshort.
    rewrite andb_false_r. reflexivity. }
  assert (E7 : re_sub U (trailing_re U) [] r = r)
    by (apply re_sub_none; exact Htrail).
  assert (E8 : re_sub U (not_name_char_re U) SP r = r)
    by (rewrite Hr; apply sub_not_name_char_join; exact Hok).
  assert (E9 : re_sub U (spaces2_re U) SP r = r)
    by (rewrite Hr; apply sub_spaces2_join; exact Hok).
  assert (E10 : map (case_token U) ts = ts).
  { clear - Hcase. induction Hcase as [|t ts Ht Hts IH]; [reflexivity|].
    cbn [map]. rewrite Ht, IH. reflexivity. }
  assert (Hne : is_empty r = false).
  { destruct r; [discriminate|reflexivity]. }
  unfold clean_extracted_name. cbv zeta.
  rewrite Hne, E1, E2, E3, E4, E5, <- Hr, E7, E1, E8, E9, E1, Hne, E4, E10,
    <- Hr, E4.
  rewrite E4 in Hlen. apply Nat.ltb_ge in Hlen. rewrite Hlen. reflexivity.
Qed.

End CleanAgain.

Lemma ucd_basic_name_not_space :
  forall c, name_tok_char c = true -> isspace ucd_basic c = false.
Proof.
  intros c H. cbn [ucd_basic isspace]. unfold mem, ws_chars. cbn [existsb].
  repeat match goal with
         | |- context [(c =? ?k)%N] =>
             destruct (N.eqb_spec c k); [subst; vm_compute in H; discriminate|]
         end.
  reflexivity.
Qed.

Lemma ucd_basic_latin_case :
  forall c, latin c = true ->
            iscased ucd_basic c = true
            /\ totitle_full ucd_basic c = [ascii_upper c]
            /\ tolower_full ucd_basic c = [ascii_lower c]
            /\ toupper_full ucd_basic c = [ascii_upper c].
Proof.
  intros c H. cbn [ucd_basic iscased totitle_full tolower_full toupper_full].
  repeat split; auto.
Qed.

Lemma ucd_basic_other_case :
  forall c, name_tok_char c = true -> latin c = false ->
            iscased ucd_basic c = false
            /\ totitle_full ucd_basic c = [c]
            /\ tolower_full ucd_basic c = [c]
            /\ toupper_full ucd_basic c = [c].
Proof.
  intros c H Hl. cbn [ucd_basic iscased totitle_full tolower_full toupper_full].
  assert (Hu : ascii_upper c = c).
  { unfold ascii_upper. destruct (lower_az c) eqn:E; auto.
    unfold latin, cor in Hl. rewrite E, orb_true_r in Hl. discriminate. }
  assert (Hlo : ascii_lower c = c).
  { unfold ascii_lower. destruct (upper_AZ c) eqn:E; auto.
    unfold latin, cor in Hl. rewrite E in Hl. discriminate. }
  rewrite Hu, Hlo. auto.
Qed.

(** C6, counterexample: the cleaned name Ab Cd Ef loses its first token
    when it is cleaned again. *)
Lemma clean_twice_differs :
  clean_extracted_name ucd_basic (PyStr (py "Xy Ab Cd Ef"))
  = Some (py "Ab Cd Ef")
  /\ clean_extracted_name ucd_basic (PyStr (py "Ab Cd Ef"))
     = Some (py "Cd Ef").
Proof. split; vm_compute; reflexivity. Qed.

(** A cleaned name that is stable, on [ucd_basic]. *)
Lemma clean_again_stable_witness :
  isspace ucd_basic 32%N = true
  /\ clean_extracted_name ucd_basic (PyStr (py "oN Suresh Babu MALE DOB"))
     = Some (py "Suresh Babu")
  /\ clean_extracted_name ucd_basic (PyStr (py "Suresh Babu"))
     = Some (py "Suresh Babu").
Proof.
  split; [reflexivity|].
  assert (H : clean_extracted_name ucd_basic
                (PyStr (py "oN Suresh Babu MALE DOB"))
              = Some (py "Suresh Babu")) by (vm_compute; reflexivity).
  split; [exact H|].
  apply (clean_again_stable ucd_basic eq_refl ucd_basic_name_not_space
           ucd_basic_latin_case ucd_basic_other_case
           (py "oN Suresh Babu MALE DOB") (py "Suresh Babu") H);
    vm_compute; reflexivity.
Defined.

(** * Further properties of the extractors *)

(** ** What is found is the leftmost candidate *)

Section Exactness.

Variable U : ucd.

Hypothesis digit_not_space :
  forall c, isdecimal U c = true -> isspace U c = false.

Lemma candidate_den T b g1 s1 g2 s2 g3 rest :
  aadhar_candidate U T b g1 s1 g2 s2 g3 rest ->
  T = b ++ (g1 ++ s1 ++ g2 ++ s2 ++ g3) ++ rest
  /\ den U (aadhar_re U) (last_char None b) (g1 ++ s1 ++ g2 ++ s2 ++ g3) rest.
Proof.
  intros (HT & L1 & L2 & L3 & D1 & D2 & D3 & S1 & S2 & M1 & M2). split.
  - rewrite HT, <- !app_assoc. reflexivity.
  - apply aadhar_den_intro; assumption.
Qed.

Lemma den_candidate b w rest :
  den U (aadhar_re U) (last_char None b) w rest ->
  exists g1 s1 g2 s2 g3,
    w = g1 ++ s1 ++ g2 ++ s2 ++ g3
    /\ aadhar_candidate U (b ++ w ++ rest) b g1 s1 g2 s2 g3 rest.
Proof.
  intros D. apply aadhar_re_den in D.
  destruct D as (g1 & s1 & g2 & s2 & g3 & -> & L1 & L2 & L3 & Hd & M1 & M2 & Hs).
  rewrite !forallb_app in Hd. rewrite !forallb_app in Hs.
  apply andb_true_iff in Hd. destruct Hd as [Hd1 Hd].
  apply andb_true_iff in Hd. destruct Hd as [Hd2 Hd3].
  apply andb_true_iff in Hs. destruct Hs as [Hs1 Hs2].
  exists g1, s1, g2, s2, g3. split; [reflexivity|].
  unfold aadhar_candidate, all_digits, all_spaces.
  rewrite <- !app_assoc. repeat split; assumption.
Qed.

(** A match of [re.search] starts no later than any place where the
    pattern matches. *)
Lemma search_from_first r T b w rest b' w' rest' :
  search_from U r None T = Some (b, w, rest) ->
  T = b' ++ w' ++ rest' ->
  den U r (last_char None b') w' rest' ->
  length b <= length b'.
Proof.
  intros E HT D.
  pose proof (search_from_sound U _ _ _ _ _ _ E) as [Hs _].
  rewrite Hs in HT. apply app_eq_app in HT.
  destruct HT as [l [[Hb Hl]|[Hb Hl]]].
  - destruct l as [|c l].
    + rewrite app_nil_r in Hb. subst. lia.
    + exfalso.
      pose proof (search_from_leftmost U r _ _ _ _ _ E b' (c :: l) Hb) as Hno.
      assert (Hin : In (w', rest') (rmatch U r (last_char None b') (w' ++ rest')))
        by (apply rmatch_iff; auto).
      rewrite Hl in Hin. rewrite Hno in Hin; [destruct Hin|discriminate].
  - subst b'. rewrite length_app. lia.
Qed.

(** X1.  [extract_aadhar] returns absent exactly when the transcript has
    no candidate; otherwise it returns the groups of a candidate that
    starts no later than any other, joined by single spaces. *)
Theorem extract_aadhar_leftmost_candidate (T : str) :
  match extract_aadhar U (PyStr T) with
  | Returns (Some r) =>
      exists b g1 s1 g2 s2 g3 rest,
        aadhar_candidate U T b g1 s1 g2 s2 g3 rest
        /\ r = g1 ++ SP ++ g2 ++ SP ++ g3
        /\ forall b' g1' s1' g2' s2' g3' rest',
            aadhar_candidate U T b' g1' s1' g2' s2' g3' rest' ->
            length b <= length b'
  | Returns None =>
      forall b g1 s1 g2 s2 g3 rest,
        ~ aadhar_candidate U T b g1 s1 g2 s2 g3 rest
  | Raises _ => False
  end.
Proof.
  unfold extract_aadhar, py_re_search, bind, re_search.
  destruct (search_from U (aadhar_re U) None T) as [[[b w] rest]|] eqn:E.
  - pose proof (search_from_sound U _ _ _ _ _ _ E) as [HT D].
    apply den_candidate in D.
    destruct D as (g1 & s1 & g2 & s2 & g3 & -> & Hc).
    rewrite <- HT in Hc.
    destruct Hc as (HT' & L1 & L2 & L3 & D1 & D2 & D3 & S1 & S2 & M1 & M2).
    destruct (aadhar_value U digit_not_space g1 s1 g2 s2 g3
                L1 L2 L3 D1 D2 D3 S1 S2) as [Hlen Hval].
    cbv zeta in Hlen, Hval. rewrite Hlen, Hval. cbn [negb].
    exists b, g1, s1, g2, s2, g3, rest.
    split; [unfold aadhar_candidate; repeat split; assumption|].
    split; [reflexivity|].
    intros b' g1' s1' g2' s2' g3' rest' Hc'.
    apply candidate_den in Hc'. destruct Hc' as [HT2 D2'].
    eapply search_from_first; eauto.
  - intros b g1 s1 g2 s2 g3 rest Hc.
    apply candidate_den in Hc. destruct Hc as [HT D].
    apply (search_from_complete U (aadhar_re U) b None _ _ D).
    rewrite <- HT. exact E.
Qed.

(** X2.  A transcript with fewer than twelve [\d] characters has no
    numeric ID. *)
Theorem extract_aadhar_needs_twelve_digits (T : str) :
  length (filter (cls_d U) T) < 12 ->
  extract_aadhar U (PyStr T) = Returns None.
Proof.
  intros Hcount.
  unfold extract_aadhar, py_re_search, bind, re_search.
  destruct (search_from U (aadhar_re U) None T) as [[[b w] rest]|] eqn:E;
    [exfalso|reflexivity].
  apply search_from_sound in E. destruct E as [-> D].
  apply aadhar_re_den in D.
  destruct D as (g1 & s1 & g2 & s2 & g3 & -> & L1 & L2 & L3 & Hd & _).
  rewrite !forallb_app in Hd.
  apply andb_true_iff in Hd. destruct Hd as [Hd1 Hd].
  apply andb_true_iff in Hd. destruct Hd as [Hd2 Hd3].
  rewrite !filter_app, !length_app in Hcount.
  rewrite (count_digits_id U g1 Hd1), (count_digits_id U g2 Hd2),
    (count_digits_id U g3 Hd3) in Hcount.
  lia.
Qed.

Lemma date_den_intro prev r rest :
  date_format U r = true -> den U (date_re U) prev r rest.
Proof.
  unfold date_format.
  destruct r as [|d1 [|d2 [|s1 [|m1 [|m2 [|s2 [|y1 [|y2 [|y3 [|y4 [|x r]]]]]]]]]]];
    try discriminate.
  intros H. apply andb_true_iff in H. destruct H as [H Hs2].
  apply andb_true_iff in H. destruct H as [H Hs1].
  cbn [forallb] in H.
  repeat match goal with
         | H : _ && _ = true |- _ => apply andb_true_iff in H; destruct H
         end.
  unfold date_re. cbn [seqs den].
  exists [d1; d2], [s1; m1; m2; s2; y1; y2; y3; y4]. split; [reflexivity|].
  split; [cbn; repeat split; auto; rewrite ?H, ?H0; auto|].
  exists [s1], [m1; m2; s2; y1; y2; y3; y4]. split; [reflexivity|].
  split; [exists s1; auto|].
  exists [m1; m2], [s2; y1; y2; y3; y4]. split; [reflexivity|].
  split; [cbn; repeat split; auto; rewrite ?H1, ?H2; auto|].
  exists [s2], [y1; y2; y3; y4]. split; [reflexivity|].
  split; [exists s2; auto|].
  cbn. repeat split; auto. rewrite H3, H4, H5, H6. reflexivity.
Qed.

(** X3.  [extract_dob] returns absent exactly when no part of the
    transcript has the form of a date; otherwise it returns the part of
    that form that starts first. *)
Theorem extract_dob_leftmost (T : str) :
  match extract_dob U (PyStr T) with
  | Returns (Some r) =>
      exists b rest,
        T = b ++ r ++ rest
        /\ date_format U r = true
        /\ forall b' r' rest',
            T = b' ++ r' ++ rest' -> date_format U r' = true ->
            length b <= length b'
  | Returns None =>
      forall r, date_format U r = true -> ~ substring_of r T
  | Raises _ => False
  end.
Proof.
  unfold extract_dob, py_re_search, bind, re_search.
  destruct (search_from U (date_re U) None T) as [[[b w] rest]|] eqn:E.
  - pose proof (search_from_sound U _ _ _ _ _ _ E) as [HT D].
    exists b, rest. split; [exact HT|].
    split; [eapply date_re_den; eauto|].
    intros b' r' rest' HT' Hr'.
    eapply search_from_first; eauto. apply date_den_intro. exact Hr'.
  - intros r Hr (b & rest & HT).
    apply (search_from_complete U (date_re U) b None r rest
             (date_den_intro _ r rest Hr)).
    rewrite <- HT. exact E.
Qed.

End Exactness.

(** A numeric ID after a word, on [ucd_basic]. *)
Lemma extract_aadhar_leftmost_candidate_witness :
  (forall c, isdecimal ucd_basic c = true -> isspace ucd_basic c = false)
  /\ match extract_aadhar ucd_basic (PyStr (py "No 1234 5678 9012 3456")) with
     | Returns (Some r) =>
         exists b g1 s1 g2 s2 g3 rest,
           aadhar_candidate ucd_basic (py "No 1234 5678 9012 3456")
             b g1 s1 g2 s2 g3 rest
           /\ r = g1 ++ SP ++ g2 ++ SP ++ g3
           /\ forall b' g1' s1' g2' s2' g3' rest',
               aadhar_candidate ucd_basic (py "No 1234 5678 9012 3456")
                 b' g1' s1' g2' s2' g3' rest' ->
               length b <= length b'
     | Returns None =>
         forall b g1 s1 g2 s2 g3 rest,
           ~ aadhar_candidate ucd_basic (py "No 1234 5678 9012 3456")
               b g1 s1 g2 s2 g3 rest
     | Raises _ => False
     end.
Proof.
  split; [exact ucd_basic_digit_not_space|].
  exact (extract_aadhar_leftmost_candidate ucd_basic
           ucd_basic_digit_not_space (py "No 1234 5678 9012 3456")).
Defined.

(** A date and eleven digits, on [ucd_basic]. *)
Lemma extract_aadhar_needs_twelve_digits_witness :
  length (filter (cls_d ucd_basic) (py "01/02/1990 123")) < 12
  /\ extract_aadhar ucd_basic (PyStr (py "01/02/1990 123")) = Returns None.
Proof.
  split; [vm_compute; lia|].
  apply extract_aadhar_needs_twelve_digits. vm_compute. lia.
Defined.

(** ** More on substitution *)

Section SubMore.

Variable U : ucd.

Lemma last_char_cons prev c (b : str) :
  last_char prev (c :: b) = last_char (Some c) b.
Proof. unfold last_char. cbn [rev]. destruct (rev b); reflexivity. Qed.

Lemma last_char_some c (b : str) : exists d, last_char (Some c) b = Some d.
Proof. unfold last_char. destruct (rev b); eauto. Qed.

(** Passing over the characters of a match. *)
Lemma sub_go_skip (r : regex) (repl : str) :
  forall s prev skip,
    skip <= length s ->
    sub_go U r repl prev s skip
    = sub_go U r repl (last_char prev (firstn skip s)) (skipn skip s) 0.
Proof.
  induction s as [|c s' IH]; intros prev skip Hlen.
  - cbn [length] in Hlen. assert (skip = 0) by lia. subst. reflexivity.
  - destruct skip as [|n]; [reflexivity|].
    cbn [length] in Hlen. cbn [firstn skipn]. rewrite last_char_cons.
    cbn [sub_go]. apply IH. lia.
Qed.

(** The greedy unbounded repetition matches the longest run, when it is
    long enough. *)
Lemma first_match_rep p lo prev s :
  first_match U (Rep p lo None) prev s false =
  if lo <=? span p s
  then Some (firstn (span p s) s, skipn (span p s) s) else None.
Proof.
  unfold first_match. cbn [rmatch].
  rewrite <- hd_rep_list_unbounded. f_equal.
  induction (rep_list p lo None s) as [|m l IHl]; cbn; auto.
  f_equal. auto.
Qed.

Lemma first_match_bos_plus p s :
  first_match U (Seq Bos (Plus p)) None s false =
  if 1 <=? span p s
  then Some (firstn (span p s) s, skipn (span p s) s) else None.
Proof.
  rewrite <- (first_match_rep p 1 None s).
  unfold first_match, Plus. cbn [rmatch flat_map fst snd last_char rev app].
  rewrite app_nil_r.
  induction (rep_list p 1 None s) as [|[w rest] l IHl]; [reflexivity|].
  cbn [map filter fst snd app negb orb hd_error]. reflexivity.
Qed.

(** An anchored pattern matches nowhere after the start. *)
Lemma first_match_bos_later (a : regex) c s adv :
  first_match U (Seq Bos a) (Some c) s adv = None.
Proof. reflexivity. Qed.

Lemma sub_go_bos_later (a : regex) (repl : str) :
  forall s c, sub_go U (Seq Bos a) repl (Some c) s 0 = s.
Proof.
  induction s as [|d s' IH]; intros c; [reflexivity|].
  cbn [sub_go]. rewrite first_match_bos_later. f_equal. apply IH.
Qed.

Lemma span_all p (s : str) : forallb p s = true -> span p s = length s.
Proof.
  induction s as [|c s' IH]; [reflexivity|].
  cbn [forallb span length]. intros H.
  apply andb_true_iff in H. destruct H as [Hc Hs].
  rewrite Hc, IH by assumption. reflexivity.
Qed.

Lemma span_app_stop p (a : str) c (t : str) :
  forallb p a = true -> p c = false -> span p (a ++ c :: t) = length a.
Proof.
  induction a as [|d a IH]; cbn [forallb span length app]; intros H Hc.
  - rewrite Hc. reflexivity.
  - apply andb_true_iff in H. destruct H as [Hd Ha].
    rewrite Hd, IH by assumption. reflexivity.
Qed.

(** One step of [re.sub] at a non-empty match. *)
Lemma sub_go_match (r : regex) (repl : str) prev c s w rest n :
  first_match U r prev (c :: s) false = Some (w, rest) ->
  length w = S n ->
  sub_go U r repl prev (c :: s) 0 = repl ++ sub_go U r repl (Some c) s n.
Proof. intros H Hn. cbn [sub_go]. rewrite H, Hn. reflexivity. Qed.

(** [^p+] deletes a whole string of characters of [p]. *)
Lemma sub_bos_plus_all p (s : str) :
  forallb p s = true -> re_sub U (Seq Bos (Plus p)) [] s = [].
Proof.
  intros H. unfold re_sub. destruct s as [|c s']; [reflexivity|].
  assert (Hm : first_match U (Seq Bos (Plus p)) None (c :: s') false
               = Some (c :: s', [])).
  { rewrite first_match_bos_plus, (span_all p _ H).
    rewrite firstn_all, skipn_all. reflexivity. }
  rewrite (sub_go_match _ [] None c s' _ _ (length s') Hm eq_refl).
  cbn [app]. rewrite sub_go_skip by lia. rewrite firstn_all, skipn_all.
  destruct (last_char_some c s') as [d ->]. reflexivity.
Qed.

(** [^p+] deletes the run of characters of [p] before the first
    character outside [p]. *)
Lemma sub_bos_plus_prefix p (a : str) c (t : str) :
  forallb p a = true -> p c = false ->
  re_sub U (Seq Bos (Plus p)) [] (a ++ c :: t) = c :: t.
Proof.
  intros Ha Hc. unfold re_sub. destruct a as [|d a'].
  - cbn [app]. rewrite sub_go_copy.
    + f_equal. apply sub_go_bos_later.
    + rewrite first_match_bos_plus. cbn [span]. rewrite Hc. reflexivity.
  - assert (Hm : first_match U (Seq Bos (Plus p)) None ((d :: a') ++ c :: t) false
                 = Some (d :: a', c :: t)).
    { rewrite first_match_bos_plus, (span_app_stop p _ c t Ha Hc).
      rewrite firstn_app, firstn_all, Nat.sub_diag. cbn [firstn].
      rewrite app_nil_r.
      rewrite skipn_app, skipn_all, Nat.sub_diag. reflexivity. }
    cbn [app] in *.
    rewrite (sub_go_match _ [] None d (a' ++ c :: t) _ _ (length a') Hm eq_refl).
    cbn [app].
    rewrite sub_go_skip by (rewrite length_app; cbn [length]; lia).
    rewrite skipn_app, skipn_all, Nat.sub_diag. cbn [skipn app].
    rewrite firstn_app, firstn_all, Nat.sub_diag. cbn [firstn].
    rewrite app_nil_r.
    destruct (last_char_some d a') as [e ->]. apply sub_go_bos_later.
Qed.

End SubMore.

(** ** The cleaner and what comes before the first letter *)

Section CleanEdges.

Variable U : ucd.

Lemma lstrip_snoc (a : str) c :
  isspace U c = false -> exists a', lstrip U (a ++ [c]) = a' ++ [c].
Proof.
  intros Hc. induction a as [|d a IH]; cbn [app lstrip].
  - rewrite Hc. exists []. reflexivity.
  - destruct (isspace U d); [exact IH|]. exists (d :: a). reflexivity.
Qed.

Lemma lstrip_app_keep (a b : str) :
  lstrip U a <> [] -> lstrip U (a ++ b) = lstrip U a ++ b.
Proof.
  induction a as [|d a IH]; cbn [app lstrip]; intros H; [contradiction|].
  destruct (isspace U d); [apply IH; exact H|reflexivity].
Qed.

(** [rstrip] keeps what is before the last non-white-space character. *)
Lemma rstrip_app_keep (a b : str) c :
  isspace U c = false ->
  rstrip U (a ++ c :: b) = a ++ rstrip U (c :: b).
Proof.
  intros Hc. unfold rstrip.
  rewrite rev_app_distr.
  assert (Hne : lstrip U (rev (c :: b)) <> []).
  { cbn [rev]. destruct (lstrip_snoc (rev b) c Hc) as [a' ->].
    destruct a'; discriminate. }
  rewrite (lstrip_app_keep _ _ Hne), rev_app_distr, rev_involutive.
  reflexivity.
Qed.

Lemma rstrip_head c (b : str) :
  isspace U c = false -> exists b', rstrip U (c :: b) = c :: b'.
Proof.
  intros Hc. unfold rstrip. cbn [rev].
  destruct (lstrip_snoc (rev b) c Hc) as [a' ->].
  rewrite rev_app_distr. cbn [rev app]. eauto.
Qed.

(** The part of [lstrip] of a string that begins with characters of [p]
    followed by a character that is not white space. *)
Lemma lstrip_prefix (p : char -> bool) (a : str) c (t : str) :
  forallb p a = true -> isspace U c = false ->
  exists a', lstrip U (a ++ c :: t) = a' ++ c :: t /\ forallb p a' = true.
Proof.
  intros Ha Hc. induction a as [|d a IH]; cbn [app lstrip].
  - rewrite Hc. exists []. auto.
  - cbn [forallb] in Ha. apply andb_true_iff in Ha. destruct Ha as [Hd Ha].
    destruct (isspace U d); [apply IH; exact Ha|].
    exists (d :: a). cbn [forallb]. rewrite Hd, Ha. auto.
Qed.

(** After its first two steps the cleaner has nothing left of a string
    without letters. *)
Lemma clean_letterless (raw : str) :
  forallb non_letter raw = true ->
  clean_extracted_name U (PyStr raw) = None.
Proof.
  intros H. unfold clean_extracted_name.
  destruct (is_empty raw); [reflexivity|]. cbv zeta.
  unfold lead_nonletter_re.
  rewrite (sub_bos_plus_all U (cneg (cor latin devanagari)) (strip U raw))
    by (apply strip_forallb; exact H).
  vm_compute. reflexivity.
Qed.

(** X4.  A candidate that is absent, empty or without any Latin or
    Devanagari character cleans to absent. *)
Theorem clean_needs_a_letter (raw : pyval) :
  match raw with
  | PyNone => True
  | PyStr s => forallb non_letter s = true
  end ->
  clean_extracted_name U raw = None.
Proof.
  destruct raw as [|s]; [reflexivity|]. apply clean_letterless.
Qed.

(** Letters are not white space. *)
Hypothesis letter_not_space :
  forall c, latin c || devanagari c = true -> isspace U c = false.

(** X5.  What precedes the first letter of a candidate has no effect on
    the cleaned name. *)
Theorem clean_ignores_leading_non_letters (junk rest : str) :
  forallb non_letter junk = true ->
  letter_first rest = true ->
  clean_extracted_name U (PyStr (junk ++ rest))
  = clean_extracted_name U (PyStr rest).
Proof.
  intros Hj Hr.
  destruct rest as [|c t]; [discriminate|]. cbn [letter_first] in Hr.
  pose proof (letter_not_space c Hr) as Hc.
  assert (Hnl : non_letter c = false)
    by (unfold non_letter, cneg, cor; rewrite Hr; reflexivity).
  destruct (lstrip_prefix non_letter junk c t Hj Hc) as (junk' & Hl & Hj').
  destruct (rstrip_head c t Hc) as (t' & Ht').
  assert (E1 : re_sub U lead_nonletter_re [] (strip U (junk ++ c :: t))
               = c :: t').
  { unfold strip. rewrite Hl, (rstrip_app_keep junk' t c Hc), Ht'.
    apply sub_bos_plus_prefix; assumption. }
  assert (E2 : re_sub U lead_nonletter_re [] (strip U (c :: t)) = c :: t').
  { unfold strip. cbn [lstrip]. rewrite Hc, Ht'.
    apply (sub_bos_plus_prefix U non_letter [] c t'); auto. }
  unfold clean_extracted_name.
  replace (is_empty (junk ++ c :: t)) with false
    by (destruct junk; reflexivity).
  cbn [is_empty]. cbv zeta. rewrite E1, E2. reflexivity.
Qed.

End CleanEdges.

(** A candidate of digits and punctuation, on [ucd_basic]. *)
Lemma clean_needs_a_letter_witness :
  forallb non_letter (py "12/03 #@ 4567") = true
  /\ clean_extracted_name ucd_basic (PyStr (py "12/03 #@ 4567")) = None.
Proof.
  split; [vm_compute; reflexivity|].
  apply (clean_needs_a_letter ucd_basic (PyStr (py "12/03 #@ 4567"))).
  vm_compute. reflexivity.
Defined.

Lemma ucd_basic_letter_not_space :
  forall c, latin c || devanagari c = true -> isspace ucd_basic c = false.
Proof.
  intros c H. apply ucd_basic_name_not_space.
  unfold name_tok_char. rewrite H. reflexivity.
Qed.

(** A candidate with a number and a bullet before the name, on
    [ucd_basic]. *)
Lemma clean_ignores_leading_non_letters_witness :
  (forall c, latin c || devanagari c = true -> isspace ucd_basic c = false)
  /\ forallb non_letter (py " 3. * ") = true
  /\ letter_first (py "Pankaj Khanna") = true
  /\ clean_extracted_name ucd_basic (PyStr (py " 3. * " ++ py "Pankaj Khanna"))
     = clean_extracted_name ucd_basic (PyStr (py "Pankaj Khanna")).
Proof.
  split; [exact ucd_basic_letter_not_space|].
  split; [vm_compute; reflexivity|].
  split; [vm_compute; reflexivity|].
  apply (clean_ignores_leading_non_letters ucd_basic
           ucd_basic_letter_not_space (py " 3. * ") (py "Pankaj Khanna"));
    vm_compute; reflexivity.
Defined.

(** ** The form of a cleaned name *)

Section CleanedName.

Variable U : ucd.

Hypothesis space_is_space : isspace U 32%N = true.

Hypothesis name_not_space :
  forall c, name_tok_char c = true -> isspace U c = false.

Hypothesis latin_case :
  forall c, latin c = true ->
            iscased U c = true
            /\ totitle_full U c = [ascii_upper c]
            /\ tolower_full U c = [ascii_lower c]
            /\ toupper_full U c = [ascii_upper c].

Hypothesis other_case :
  forall c, name_tok_char c = true -> latin c = false ->
            iscased U c = false
            /\ totitle_full U c = [c]
            /\ tolower_full U c = [c]
            /\ toupper_full U c = [c].

(** X6.  A cleaned name is its tokens joined by single spaces: it has no
    white space at either end, and splitting it and joining the tokens
    with a space gives it back. *)
Theorem clean_spacing (raw : pyval) (r : str) :
  clean_extracted_name U raw = Some r ->
  strip U r = r /\ join SP (split U r) = r.
Proof.
  intros H.
  apply (clean_shape U space_is_space latin_case other_case) in H.
  destruct H as (ts & Hok & _ & -> & _). split.
  - apply (strip_join U name_not_space). exact Hok.
  - rewrite (split_join U space_is_space name_not_space ts Hok). reflexivity.
Qed.

(** Case analysis on the range tests of a letter. *)
Ltac az_cases :=
  unfold ascii_upper, ascii_lower, latin, cor, upper_AZ, lower_az,
    in_range in *;
  repeat match goal with
         | H : context [(?a <=? ?b)%N] |- _ => destruct (N.leb_spec a b)
         | |- context [(?a <=? ?b)%N] => destruct (N.leb_spec a b)
         end;
  cbn [andb orb negb] in *; try reflexivity; try discriminate; try lia;
  try (exfalso; lia).

Lemma upper_fixed c : latin c = true -> ascii_upper c = c -> upper_AZ c = true.
Proof. intros H1 H2. az_cases. Qed.

Lemma lower_fixed c : latin c = true -> ascii_lower c = c -> lower_az c = true.
Proof. intros H1 H2. az_cases. Qed.

Lemma well_cased_no_latin (t : str) :
  existsb latin t = false -> forall b, well_cased b t = true.
Proof.
  induction t as [|c t IH]; intros H b; [reflexivity|].
  cbn [existsb] in H. apply orb_false_iff in H. destruct H as [Hc Ht].
  cbn [well_cased]. rewrite Hc. cbn [andb]. apply IH. exact Ht.
Qed.

Lemma title_map_fixed :
  forall s b, title_map b s = s -> well_cased b s = true.
Proof.
  induction s as [|c s IH]; intros b H; [reflexivity|].
  cbn [title_map] in H. injection H as Hc Hs.
  cbn [well_cased]. rewrite (IH _ Hs), andb_true_r.
  destruct (latin c) eqn:El; [|reflexivity].
  destruct b; [apply lower_fixed|apply upper_fixed]; assumption.
Qed.

Lemma token_well_cased (t : str) :
  token_ok t -> case_token U t = t -> well_cased false t = true.
Proof.
  intros [_ Ht] H.
  rewrite (case_token_eq U latin_case other_case t Ht) in H.
  destruct (existsb latin t) eqn:El; [|apply well_cased_no_latin; exact El].
  destruct (is_initial t) eqn:Ei; [|apply title_map_fixed; exact H].
  destruct t as [|c [|d [|e t]]]; try discriminate.
  cbn [is_initial] in Ei. apply andb_true_iff in Ei. destruct Ei as [Ec Ed].
  apply N.eqb_eq in Ed. subst d.
  cbn [map] in H. injection H as Hc. unfold up_char in Hc. rewrite Ec in Hc.
  cbn [well_cased]. rewrite Ec, (upper_fixed c Ec Hc). reflexivity.
Qed.

Lemma well_cased_app_space (t rest : str) :
  forall b,
    well_cased b (t ++ SP ++ rest) = well_cased b t && well_cased false rest.
Proof.
  induction t as [|c t IH]; intros b.
  - reflexivity.
  - cbn [app well_cased]. rewrite IH, andb_assoc. reflexivity.
Qed.

Lemma join_well_cased (ts : list str) :
  Forall (fun t => well_cased false t = true) ts ->
  well_cased false (join SP ts) = true.
Proof.
  induction 1 as [|t ts Ht Hts IH]; [reflexivity|].
  cbn [join]. destruct ts as [|t' ts']; [exact Ht|].
  rewrite well_cased_app_space, Ht, IH. reflexivity.
Qed.

(** X7.  A cleaned name is in title case: each of its Latin letters is
    upper-case when no Latin letter precedes it and lower-case when one
    does. *)
Theorem clean_title_cased (raw : pyval) (r : str) :
  clean_extracted_name U raw = Some r -> well_cased false r = true.
Proof.
  intros H.
  apply (clean_shape U space_is_space latin_case other_case) in H.
  destruct H as (ts & Hok & Hcase & -> & _).
  apply join_well_cased.
  rewrite Forall_forall in *. intros t Hin.
  apply token_well_cased; auto.
Qed.

End CleanedName.

(** A candidate in upper case with a label, on [ucd_basic]. *)
Lemma clean_spacing_witness :
  isspace ucd_basic 32%N = true
  /\ clean_extracted_name ucd_basic (PyStr (py "  Name:  RAVI   KUMAR  "))
     = Some (py "Ravi Kumar")
  /\ strip ucd_basic (py "Ravi Kumar") = py "Ravi Kumar"
  /\ join SP (split ucd_basic (py "Ravi Kumar")) = py "Ravi Kumar".
Proof.
  split; [reflexivity|].
  assert (H : clean_extracted_name ucd_basic
                (PyStr (py "  Name:  RAVI   KUMAR  "))
              = Some (py "Ravi Kumar")) by (vm_compute; reflexivity).
  split; [exact H|].
  exact (clean_spacing ucd_basic eq_refl ucd_basic_name_not_space
           ucd_basic_latin_case ucd_basic_other_case _ _ H).
Defined.

(** A candidate in mixed case with an initial, on [ucd_basic]. *)
Lemma clean_title_cased_witness :
  isspace ucd_basic 32%N = true
  /\ clean_extracted_name ucd_basic (PyStr (py "k. o'NEIL-smith"))
     = Some (py "K. O'Neil-Smith")
  /\ well_cased false (py "K. O'Neil-Smith") = true.
Proof.
  split; [reflexivity|].
  assert (H : clean_extracted_name ucd_basic (PyStr (py "k. o'NEIL-smith"))
              = Some (py "K. O'Neil-Smith")) by (vm_compute; reflexivity).
  split; [exact H|].
  exact (clean_title_cased ucd_basic eq_refl ucd_basic_latin_case
           ucd_basic_other_case _ _ H).
Defined.

(** ** The text returned by [ocr] and the lines read from it *)

Section OcrText.

Variable U : ucd.

Lemma no_double_newline_cons c (s : str) :
  no_double_newline (c :: s)
  = negb ((c =? 10)%N && hd_newline s) && no_double_newline s.
Proof. destruct s; cbn [no_double_newline hd_newline]; auto.
  rewrite andb_false_r. reflexivity. Qed.

Lemma span_skipn_stop p (s : str) :
  match skipn (span p s) s with
  | c :: _ => p c = false
  | [] => True
  end.
Proof.
  induction s as [|c s IH]; cbn [span]; [exact I|].
  destruct (p c) eqn:E; cbn [skipn]; auto.
Qed.

Lemma lit_newline c : lit 10%N c = (c =? 10)%N.
Proof. unfold lit. apply N.eqb_sym. Qed.

(** After [re.sub] of \n{2,} by one newline no two newlines are in a
    row, and the text begins with a newline only if it did before. *)
Lemma sub_newlines2 :
  forall n s prev,
    length s <= n ->
    no_double_newline (sub_go U newlines2_re NL prev s 0) = true
    /\ hd_newline (sub_go U newlines2_re NL prev s 0) = hd_newline s.
Proof.
  induction n as [|n IH]; intros s prev Hlen.
  - destruct s; [|cbn [length] in Hlen; lia]. split; reflexivity.
  - destruct s as [|c s']; [split; reflexivity|].
    cbn [length] in Hlen.
    pose proof (first_match_rep U (lit 10%N) 2 prev (c :: s')) as Hm.
    fold newlines2_re in Hm.
    pose proof (span_le (lit 10%N) s') as Hle.
    pose proof (span_skipn_stop (lit 10%N) s') as Hstop.
    cbn [span] in Hm. rewrite lit_newline in Hm.
    destruct (c =? 10)%N eqn:Ec.
    + destruct (span (lit 10%N) s') as [|k] eqn:Ek.
      * (* a single newline is kept *)
        cbn [Nat.leb] in Hm.
        rewrite (sub_go_copy U newlines2_re NL prev c s' Hm).
        destruct (IH s' (Some c) ltac:(lia)) as [H1 H2].
        rewrite no_double_newline_cons, H1, H2. cbn [hd_newline].
        rewrite Ec. split; [|reflexivity].
        cbn [skipn] in Hstop.
        destruct s' as [|d s'']; [reflexivity|].
        cbn [hd_newline]. rewrite lit_newline in Hstop. rewrite Hstop.
        reflexivity.
      * (* a run of two or more newlines becomes one *)
        assert (Hm' : first_match U newlines2_re prev (c :: s') false
                      = Some (c :: firstn (S k) s', skipn (S k) s'))
          by (rewrite Hm; reflexivity).
        rewrite (sub_go_match U newlines2_re NL prev c s' _ _ (S k) Hm')
          by (cbn [length]; rewrite length_firstn, Nat.min_l;
              [reflexivity|lia]).
        rewrite sub_go_skip by lia.
        set (s2 := skipn (S k) s') in *.
        assert (Hlen2 : length s2 <= n).
        { unfold s2. rewrite length_skipn. lia. }
        destruct (IH s2 (last_char (Some c) (firstn (S k) s')) Hlen2)
          as [H1 H2].
        assert (Hhd : hd_newline s2 = false).
        { destruct s2 as [|d s2']; [reflexivity|].
          cbn [hd_newline]. rewrite lit_newline in Hstop. exact Hstop. }
        change (NL ++ ?x) with (10%N :: x).
        rewrite no_double_newline_cons, H1, H2, Hhd.
        cbn [hd_newline]. rewrite Ec. split; reflexivity.
    + (* not a newline: the character is kept *)
      cbn [Nat.leb] in Hm.
      rewrite (sub_go_copy U newlines2_re NL prev c s' Hm).
      destruct (IH s' (Some c) ltac:(lia)) as [H1 H2].
      rewrite no_double_newline_cons, H1. cbn [hd_newline]. rewrite Ec.
      split; reflexivity.
Qed.

Lemma no_double_newline_app_l (a b : str) :
  no_double_newline (a ++ b) = true -> no_double_newline a = true.
Proof.
  induction a as [|c a IH]; intros H; [reflexivity|].
  cbn [app] in H. rewrite no_double_newline_cons in *.
  apply andb_true_iff in H. destruct H as [H1 H2].
  rewrite (IH H2), andb_true_r.
  destruct a as [|d a]; cbn [hd_newline app] in *.
  - rewrite andb_false_r. reflexivity.
  - exact H1.
Qed.

Lemma no_double_newline_app_r (a b : str) :
  no_double_newline (a ++ b) = true -> no_double_newline b = true.
Proof.
  induction a as [|c a IH]; intros H; [exact H|].
  cbn [app] in H. rewrite no_double_newline_cons in H.
  apply andb_true_iff in H. destruct H as [_ H2]. auto.
Qed.

Lemma lstrip_suffix (s : str) : exists a, s = a ++ lstrip U s.
Proof.
  induction s as [|c s [a IH]]; cbn [lstrip]; [exists []; reflexivity|].
  destruct (isspace U c).
  - exists (c :: a). cbn [app]. f_equal. exact IH.
  - exists []. reflexivity.
Qed.

Lemma rstrip_prefix (s : str) : exists b, s = rstrip U s ++ b.
Proof.
  unfold rstrip. destruct (lstrip_suffix (rev s)) as [a Ha].
  exists (rev a).
  rewrite <- rev_app_distr, <- Ha, rev_involutive. reflexivity.
Qed.

Lemma strip_no_double_newline (s : str) :
  no_double_newline s = true -> no_double_newline (strip U s) = true.
Proof.
  intros H. unfold strip.
  destruct (lstrip_suffix s) as [a Ha].
  destruct (rstrip_prefix (lstrip U s)) as [b Hb].
  rewrite Ha in H. apply no_double_newline_app_r in H.
  rewrite Hb in H. apply no_double_newline_app_l in H. exact H.
Qed.

Lemma lstrip_head (s : str) :
  match lstrip U s with
  | c :: _ => isspace U c = false
  | [] => True
  end.
Proof.
  induction s as [|c s IH]; cbn [lstrip]; [exact I|].
  destruct (isspace U c) eqn:E; auto.
Qed.

(** [strip] leaves no white space at either end. *)
Lemma strip_stripped (s : str) : stripped U (strip U s) = true.
Proof.
  unfold strip.
  pose proof (lstrip_head s) as Hh.
  destruct (lstrip U s) as [|c x]; [reflexivity|].
  unfold rstrip. cbn [rev].
  pose proof (lstrip_head (rev x ++ [c])) as Hh2.
  destruct (lstrip_snoc U (rev x) c Hh) as [a' Ha']. rewrite Ha' in *.
  rewrite rev_app_distr. cbn [rev app stripped].
  rewrite Hh. cbn [negb andb].
  destruct a' as [|d a''].
  - cbn [rev app last]. rewrite Hh. reflexivity.
  - cbn [app] in Hh2. cbn [rev].
    change (c :: rev a'' ++ [d]) with ((c :: rev a'') ++ [d]).
    rewrite last_last, Hh2. reflexivity.
Qed.

Lemma stripped_strip_id (s : str) : stripped U s = true -> strip U s = s.
Proof.
  destruct s as [|c s]; intros H; [reflexivity|].
  cbn [stripped] in H. apply andb_true_iff in H. destruct H as [H1 H2].
  apply negb_true_iff in H1. apply negb_true_iff in H2.
  unfold strip. cbn [lstrip]. rewrite H1.
  unfold rstrip.
  destruct (exists_last (l := c :: s) ltac:(discriminate)) as (pre & d & Hpd).
  rewrite Hpd in *. rewrite last_last in H2.
  rewrite rev_app_distr. cbn [rev app lstrip]. rewrite H2.
  change (d :: rev pre) with (rev [d] ++ rev pre).
  rewrite <- rev_app_distr, rev_involutive. reflexivity.
Qed.

Lemma replace_char_absent (o : char) (s : str) :
  forallb (fun c => negb (c =? o)%N) (replace_char o [] s) = true.
Proof.
  unfold replace_char. induction s as [|c s IH]; [reflexivity|].
  cbn [flat_map]. destruct (c =? o)%N eqn:E; cbn [app forallb]; auto.
  rewrite E, IH. reflexivity.
Qed.

(** X8.  The text that [ocr] returns has no carriage return, no two
    newlines in a row and no white space at either end, whatever the
    engine and the normalisation give. *)
Theorem ocr_text_normal_form (nfkc : str -> str) (image_to_string : str) :
  forallb (fun c => negb (c =? 13)%N) (ocr U nfkc image_to_string) = true
  /\ no_double_newline (ocr U nfkc image_to_string) = true
  /\ stripped U (ocr U nfkc image_to_string) = true.
Proof.
  unfold ocr. cbv zeta.
  set (text := replace_char 13%N [] (nfkc image_to_string)).
  split; [|split].
  - apply strip_forallb. apply re_sub_forallb; [reflexivity|].
    apply replace_char_absent.
  - apply strip_no_double_newline. unfold re_sub.
    apply (sub_newlines2 (length text) text None (le_n _)).
  - apply strip_stripped.
Qed.

(** *** The lines of a transcript *)

Lemma splitlines_go_forallb (P : char -> bool) :
  forall n s cur,
    length s <= n ->
    forallb P s = true -> forallb P cur = true ->
    Forall (fun l => forallb P l = true) (splitlines_go cur s).
Proof.
  induction n as [|n IH]; intros s cur Hlen Hs Hcur.
  - destruct s; [|cbn [length] in Hlen; lia].
    cbn [splitlines_go]. destruct cur; constructor; auto.
    rewrite forallb_rev. exact Hcur.
  - destruct s as [|c s'].
    + cbn [splitlines_go]. destruct cur; constructor; auto.
      rewrite forallb_rev. exact Hcur.
    + cbn [length] in Hlen. cbn [forallb] in Hs.
      apply andb_true_iff in Hs. destruct Hs as [Hc Hs].
      cbn [splitlines_go]. destruct (is_linebreak c).
      * constructor; [rewrite forallb_rev; exact Hcur|].
        assert (H1 : Forall (fun l => forallb P l = true) (splitlines_go [] s'))
          by (apply IH; auto; lia).
        destruct s' as [|d s''];
          [destruct c as [|[]]; try exact H1;
           repeat match goal with |- context [match ?p with _ => _ end] =>
                                    destruct p; try exact H1 end|].
        cbn [forallb] in Hs. apply andb_true_iff in Hs. destruct Hs as [Hd Hs].
        assert (H2 : Forall (fun l => forallb P l = true) (splitlines_go [] s''))
          by (apply IH; auto; cbn [length] in Hlen; lia).
        destruct (N.eq_dec c 13) as [->|Hc13];
          [destruct (N.eq_dec d 10) as [->|Hd10]; [exact H2|]|].
        -- destruct d as [|p]; [exact H1|].
           repeat (destruct p as [p|p|]; try exact H1). contradiction.
        -- destruct c as [|p]; [exact H1|].
           repeat (destruct p as [p|p|]; try exact H1). contradiction.
      * apply IH; auto; [lia|]. cbn [forallb]. rewrite Hc, Hcur. reflexivity.
Qed.

Lemma splitlines_go_no_break :
  forall n s cur,
    length s <= n ->
    forallb (cneg is_linebreak) cur = true ->
    Forall (fun l => forallb (cneg is_linebreak) l = true) (splitlines_go cur s).
Proof.
  induction n as [|n IH]; intros s cur Hlen Hcur.
  - destruct s; [|cbn [length] in Hlen; lia].
    cbn [splitlines_go]. destruct cur; constructor; auto.
    rewrite forallb_rev. exact Hcur.
  - destruct s as [|c s'].
    + cbn [splitlines_go]. destruct cur; constructor; auto.
      rewrite forallb_rev. exact Hcur.
    + cbn [length] in Hlen.
      cbn [splitlines_go]. destruct (is_linebreak c) eqn:Eb.
      * constructor; [rewrite forallb_rev; exact Hcur|].
        assert (H1 : Forall (fun l => forallb (cneg is_linebreak) l = true)
                       (splitlines_go [] s'))
          by (apply IH; auto; lia).
        destruct s' as [|d s''];
          [destruct c as [|[]]; try exact H1;
           repeat match goal with |- context [match ?p with _ => _ end] =>
                                    destruct p; try exact H1 end|].
        assert (H2 : Forall (fun l => forallb (cneg is_linebreak) l = true)
                       (splitlines_go [] s''))
          by (apply IH; auto; cbn [length] in Hlen; lia).
        destruct (N.eq_dec c 13) as [->|Hc13];
          [destruct (N.eq_dec d 10) as [->|Hd10]; [exact H2|]|].
        -- destruct d as [|p]; [exact H1|].
           repeat (destruct p as [p|p|]; try exact H1). contradiction.
        -- destruct c as [|p]; [exact H1|].
           repeat (destruct p as [p|p|]; try exact H1). contradiction.
      * apply IH; auto; [lia|]. cbn [forallb]. unfold cneg at 1.
        rewrite Eb, Hcur. reflexivity.
Qed.

(** X9.  The lines that the name strategies read are not empty, have no
    white space at either end and contain no line boundary. *)
Theorem stripped_lines_invariant (t : str) :
  Forall (fun l => l <> []
                   /\ stripped U l = true
                   /\ forallb (cneg is_linebreak) l = true)
         (stripped_lines U t).
Proof.
  unfold stripped_lines. apply Forall_forall. intros l Hin.
  apply in_map_iff in Hin. destruct Hin as (l0 & <- & Hin).
  apply filter_In in Hin. destruct Hin as [Hin Hne].
  split; [|split].
  - destruct (strip U l0); [discriminate|discriminate].
  - apply strip_stripped.
  - apply strip_forallb.
    pose proof (splitlines_go_no_break (length t) t [] (le_n _) eq_refl) as H.
    rewrite Forall_forall in H. apply H. exact Hin.
Qed.

End OcrText.

(** ** Transcripts without letters, and a crop that settles the name *)

Section NameEdges.

Variable U : ucd.

Lemma stripped_lines_forallb (P : char -> bool) (t : str) :
  forallb P t = true ->
  Forall (fun l => forallb P l = true) (stripped_lines U t).
Proof.
  intros H. unfold stripped_lines. apply Forall_forall. intros l Hin.
  apply in_map_iff in Hin. destruct Hin as (l0 & <- & Hin).
  apply filter_In in Hin. destruct Hin as [Hin _].
  apply strip_forallb.
  pose proof (splitlines_go_forallb P (length t) t [] (le_n _) H eq_refl) as Hl.
  rewrite Forall_forall in Hl. apply Hl. exact Hin.
Qed.

Lemma nth_forallb (P : char -> bool) (lines : list str) (i : nat) :
  Forall (fun l => forallb P l = true) lines ->
  forallb P (nth i lines []) = true.
Proof.
  intros H. revert i. induction H as [|l lines Hl Hls IH]; intros i.
  - destruct i; reflexivity.
  - destruct i; cbn [nth]; auto.
Qed.

Lemma dob_loop_letterless (lines : list str) :
  Forall (fun l => forallb non_letter l = true) lines ->
  forall todo, dob_loop U lines todo = None.
Proof.
  intros H. induction todo as [|[i line] todo IH]; [reflexivity|].
  cbn [dob_loop]. rewrite IH.
  destruct (re_test U (date_re U) line); [|reflexivity].
  destruct (0 <? i); [|reflexivity].
  rewrite clean_letterless; [reflexivity|].
  unfold dob_candidate.
  apply re_sub_forallb; [reflexivity|].
  apply re_sub_forallb; [reflexivity|].
  apply nth_forallb. exact H.
Qed.

Lemma two_word_needs_letter (line : str) :
  forallb non_letter line = true ->
  re_match U (two_word_re U) line = None.
Proof.
  intros H. unfold re_match.
  destruct (first_match U (two_word_re U) None line false) as [[w rest]|] eqn:E;
    [exfalso|reflexivity].
  apply first_match_sound in E. destruct E as [-> D].
  unfold two_word_re in D. cbn [seqs den] in D.
  destruct D as (w1 & w2 & -> & _ & w3 & w4 & -> & (c & -> & Hc) & _).
  rewrite !forallb_app in H.
  apply andb_true_iff in H. destruct H as [H _].
  apply andb_true_iff in H. destruct H as [_ H].
  apply andb_true_iff in H. destruct H as [H _].
  cbn [forallb] in H. unfold non_letter, cneg in H.
  unfold name_start in Hc. rewrite Hc in H. discriminate.
Qed.

Lemma two_word_loop_letterless (lines : list str) :
  Forall (fun l => forallb non_letter l = true) lines ->
  two_word_loop U lines = None.
Proof.
  induction 1 as [|l lines Hl Hls IH]; [reflexivity|].
  cbn [two_word_loop]. rewrite (two_word_needs_letter l Hl). exact IH.
Qed.

(** X10.  A transcript without any Latin or Devanagari character gives
    no name, with or without a crop of the same kind. *)
Theorem extract_name_needs_a_letter (full : str) (crop : pyval) :
  forallb non_letter full = true ->
  forallb non_letter (crop_text crop) = true ->
  extract_name U (PyStr full) crop = Returns None.
Proof.
  intros Hf Hc. rewrite extract_name_chain.
  unfold dob_strategy, two_word_strategy.
  rewrite !dob_loop_letterless, !two_word_loop_letterless
    by (apply stripped_lines_forallb; assumption).
  reflexivity.
Qed.

(** X11.  When a strategy succeeds on the crop, its name is returned
    whatever the full transcript is, even an absent one. *)
Theorem extract_name_crop_first (text : pyval) (crop n : str) :
  first_success [dob_strategy U crop; two_word_strategy U crop] = Some n ->
  extract_name U text (PyStr crop) = Returns (Some n).
Proof.
  intros H. unfold extract_name.
  destruct crop as [|c0 c].
  - exfalso. revert H. vm_compute. discriminate.
  - cbn [truthy is_empty negb].
    unfold find_by_dob_block, py_stripped_lines, bind.
    fold (dob_strategy U (c0 :: c)). fold (two_word_strategy U (c0 :: c)).
    cbn [first_success] in H.
    destruct (dob_strategy U (c0 :: c)) as [m|] eqn:E.
    + injection H as ->.
      apply dob_strategy_truthy in E. cbn [truthy_opt] in *. rewrite E.
      reflexivity.
    + cbn [truthy_opt].
      destruct (two_word_strategy U (c0 :: c)) as [m|]; [|discriminate].
      injection H as ->. reflexivity.
Qed.

End NameEdges.

(** A transcript of numbers and signs, on [ucd_basic]. *)
Lemma extract_name_needs_a_letter_witness :
  forallb non_letter (py "1234 5678" ++ NL ++ py "01/02/1990") = true
  /\ forallb non_letter (crop_text PyNone) = true
  /\ extract_name ucd_basic
       (PyStr (py "1234 5678" ++ NL ++ py "01/02/1990")) PyNone
     = Returns None.
Proof.
  split; [vm_compute; reflexivity|]. split; [reflexivity|].
  apply extract_name_needs_a_letter; vm_compute; reflexivity.
Defined.

(** A crop with the name above the date and no full transcript, on
    [ucd_basic]. *)
Lemma extract_name_crop_first_witness :
  first_success
    [dob_strategy ucd_basic (py "Ravi Kumar" ++ NL ++ py "01/02/1990");
     two_word_strategy ucd_basic (py "Ravi Kumar" ++ NL ++ py "01/02/1990")]
  = Some (py "Ravi Kumar")
  /\ extract_name ucd_basic PyNone
       (PyStr (py "Ravi Kumar" ++ NL ++ py "01/02/1990"))
     = Returns (Some (py "Ravi Kumar")).
Proof.
  split; [vm_compute; reflexivity|].
  apply extract_name_crop_first. vm_compute. reflexivity.
Defined.

(** ** The fields of the response *)

Section Response.

Variable U : ucd.

Lemma extract_dob_none (T : str) :
  (forall r, date_format U r = true -> ~ substring_of r T) ->
  extract_dob U (PyStr T) = Returns None.
Proof.
  intros H. unfold extract_dob, py_re_search, bind, re_search.
  destruct (search_from U (date_re U) None T) as [[[b w] rest]|] eqn:E;
    [exfalso|reflexivity].
  apply search_from_sound in E. destruct E as [-> D].
  apply (H w); [eapply date_re_den; eauto|].
  exists b, rest. reflexivity.
Qed.

Lemma extract_aadhar_returns (T : str) :
  exists a, extract_aadhar U (PyStr T) = Returns a.
Proof.
  unfold extract_aadhar, py_re_search, bind.
  destruct (re_search U (aadhar_re U) T); [|eauto].
  destruct (negb _); eauto.
Qed.

(** X12.  The date of birth is read from the crop alone when the crop is
    not empty: if the crop has no part of the form of a date, the
    response has no date of birth, whatever the full transcript holds. *)
Theorem extract_fields_dob_no_fallback (full crop : str) :
  crop <> [] ->
  (forall r, date_format U r = true -> ~ substring_of r crop) ->
  exists f,
    extract_fields U (PyStr full) (PyStr crop) = Returns f /\ dob f = None.
Proof.
  intros Hne Hno. unfold extract_fields.
  destruct (extract_aadhar_returns full) as [a ->]. cbn [bind].
  unfold py_or. replace (truthy (PyStr crop)) with true
    by (destruct crop; [contradiction|reflexivity]).
  rewrite (extract_dob_none crop Hno). cbn [bind].
  rewrite extract_name_chain. cbn [bind]. eexists. split; reflexivity.
Qed.

(** A text without [\d] characters has no part of the form of a date. *)
Lemma no_digit_no_date (t : str) :
  no_digit U t ->
  forall r, date_format U r = true -> ~ substring_of r t.
Proof.
  unfold no_digit. intros Hn r Hr (b & a & ->).
  destruct r as [|d1 r]; [discriminate|].
  assert (Hd : cls_d U d1 = true).
  { destruct r as [|d2 [|s1 [|m1 [|m2 [|s2 [|y1 [|y2 [|y3 [|y4 [|z r]]]]]]]]]];
      try discriminate.
    cbn [date_format forallb] in Hr.
    destruct (cls_d U d1); [reflexivity|discriminate]. }
  rewrite forallb_app in Hn. apply andb_true_iff in Hn. destruct Hn as [_ Hn].
  cbn [app forallb] in Hn. unfold cneg at 1 in Hn. rewrite Hd in Hn.
  discriminate.
Qed.

Hypothesis digit_not_space :
  forall c, isdecimal U c = true -> isspace U c = false.

Hypothesis case_closed :
  forall c, name_out_char c = true ->
            forallb name_out_char (totitle_full U c) = true
            /\ forallb name_out_char (tolower_full U c) = true
            /\ forallb name_out_char (toupper_full U c) = true.

Lemma candidate_value_format g1 g2 g3 :
  length g1 = 4 -> length g2 = 4 -> length g3 = 4 ->
  all_digits U g1 -> all_digits U g2 -> all_digits U g3 ->
  aadhar_format U (g1 ++ SP ++ g2 ++ SP ++ g3) = true.
Proof.
  unfold all_digits. intros L1 L2 L3 D1 D2 D3.
  destruct g1 as [|a1 [|a2 [|a3 [|a4 [|a5 g1]]]]]; cbn [length] in L1; try lia.
  destruct g2 as [|b1 [|b2 [|b3 [|b4 [|b5 g2]]]]]; cbn [length] in L2; try lia.
  destruct g3 as [|c1 [|c2 [|c3 [|c4 [|c5 g3]]]]]; cbn [length] in L3; try lia.
  cbn [forallb] in D1, D2, D3.
  repeat match goal with
         | H : _ && _ = true |- _ => apply andb_true_iff in H; destruct H
         end.
  change (aadhar_format U
            [a1; a2; a3; a4; 32%N; b1; b2; b3; b4; 32%N; c1; c2; c3; c4] = true).
  cbn [aadhar_format forallb].
  repeat match goal with
         | H : cls_d U _ = true |- _ => rewrite H; clear H
         end.
  reflexivity.
Qed.

Lemma extract_aadhar_shape (T : str) :
  exists a,
    extract_aadhar U (PyStr T) = Returns a
    /\ match a with
       | Some r => aadhar_format U r = true
       | None => True
       end.
Proof.
  unfold extract_aadhar, py_re_search, bind, re_search.
  destruct (search_from U (aadhar_re U) None T) as [[[b w] rest]|] eqn:E;
    [|exists None; split; [reflexivity|exact I]].
  pose proof (search_from_sound U _ _ _ _ _ _ E) as [HT D].
  apply (den_candidate U) in D.
  destruct D as (g1 & s1 & g2 & s2 & g3 & -> & Hc).
  destruct Hc as (_ & L1 & L2 & L3 & D1 & D2 & D3 & S1 & S2 & _ & _).
  destruct (aadhar_value U digit_not_space g1 s1 g2 s2 g3
              L1 L2 L3 D1 D2 D3 S1 S2) as [Hlen Hval].
  cbv zeta in Hlen, Hval. rewrite Hlen, Hval. cbn [negb].
  eexists. split; [reflexivity|].
  apply candidate_value_format; assumption.
Qed.

(** X13.  For a full transcript that is a string and a crop that is a
    string or absent, the fields are computed without raising, and each
    field is absent or well formed: the ID is dddd dddd dddd, the date
    is a part of the text it is read from of the form of a date, and the
    name has at least two tokens of name characters. *)
Theorem extract_fields_well_formed (full : str) (crop : pyval) :
  exists f,
    extract_fields U (PyStr full) crop = Returns f
    /\ match aadhar_number f with
       | Some a => aadhar_format U a = true
       | None => True
       end
    /\ match dob f with
       | Some d =>
           date_format U d = true
           /\ substring_of d (if truthy crop then crop_text crop else full)
       | None => True
       end
    /\ match name f with
       | Some n =>
           2 <= length (split U n) /\ forallb name_out_char n = true
       | None => True
       end.
Proof.
  unfold extract_fields.
  (* the ID *)
  destruct (extract_aadhar_shape full) as (a & -> & Ha). cbn [bind].
  (* the date *)
  assert (Hd : exists d,
             extract_dob U (py_or crop (PyStr full)) = Returns d
             /\ match d with
                | Some d =>
                    date_format U d = true
                    /\ substring_of d
                         (if truthy crop then crop_text crop else full)
                | None => True
                end).
  { unfold py_or.
    assert (Hs : forall T, exists d,
                 extract_dob U (PyStr T) = Returns d
                 /\ match d with
                    | Some d => date_format U d = true /\ substring_of d T
                    | None => True
                    end).
    { intros T. unfold extract_dob, py_re_search, bind, re_search.
      destruct (search_from U (date_re U) None T) as [[[b w] rest]|] eqn:E.
      - apply search_from_sound in E. destruct E as [-> D].
        eexists. split; [reflexivity|]. split.
        + eapply date_re_den; eauto.
        + exists b, rest. reflexivity.
      - eexists. split; [reflexivity|exact I]. }
    destruct (truthy crop) eqn:Et.
    - destruct crop as [|c]; [discriminate|]. apply Hs.
    - apply Hs. }
  destruct Hd as (d & -> & Hd). cbn [bind].
  (* the name *)
  rewrite extract_name_chain. cbn [bind].
  eexists. split; [reflexivity|]. cbn [aadhar_number dob name].
  split; [exact Ha|]. split; [exact Hd|].
  destruct (first_success _) as [n|] eqn:En; [|exact I].
  assert (Hn : extract_name U (PyStr full) crop = Returns (Some n))
    by (rewrite extract_name_chain, En; reflexivity).
  apply extract_name_clean in Hn. destruct Hn as [raw Hn].
  apply (clean_alphabet U case_closed) in Hn. exact Hn.
Qed.

End Response.

(** The crop holds the name only, the full transcript also the date, on
    [ucd_basic]. *)
Lemma extract_fields_dob_no_fallback_witness :
  py "Ravi Kumar" <> []
  /\ (forall r, date_format ucd_basic r = true ->
                ~ substring_of r (py "Ravi Kumar"))
  /\ exists f,
       extract_fields ucd_basic
         (PyStr (py "Ravi Kumar" ++ NL ++ py "01/02/1990"))
         (PyStr (py "Ravi Kumar")) = Returns f
       /\ dob f = None.
Proof.
  assert (H : forall r, date_format ucd_basic r = true ->
                        ~ substring_of r (py "Ravi Kumar"))
    by (apply no_digit_no_date; vm_compute; reflexivity).
  split; [discriminate|]. split; [exact H|].
  apply extract_fields_dob_no_fallback; [discriminate|exact H].
Defined.

(** A card with the three fields, the crop holding name and date, on
    [ucd_basic]. *)
Lemma extract_fields_well_formed_witness :
  (forall c, isdecimal ucd_basic c = true -> isspace ucd_basic c = false)
  /\ (forall c, name_out_char c = true ->
         forallb name_out_char (totitle_full ucd_basic c) = true
         /\ forallb name_out_char (tolower_full ucd_basic c) = true
         /\ forallb name_out_char (toupper_full ucd_basic c) = true)
  /\ exists f,
       extract_fields ucd_basic
         (PyStr (py "Ravi Kumar" ++ NL ++ py "DOB: 01/02/1990" ++ NL
                 ++ py "1234 5678 9012"))
         (PyStr (py "Ravi Kumar" ++ NL ++ py "DOB: 01/02/1990"))
       = Returns f
       /\ match aadhar_number f with
          | Some a => aadhar_format ucd_basic a = true
          | None => True
          end
       /\ match dob f with
          | Some d =>
              date_format ucd_basic d = true
              /\ substring_of d
                   (if truthy (PyStr (py "Ravi Kumar" ++ NL
                                      ++ py "DOB: 01/02/1990"))
                    then crop_text (PyStr (py "Ravi Kumar" ++ NL
                                           ++ py "DOB: 01/02/1990"))
                    else py "Ravi Kumar" ++ NL ++ py "DOB: 01/02/1990" ++ NL
                         ++ py "1234 5678 9012")
          | None => True
          end
       /\ match name f with
          | Some n =>
              2 <= length (split ucd_basic n)
              /\ forallb name_out_char n = true
          | None => True
          end.
Proof.
  split; [exact ucd_basic_digit_not_space|].
  split; [exact ucd_basic_case_closed|].
  exact (extract_fields_well_formed ucd_basic ucd_basic_digit_not_space
           ucd_basic_case_closed
           (py "Ravi Kumar" ++ NL ++ py "DOB: 01/02/1990" ++ NL
            ++ py "1234 5678 9012")
           (PyStr (py "Ravi Kumar" ++ NL ++ py "DOB: 01/02/1990"))).
Defined.

(** ** Text already in the form that [ocr] gives *)

Section OcrAgain.

Variable U : ucd.

Lemma replace_char_id (o : char) (s : str) :
  forallb (fun c => negb (c =? o)%N) s = true -> replace_char o [] s = s.
Proof.
  unfold replace_char. induction s as [|c s IH]; [reflexivity|].
  cbn [forallb flat_map]. intros H.
  apply andb_true_iff in H. destruct H as [Hc Hs].
  apply negb_true_iff in Hc. rewrite Hc, IH by assumption. reflexivity.
Qed.

Lemma span_newline_short c (s : str) :
  no_double_newline (c :: s) = true -> span (lit 10%N) (c :: s) <= 1.
Proof.
  rewrite no_double_newline_cons. intros H.
  apply andb_true_iff in H. destruct H as [H _].
  cbn [span]. rewrite lit_newline.
  destruct (c =? 10)%N; [|lia].
  cbn [andb negb] in H. apply negb_true_iff in H.
  destruct s as [|d s]; cbn [span]; [lia|].
  cbn [hd_newline] in H. rewrite lit_newline, H. lia.
Qed.

Lemma search_newlines2_none :
  forall s prev,
    no_double_newline s = true -> search_from U newlines2_re prev s = None.
Proof.
  induction s as [|c s IH]; intros prev H.
  - cbn [search_from]. unfold newlines2_re. rewrite first_match_rep.
    reflexivity.
  - cbn [search_from].
    pose proof (first_match_rep U (lit 10%N) 2 prev (c :: s)) as Hm.
    fold newlines2_re in Hm. rewrite Hm.
    pose proof (span_newline_short c s H) as Hle.
    destruct (2 <=? span (lit 10%N) (c :: s)) eqn:E;
      [apply Nat.leb_le in E; lia|].
    rewrite no_double_newline_cons in H.
    apply andb_true_iff in H. destruct H as [_ H].
    rewrite (IH (Some c) H). reflexivity.
Qed.

(** X14.  [ocr] leaves unchanged a text that already has the form of its
    results: when the engine gives a text that the normalisation keeps,
    without carriage return, without two newlines in a row and without
    white space at either end, that text is returned as it is. *)
Theorem ocr_fixed_point (nfkc : str -> str) (t : str) :
  nfkc t = t ->
  forallb (fun c => negb (c =? 13)%N) t = true ->
  no_double_newline t = true ->
  stripped U t = true ->
  ocr U nfkc t = t.
Proof.
  intros Hn Hr Hd Hs. unfold ocr. rewrite Hn.
  rewrite (replace_char_id 13%N t Hr).
  unfold re_sub. rewrite (sub_go_none U newlines2_re NL t None)
    by (apply search_newlines2_none; exact Hd).
  apply stripped_strip_id. exact Hs.
Qed.

End OcrAgain.

(** Two lines, on [ucd_basic], with a normalisation that changes
    nothing. *)
Lemma ocr_fixed_point_witness :
  (fun x : str => x) (py "Ravi Kumar" ++ NL ++ py "01/02/1990")
  = py "Ravi Kumar" ++ NL ++ py "01/02/1990"
  /\ forallb (fun c => negb (c =? 13)%N)
       (py "Ravi Kumar" ++ NL ++ py "01/02/1990") = true
  /\ no_double_newline (py "Ravi Kumar" ++ NL ++ py "01/02/1990") = true
  /\ stripped ucd_basic (py "Ravi Kumar" ++ NL ++ py "01/02/1990") = true
  /\ ocr ucd_basic (fun x => x) (py "Ravi Kumar" ++ NL ++ py "01/02/1990")
     = py "Ravi Kumar" ++ NL ++ py "01/02/1990".
Proof.
  split; [reflexivity|]. split; [vm_compute; reflexivity|].
  split; [vm_compute; reflexivity|]. split; [vm_compute; reflexivity|].
  apply ocr_fixed_point; vm_compute; reflexivity.
Defined.
